(** * dfcleaner: a shallow embedding of [src/dfcleaner/core.py]

    The class [DFCleaner] normalises a pandas [DataFrame] into a
    time-indexed table.  The methods are embedded as computations over a
    store of [DataFrame] objects, so that [df.copy()], in-place mutation
    ([df[col] = ...], [set_index(inplace=True)], [df.index = ...]) and
    aliasing are visible.  The pandas routines the methods call but whose
    algorithm lives outside the repository (string lowering, the date
    parsers, [infer_freq], the time-zone database) are the fields of an
    environment record [Env]; the wall clock is a [Clock]. *)

From Stdlib Require Import ZArith List Bool Lia String Ascii.
From Stdlib Require Import Sorted Permutation DecimalString.
Import ListNotations.

Local Open Scope string_scope.
Local Open Scope Z_scope.

Set Implicit Arguments.

(** ** Exceptions and results *)

Inductive exn : Type :=
| KeyError
| ValueError
| TypeError
| AttributeError
| OutOfBoundsDatetime
| TzError.

Inductive result (A : Type) : Type :=
| Ok (a : A)
| Raise (e : exn).

Arguments Ok {A} a.
Arguments Raise {A} e.

Definition rbind {A B} (r : result A) (f : A -> result B) : result B :=
  match r with
  | Ok a => f a
  | Raise e => Raise e
  end.

(** [mapr f xs] maps a fallible function over a list and stops at the
    first exception, as a vectorised pandas routine does. *)
Fixpoint mapr {A B} (f : A -> result B) (xs : list A) : result (list B) :=
  match xs with
  | [] => Ok []
  | x :: xs' =>
      rbind (f x) (fun y => rbind (mapr f xs') (fun ys => Ok (y :: ys)))
  end.

(** ** Calendar arithmetic (proleptic Gregorian, as [datetime] has it)

    A naive timestamp is a number of nanoseconds since 1970-01-01 00:00;
    an aware timestamp is its UTC instant in the same unit. *)

Module Calendar.

Definition NS_PER_MS : Z := 1000000.
Definition NS_PER_SEC : Z := 1000000000.
Definition NS_PER_DAY : Z := 86400 * NS_PER_SEC.

(** Number of days since 1970-01-01 of the civil date [y]-[m]-[d]. *)
Definition days_from_civil (y m d : Z) : Z :=
  let y' := if m <=? 2 then y - 1 else y in
  let era := y' / 400 in
  let yoe := y' - era * 400 in
  let mp := if m >? 2 then m - 3 else m + 9 in
  let doy := (153 * mp + 2) / 5 + d - 1 in
  let doe := yoe * 365 + yoe / 4 - yoe / 100 + doy in
  era * 146097 + doe - 719468.

(** Civil date (year, month, day) of a day number. *)
Definition civil_from_days (z : Z) : Z * Z * Z :=
  let z' := z + 719468 in
  let era := z' / 146097 in
  let doe := z' - era * 146097 in
  let yoe := (doe - doe / 1460 + doe / 36524 - doe / 146096) / 365 in
  let doy := doe - (365 * yoe + yoe / 4 - yoe / 100) in
  let mp := (5 * doy + 2) / 153 in
  let d := doy - (153 * mp + 2) / 5 + 1 in
  let m := if mp <? 10 then mp + 3 else mp - 9 in
  let y := yoe + era * 400 in
  ((if m <=? 2 then y + 1 else y), m, d).

Definition day_of (t : Z) : Z := t / NS_PER_DAY.
Definition time_of_day (t : Z) : Z := t mod NS_PER_DAY.

Definition year (t : Z) : Z := fst (fst (civil_from_days (day_of t))).
Definition month (t : Z) : Z := snd (fst (civil_from_days (day_of t))).
Definition day (t : Z) : Z := snd (civil_from_days (day_of t)).

(** [Timestamp.weekday()]: Monday is 0; 1970-01-01 was a Thursday. *)
Definition weekday (t : Z) : Z := (day_of t + 3) mod 7.

(** [pd.Timestamp(dt.date(y, m, d))]: midnight of a civil date. *)
Definition midnight (y m d : Z) : Z := days_from_civil y m d * NS_PER_DAY.

(** Wall-clock timestamp from its fields. *)
Definition at_time (y m d hh mm ss : Z) : Z :=
  midnight y m d + (hh * 3600 + mm * 60 + ss) * NS_PER_SEC.

(** [Timestamp.replace(day=1)] on the wall-clock fields. *)
Definition replace_day1 (t : Z) : Z :=
  midnight (year t) (month t) 1 + time_of_day t.

(** Bounds of a nanosecond timestamp ([Timestamp.min], [Timestamp.max]). *)
Definition in_bounds (t : Z) : bool :=
  (- 2 ^ 63 <? t) && (t <? 2 ^ 63).

End Calendar.

(** ** Strings *)

Definition is_upper (c : ascii) : bool :=
  let n := nat_of_ascii c in (65 <=? n)%nat && (n <=? 90)%nat.

Definition ascii_lower_char (c : ascii) : ascii :=
  if is_upper c then ascii_of_nat (nat_of_ascii c + 32) else c.

(** ASCII lowering; agrees with [str.lower] on ASCII strings. *)
Fixpoint ascii_lower (s : string) : string :=
  match s with
  | EmptyString => EmptyString
  | String c s' => String (ascii_lower_char c) (ascii_lower s')
  end.

(** Python truthiness of a string: the empty string is falsy. *)
Definition str_truthy (s : string) : bool :=
  match s with
  | EmptyString => false
  | String _ _ => true
  end.

(** Truthiness of [None]-or-string. *)
Definition opt_truthy (o : option string) : bool :=
  match o with
  | Some s => str_truthy s
  | None => false
  end.

Definition string_of_Z (n : Z) : string :=
  NilZero.string_of_int (Z.to_int n).

(** [skip_replace old new k s]: [str.replace(old, new)] on [s], the first
    [k] characters of [s] being the tail of a match already replaced.
    [old] is not empty. *)
Fixpoint skip_replace (old new : string) (k : nat) (s : string) : string :=
  match s with
  | EmptyString => EmptyString
  | String c s' =>
      match k with
      | S k' => skip_replace old new k' s'
      | O =>
          if prefix old s
          then new ++ skip_replace old new (String.length old - 1) s'
          else String c (skip_replace old new O s')
      end
  end.

(** [s.replace(old, new)]: every non-overlapping occurrence, left to right. *)
Definition str_replace (old new : string) (s : string) : string :=
  skip_replace old new O s.

Fixpoint str_contains (c : ascii) (s : string) : bool :=
  match s with
  | EmptyString => false
  | String c' s' => Ascii.eqb c c' || str_contains c s'
  end.

(** ** Numbers read from text: the grammar of [pd.to_numeric]

    A numeric literal is optional white space, an optional sign, decimal
    digits with an optional point, an optional exponent, optional white
    space.  The scanner below reads one character at a time; the value of
    an accepted literal is [mantissa * 10 ^ exponent], kept exact. *)

Module Numeric.

Inductive nstate : Type :=
| SLead       (* leading white space *)
| SSign       (* sign read, no digit yet *)
| SInt        (* in the integer digits *)
| SDot0       (* point read before any digit *)
| SFrac       (* after the point, a digit was read on either side *)
| SExp0       (* exponent marker read *)
| SExpSign    (* exponent sign read *)
| SExpDigits  (* in the exponent digits *)
| STrail.     (* trailing white space *)

Record acc : Type := mkAcc {
  a_neg : bool;   (* mantissa sign *)
  a_mant : Z;     (* mantissa digits read so far *)
  a_frac : Z;     (* number of digits after the point *)
  a_eneg : bool;  (* exponent sign *)
  a_exp : Z;      (* exponent digits read so far *)
  a_int : bool    (* no point and no exponent marker read so far *)
}.

Definition acc0 : acc := mkAcc false 0 0 false 0 true.

Definition is_space (c : ascii) : bool :=
  let n := nat_of_ascii c in
  (n =? 32)%nat || ((9 <=? n)%nat && (n <=? 13)%nat).

Definition is_digit (c : ascii) : bool :=
  let n := nat_of_ascii c in (48 <=? n)%nat && (n <=? 57)%nat.

Definition digit_val (c : ascii) : Z := Z.of_nat (nat_of_ascii c) - 48.

Definition is_sign (c : ascii) : bool :=
  Ascii.eqb c "+" || Ascii.eqb c "-".

Definition is_exp (c : ascii) : bool :=
  Ascii.eqb c "e" || Ascii.eqb c "E".

Definition is_point (c : ascii) : bool := Ascii.eqb c ".".

Definition push_int (a : acc) (c : ascii) : acc :=
  mkAcc (a_neg a) (a_mant a * 10 + digit_val c) (a_frac a) (a_eneg a) (a_exp a)
        (a_int a).

Definition push_frac (a : acc) (c : ascii) : acc :=
  mkAcc (a_neg a) (a_mant a * 10 + digit_val c) (a_frac a + 1)
        (a_eneg a) (a_exp a) (a_int a).

Definition push_exp (a : acc) (c : ascii) : acc :=
  mkAcc (a_neg a) (a_mant a) (a_frac a) (a_eneg a) (a_exp a * 10 + digit_val c)
        (a_int a).

Definition set_neg (a : acc) (c : ascii) : acc :=
  mkAcc (Ascii.eqb c "-") (a_mant a) (a_frac a) (a_eneg a) (a_exp a) (a_int a).

Definition set_eneg (a : acc) (c : ascii) : acc :=
  mkAcc (a_neg a) (a_mant a) (a_frac a) (Ascii.eqb c "-") (a_exp a) (a_int a).

(** A point or an exponent marker was read: the literal is not an
    integer literal. *)
Definition not_int (a : acc) : acc :=
  mkAcc (a_neg a) (a_mant a) (a_frac a) (a_eneg a) (a_exp a) false.

(** One character of the scan; [None] rejects the literal. *)
Definition step (st : nstate) (a : acc) (c : ascii) : option (nstate * acc) :=
  match st with
  | SLead =>
      if is_space c then Some (SLead, a)
      else if is_sign c then Some (SSign, set_neg a c)
      else if is_digit c then Some (SInt, push_int a c)
      else if is_point c then Some (SDot0, not_int a)
      else None
  | SSign =>
      if is_digit c then Some (SInt, push_int a c)
      else if is_point c then Some (SDot0, not_int a)
      else None
  | SInt =>
      if is_digit c then Some (SInt, push_int a c)
      else if is_point c then Some (SFrac, not_int a)
      else if is_exp c then Some (SExp0, not_int a)
      else if is_space c then Some (STrail, a)
      else None
  | SDot0 =>
      if is_digit c then Some (SFrac, push_frac a c) else None
  | SFrac =>
      if is_digit c then Some (SFrac, push_frac a c)
      else if is_exp c then Some (SExp0, not_int a)
      else if is_space c then Some (STrail, a)
      else None
  | SExp0 =>
      if is_sign c then Some (SExpSign, set_eneg a c)
      else if is_digit c then Some (SExpDigits, push_exp a c)
      else None
  | SExpSign =>
      if is_digit c then Some (SExpDigits, push_exp a c) else None
  | SExpDigits =>
      if is_digit c then Some (SExpDigits, push_exp a c)
      else if is_space c then Some (STrail, a)
      else None
  | STrail =>
      if is_space c then Some (STrail, a) else None
  end.

Definition accepting (st : nstate) : bool :=
  match st with
  | SInt | SFrac | SExpDigits | STrail => true
  | _ => false
  end.

Fixpoint scan (st : nstate) (a : acc) (s : string) : option acc :=
  match s with
  | EmptyString => if accepting st then Some a else None
  | String c s' =>
      match step st a c with
      | Some (st', a') => scan st' a' s'
      | None => None
      end
  end.

(** The infinity literals, case-insensitively; [Some true] is negative. *)
Definition parse_inf (s : string) : option bool :=
  let l := ascii_lower s in
  if String.eqb l "inf" || String.eqb l "+inf"
     || String.eqb l "infinity" || String.eqb l "+infinity" then Some false
  else if String.eqb l "-inf" || String.eqb l "-infinity" then Some true
  else None.

(** Number of decimal digits in a text. *)
Fixpoint digit_count (s : string) : nat :=
  match s with
  | EmptyString => O
  | String c s' => if is_digit c then S (digit_count s') else digit_count s'
  end.

(** What [pd.to_numeric(..., errors='coerce')] reads from one string.
    A double is given by its exact value [m * 10^e]. *)
Inductive reading : Type :=
| RInt (n : Z) (f : Z * Z)   (* an integer literal: its value, and the
                                double read from it *)
| RFloat (f : Z * Z)         (* a literal with a point or an exponent *)
| RInf (neg : bool)
| RMissing.                  (* not a number: coerced to missing *)

(** A string is first read as a double ([strtod]: the library's
    conversion of a literal the scanner accepts, [None] when it reports
    a range error); a literal without point and exponent is then read as
    an integer too.  An integer literal of at most 15 digits is read
    exactly: the digits are accumulated in a double, which holds every
    integer below [10^15].  What the scanner rejects is an infinity
    literal or not a number. *)
Definition read_text (strtod : string -> option (Z * Z)) (s : string)
  : reading :=
  match scan SLead acc0 s with
  | Some a =>
      let n := if a_neg a then - a_mant a else a_mant a in
      if a_int a then
        if (digit_count s <=? 15)%nat then RInt n (n, 0)
        else match strtod s with
             | Some f => RInt n f
             | None => RMissing
             end
      else match strtod s with
           | Some f => RFloat f
           | None => RMissing
           end
  | None =>
      match parse_inf s with
      | Some neg => RInf neg
      | None => RMissing
      end
  end.

End Numeric.

(** ** The pandas data model *)

Inductive cell : Type :=
| NA                      (* NaN, None, NaT *)
| Str (s : string)
| Int (n : Z)
| Float (m e : Z)         (* the number m * 10^e *)
| Inf (neg : bool)
| Bool (b : bool)
| Time (t : Z).           (* nanoseconds; UTC instant when the dtype is aware *)

Inductive dtype : Type :=
| DObject
| DString
| DInt64
| DUInt64
| DFloat64
| DBool
| DDatetime (tz : option string).   (* datetime64[ns] or datetime64[ns, tz] *)

Record Series : Type := mkSeries {
  s_dtype : dtype;
  s_values : list cell
}.

(** A [DataFrame]: named columns in order (names may repeat) and an index. *)
Record DataFrame : Type := mkDF {
  df_columns : list (string * Series);
  df_index : Series
}.

Definition column_names (d : DataFrame) : list string :=
  map fst (df_columns d).

(** [pd.api.types.is_datetime64_any_dtype(index)]. *)
Definition is_datetime64_any_dtype (ix : Series) : bool :=
  match s_dtype ix with
  | DDatetime _ => true
  | _ => false
  end.

(** [index.tz] of a datetime index. *)
Definition index_tz (ix : Series) : option string :=
  match s_dtype ix with
  | DDatetime tz => tz
  | _ => None
  end.

(** The columns of [d] named [col] ([df[col]] is a Series when there is
    exactly one, a DataFrame when there are several). *)
Definition select (d : DataFrame) (col : string) : list Series :=
  map snd (filter (fun p => String.eqb (fst p) col) (df_columns d)).

(** [df[col] = ser] for an existing column name. *)
Definition setitem (d : DataFrame) (col : string) (ser : Series) : DataFrame :=
  mkDF (map (fun p => if String.eqb (fst p) col then (fst p, ser) else p)
            (df_columns d))
       (df_index d).

(** [df.set_index(col)]: the column becomes the index and leaves the
    column set. *)
Definition set_index (d : DataFrame) (col : string) (ser : Series) : DataFrame :=
  mkDF (filter (fun p => negb (String.eqb (fst p) col)) (df_columns d)) ser.

(** Rows selected by a boolean mask. *)
Fixpoint mask_select {A} (mask : list bool) (xs : list A) : list A :=
  match mask, xs with
  | b :: mask', x :: xs' =>
      if b then x :: mask_select mask' xs' else mask_select mask' xs'
  | _, _ => []
  end.

Definition series_mask (mask : list bool) (s : Series) : Series :=
  mkSeries (s_dtype s) (mask_select mask (s_values s)).

(** [df[mask]]. *)
Definition df_mask (mask : list bool) (d : DataFrame) : DataFrame :=
  mkDF (map (fun p => (fst p, series_mask mask (snd p))) (df_columns d))
       (series_mask mask (df_index d)).

(** [index < bound] elementwise: a missing entry compares false. *)
Definition cell_lt (bound : Z) (c : cell) : bool :=
  match c with
  | Time t => t <? bound
  | _ => false
  end.

Definition index_lt (ix : Series) (bound : Z) : list bool :=
  map (cell_lt bound) (s_values ix).

(** Sort key of an index entry; missing entries sort last. *)
Definition sort_key (c : cell) : option Z :=
  match c with
  | Time t => Some t
  | Int n => Some n
  | _ => None
  end.

Definition key_le (a b : option Z) : bool :=
  match a, b with
  | Some x, Some y => x <=? y
  | _, None => true
  | None, Some _ => false
  end.

Definition pair_le (p q : option Z * nat) : Prop :=
  key_le (fst p) (fst q) = true.

(** Insertion of a (key, position) pair into a list sorted by key. *)
Fixpoint insert_by_key (p : option Z * nat) (l : list (option Z * nat))
  : list (option Z * nat) :=
  match l with
  | [] => [p]
  | q :: l' =>
      if key_le (fst p) (fst q) then p :: l else q :: insert_by_key p l'
  end.

Fixpoint sort_pairs (l : list (option Z * nat)) : list (option Z * nat) :=
  match l with
  | [] => []
  | p :: l' => insert_by_key p (sort_pairs l')
  end.

Fixpoint enumerate {A} (i : nat) (xs : list A) : list (A * nat) :=
  match xs with
  | [] => []
  | x :: xs' => (x, i) :: enumerate (S i) xs'
  end.

(** [argsort] of the index: the positions of the rows in ascending key
    order.  (The order of rows with equal keys is not fixed by pandas'
    default sort; nothing below depends on it.) *)
Definition argsort (ix : Series) : list nat :=
  map snd (sort_pairs (enumerate O (map sort_key (s_values ix)))).

(** [take]: the entries at the given positions. *)
Fixpoint take {A} (pos : list nat) (xs : list A) : list A :=
  match pos with
  | [] => []
  | i :: pos' =>
      match nth_error xs i with
      | Some x => x :: take pos' xs
      | None => take pos' xs
      end
  end.

Definition series_take (pos : list nat) (s : Series) : Series :=
  mkSeries (s_dtype s) (take pos (s_values s)).

(** [df.sort_index()]. *)
Definition sort_index (d : DataFrame) : DataFrame :=
  let pos := argsort (df_index d) in
  mkDF (map (fun p => (fst p, series_take pos (snd p))) (df_columns d))
       (series_take pos (df_index d)).

(** ** What the methods take from pandas, dateutil and the zone database *)

Record Env : Type := mkEnv {
  (** [str.lower]; the empty string is its own lowering *)
  py_lower : string -> string;
  py_lower_empty : py_lower "" = "";
  (** [str(x)] of a cell that is neither a string nor an integer *)
  py_str : cell -> string;
  (** [pd.to_datetime(s, format='%Y')] of one string: the year, [None]
      for a missing-value string, or the exception *)
  strptime_Y : string -> result (option Z);
  (** [pd.to_datetime(x, unit='ms')] of a cell that is not an in-range
      integer *)
  to_datetime_ms_other : cell -> result (option Z);
  (** [pd.to_datetime(series, dayfirst=, errors='coerce')] *)
  to_datetime_coerce : bool -> Series -> result Series;
  (** [pd.infer_freq(index)] *)
  infer_freq : Series -> result (option string);
  (** the zone identifier is known to the zone database *)
  tz_valid : string -> bool;
  (** UTC offset, in nanoseconds, in force in a zone at a UTC instant *)
  tz_utcoffset : string -> Z -> Z;
  (** [tz_localize]: the UTC instant of a wall-clock time in a zone; it
      raises on a wall-clock time that does not exist or is ambiguous *)
  tz_localize_wall : string -> Z -> result Z;
  (** [Timestamp.replace] on an aware timestamp: the UTC instant of the
      replaced wall-clock time *)
  tz_replace_wall : string -> Z -> result Z;
  (** the double [pd.to_numeric] reads from a numeric literal, by its
      exact value [m * 10^e]; [None] when the conversion reports a range
      error *)
  strtod : string -> option (Z * Z);
  (** [pd.to_numeric(series, errors='coerce')] on a column that is not an
      object column of strings and missing values *)
  to_numeric_other : Series -> Series
}.

(** The readings of the clock a call makes. *)
Record Clock : Type := mkClock {
  (** [pd.Timestamp.now(tz)]: the current UTC instant, nanoseconds *)
  now_utc : Z;
  (** [dt.date.today()]: the local date, days since 1970-01-01 *)
  date_today : Z
}.

(** ** The object store and the monad of the methods *)

Definition ref : Type := nat.
Definition store : Type := list DataFrame.

Definition M (A : Type) : Type := store -> result A * store.

Definition ret {A} (a : A) : M A := fun s => (Ok a, s).

Definition raise {A} (e : exn) : M A := fun s => (Raise e, s).

Definition bind {A B} (m : M A) (f : A -> M B) : M B :=
  fun s =>
    match m s with
    | (Ok a, s') => f a s'
    | (Raise e, s') => (Raise e, s')
    end.

(** [try: m except Exception: h]. *)
Definition try_except {A} (m : M A) (h : exn -> M A) : M A :=
  fun s =>
    match m s with
    | (Ok a, s') => (Ok a, s')
    | (Raise e, s') => h e s'
    end.

Definition lift {A} (r : result A) : M A :=
  match r with
  | Ok a => ret a
  | Raise e => raise e
  end.

Declare Scope df_scope.
Delimit Scope df_scope with df.
Notation "x <- m ;; k" := (bind m (fun x => k))
  (at level 61, m at next level, right associativity) : df_scope.
Notation "m ;;; k" := (bind m (fun _ => k))
  (at level 61, right associativity) : df_scope.
Local Open Scope df_scope.

(** Read the object behind a reference. *)
Definition deref (r : ref) : M DataFrame :=
  fun s =>
    match nth_error s r with
    | Some d => (Ok d, s)
    | None => (Raise KeyError, s)
    end.

Fixpoint list_set {A} (l : list A) (i : nat) (x : A) : list A :=
  match l, i with
  | [], _ => []
  | _ :: l', O => x :: l'
  | y :: l', S i' => y :: list_set l' i' x
  end.

(** Overwrite the object behind a reference (mutation in place). *)
Definition assign (r : ref) (d : DataFrame) : M unit :=
  fun s => (Ok tt, list_set s r d).

(** A new object. *)
Definition alloc (d : DataFrame) : M ref :=
  fun s => (Ok (List.length s), (s ++ [d])%list).

(** [df.copy()]. *)
Definition copy (r : ref) : M ref :=
  d <- deref r ;; alloc d.

(** A computation that leaves the first [n] objects of the store alone
    and whose result, if any, satisfies [post]. *)
Definition keeps (n : nat) {A} (m : M A) (post : A -> Prop) : Prop :=
  forall s, (n <= List.length s)%nat ->
    firstn n (snd (m s)) = firstn n s
    /\ (n <= List.length (snd (m s)))%nat
    /\ (forall a, fst (m s) = Ok a -> post a).

(** ** The class [DFCleaner] *)

Record DFCleaner : Type := mkDFCleaner {
  (** ['UTC'], ['US/Eastern'], ...; [None] removes time-zone awareness *)
  timezone : option string
}.

(** The literal list of [detect_time_col]. *)
Definition time_cols_literal : list string :=
  ["date"; "dt"; "hour"; "time"; "day"; "month"; "year"; "week"; "timestamp";
   "block_timestamp"; "ds"; "period"; "date_time"; "trunc_date"; "quarter";
   "block_time"; "block_date"; "date(utc)"].

(** [x in xs] for strings. *)
Definition str_in (x : string) (xs : list string) : bool :=
  existsb (String.eqb x) xs.

Section Methods.

Variable E : Env.
Variable clk : Clock.

(** *** Index operations of the time-zone policy *)

Definition wall_of (z : string) (t : Z) : Z := t + tz_utcoffset E z t.

Definition localize_cell (z : string) (c : cell) : result cell :=
  match c with
  | Time w => rbind (tz_localize_wall E z w) (fun t => Ok (Time t))
  | _ => Ok c
  end.

Definition naive_cell (z : string) (c : cell) : cell :=
  match c with
  | Time t => Time (wall_of z t)
  | _ => c
  end.

(** [index.tz_localize(tz)] on a datetime index. *)
Definition index_tz_localize (tz : option string) (ix : Series) : result Series :=
  match tz with
  | None =>
      match index_tz ix with
      | None => Ok ix
      | Some z0 =>
          Ok (mkSeries (DDatetime None) (map (naive_cell z0) (s_values ix)))
      end
  | Some z =>
      if tz_valid E z then
        match index_tz ix with
        | None =>
            rbind (mapr (localize_cell z) (s_values ix))
                  (fun vs => Ok (mkSeries (DDatetime (Some z)) vs))
        | Some _ => Raise TypeError
        end
      else Raise TzError
  end.

(** [index.tz_convert(tz)] on a datetime index: the instants stay. *)
Definition index_tz_convert (z : string) (ix : Series) : result Series :=
  if tz_valid E z then
    match index_tz ix with
    | None => Raise TypeError
    | Some _ => Ok (mkSeries (DDatetime (Some z)) (s_values ix))
    end
  else Raise TzError.

(** [df.index = ix]. *)
Definition set_df_index (df : ref) (ix : Series) : M unit :=
  d <- deref df ;; assign df (mkDF (df_columns d) ix).

(** *** [apply_timezone] *)

Definition apply_timezone (self : DFCleaner) (df : ref) : M ref :=
  d <- deref df ;;
  if negb (is_datetime64_any_dtype (df_index d)) then ret df
  else
    match timezone self with
    | Some z =>
        if str_truthy z then
          match index_tz (df_index d) with
          | None =>
              ix <- lift (index_tz_localize (Some z) (df_index d)) ;;
              set_df_index df ix ;;;
              ret df
          | Some _ =>
              ix <- lift (index_tz_convert z (df_index d)) ;;
              set_df_index df ix ;;;
              ret df
          end
        else
          ix <- lift (index_tz_localize None (df_index d)) ;;
          set_df_index df ix ;;;
          ret df
    | None =>
        ix <- lift (index_tz_localize None (df_index d)) ;;
        set_df_index df ix ;;;
        ret df
    end.

(** The index [apply_timezone] assigns to a table whose index [ix] is a
    datetime index, one case per assignment of the method. *)
Definition tz_policy (self : DFCleaner) (ix : Series) : result Series :=
  match timezone self with
  | Some z =>
      if str_truthy z then
        match index_tz ix with
        | None => index_tz_localize (Some z) ix
        | Some _ => index_tz_convert z ix
        end
      else index_tz_localize None ix
  | None => index_tz_localize None ix
  end.

(** *** [detect_time_col] *)

(** The [for col in df.columns] loop: the first name whose lowering is in
    the list. *)
Fixpoint first_time_col (time_cols : list string) (cols : list string)
  : option string :=
  match cols with
  | [] => None
  | col :: cols' =>
      if str_in (py_lower E col) time_cols then Some col
      else first_time_col time_cols cols'
  end.

Definition detect_time_col (self : DFCleaner) (df : ref)
           (custom_col : option string) : M (option string) :=
  d <- deref df ;;
  let time_cols := time_cols_literal in
  let time_cols :=
    match custom_col with
    | Some c =>
        if str_truthy c then (time_cols ++ [py_lower E c])%list else time_cols
    | None => time_cols
    end in
  ret (first_time_col time_cols (column_names d)).

(** *** [to_time] *)

(** [df[col]] where a Series is expected: a name that is absent raises
    [KeyError]; a repeated name yields a DataFrame, which the caller
    rejects with [dup]. *)
Definition getitem (dup : exn) (d : DataFrame) (col : string) : result Series :=
  match select d col with
  | [] => Raise KeyError
  | [ser] => Ok ser
  | _ => Raise dup
  end.

(** [series.astype(str)] on one cell. *)
Definition astype_str (c : cell) : string :=
  match c with
  | Str s => s
  | Int n => string_of_Z n
  | _ => py_str E c
  end.

(** [.dt.year] of the parsed years: integers, or floats once a value is
    missing. *)
Definition dt_year (ys : list (option Z)) : Series :=
  if forallb (fun y => match y with Some _ => true | None => false end) ys
  then mkSeries DInt64
         (map (fun y => match y with Some n => Int n | None => NA end) ys)
  else mkSeries DFloat64
         (map (fun y => match y with Some n => Float n 0 | None => NA end) ys).

(** [pd.to_datetime(df[col].astype(str), format='%Y').dt.year] *)
Definition to_datetime_year (ser : Series) : result Series :=
  rbind (mapr (fun c => strptime_Y E (astype_str c)) (s_values ser))
        (fun ys => Ok (dt_year ys)).

(** One value under [unit='ms']: an integer is a number of milliseconds
    since the epoch. *)
Definition ms_cell (c : cell) : result (option Z) :=
  match c with
  | Int n =>
      if Calendar.in_bounds (n * Calendar.NS_PER_MS)
      then Ok (Some (n * Calendar.NS_PER_MS))
      else to_datetime_ms_other E c
  | _ => to_datetime_ms_other E c
  end.

Definition time_cell (t : option Z) : cell :=
  match t with
  | Some n => Time n
  | None => NA
  end.

(** [pd.to_datetime(df[col], unit='ms')] *)
Definition to_datetime_ms (ser : Series) : result Series :=
  rbind (mapr ms_cell (s_values ser))
        (fun ts => Ok (mkSeries (DDatetime None) (map time_cell ts))).

(** The [if]/[elif]/[else] of [to_time]: the parsed column, by the
    lowered name of the column. *)
Definition convert_column (dayfirst : bool) (col : string) (ser : Series)
  : result Series :=
  if String.eqb (py_lower E col) "year" then to_datetime_year ser
  else if String.eqb (py_lower E col) "timestamp" then to_datetime_ms ser
  else to_datetime_coerce E dayfirst ser.

(** The [try] block of [to_time]: the frequency of the index of [df],
    [time_freq] being the value set before the block. *)
Definition infer_time_freq (df : ref) (time_freq : string) : M string :=
  try_except
    (d <- deref df ;;
     if (3 <=? List.length (s_values (df_index d)))%nat then
       inferred <- lift (infer_freq E (df_index d)) ;;
       ret (match inferred with
            | Some f => if str_truthy f then f else "D"
            | None => "D"
            end)
     else ret time_freq)
    (fun _ => ret "D").

Definition to_time (self : DFCleaner) (df : ref) (time_col : option string)
           (dayfirst : bool) : M (ref * string) :=
  df <- copy df ;;
  col <- (if opt_truthy time_col then ret time_col
          else detect_time_col self df None) ;;
  let time_freq := "D" in
  if opt_truthy col then
    match col with
    | Some col =>
        d <- deref df ;;
        ser <- lift (getitem ValueError d col) ;;
        conv <- lift (convert_column dayfirst col ser) ;;
        assign df (setitem d col conv) ;;;
        d <- deref df ;;
        key <- lift (getitem ValueError d col) ;;
        assign df (set_index d col key) ;;;
        df <- apply_timezone self df ;;
        time_freq <- infer_time_freq df time_freq ;;
        ret (df, time_freq)
    | None => ret (df, time_freq)
    end
  else ret (df, time_freq).

(** *** [clean_dates] *)

(** [today]: the current instant for an aware index, midnight of the
    current date for a naive one. *)
Definition today_of (tz : option string) : Z :=
  match tz with
  | Some _ => now_utc clk
  | None => date_today clk * Calendar.NS_PER_DAY
  end.

(** The wall-clock reading of [today]. *)
Definition today_wall (tz : option string) : Z :=
  match tz with
  | Some z => wall_of z (today_of tz)
  | None => today_of tz
  end.

(** The bound each branch compares the index with. *)
Definition trim_bound (tz : option string) (time_freq : string) : result Z :=
  let today := today_of tz in
  let wall := today_wall tz in
  if String.eqb time_freq "W" then
    (* today - pd.to_timedelta(today.weekday(), unit='d') *)
    Ok (today - Calendar.weekday wall * Calendar.NS_PER_DAY)
  else if String.eqb time_freq "M" then
    (* today.replace(day=1) *)
    match tz with
    | Some z => tz_replace_wall E z (Calendar.replace_day1 wall)
    | None => Ok (Calendar.replace_day1 wall)
    end
  else if String.eqb time_freq "Q" then
    let current_quarter := (Calendar.month wall - 1) / 3 + 1 in
    let quarter_start :=
      Calendar.midnight (Calendar.year wall) ((current_quarter - 1) * 3 + 1) 1 in
    match tz with
    | Some z => tz_localize_wall E z quarter_start
    | None => Ok quarter_start
    end
  else Ok today.

Definition clean_dates (self : DFCleaner) (df : ref) (time_freq : string)
  : M ref :=
  df <- copy df ;;
  d <- deref df ;;
  if negb (is_datetime64_any_dtype (df_index d)) then raise AttributeError
  else
    bound <- lift (trim_bound (index_tz (df_index d)) time_freq) ;;
    df <- alloc (df_mask (index_lt (df_index d) bound) d) ;;
    d <- deref df ;;
    alloc (sort_index d).

(** *** [cleaning_values] *)

Definition is_text_dtype (t : dtype) : bool :=
  match t with
  | DObject | DString => true
  | _ => false
  end.

(** [df.select_dtypes(include=['object', 'string']).columns] *)
Definition text_columns (d : DataFrame) : list string :=
  map fst (filter (fun p => is_text_dtype (s_dtype (snd p))) (df_columns d)).

Definition is_na (c : cell) : bool :=
  match c with NA => true | _ => false end.

Definition text_or_missing (c : cell) : bool :=
  match c with
  | Str _ | NA => true
  | _ => false
  end.

Definition is_number (c : cell) : bool :=
  match c with Int _ | Float _ _ | Inf _ => true | _ => false end.

Definition is_bool (c : cell) : bool :=
  match c with Bool _ => true | _ => false end.

Definition is_time (c : cell) : bool :=
  match c with Time _ => true | _ => false end.

(** The [.str] accessor of an object column: pandas infers the kind of
    the values that are not missing and refuses a column whose values are
    all numbers, all booleans or all timestamps; strings, a mix of other
    kinds and a column without values pass. *)
Definition str_accessor_ok (vs : list cell) : bool :=
  let present := filter (fun c => negb (is_na c)) vs in
  match present with
  | [] => true
  | _ => negb (forallb is_number present || forallb is_bool present
               || forallb is_time present)
  end.

Definition is_str (c : cell) : bool :=
  match c with Str _ => true | _ => false end.

(** The dtype of what [.str.replace] returns on an object column.  The
    result is an object array of strings and missing values, and pandas
    infers its dtype: without any string it is float64, unless every
    value of the column was missing (nothing is inferred then). *)
Definition replaced_dtype (vs : list cell) : dtype :=
  if existsb is_str vs || forallb is_na vs then DObject else DFloat64.

(** What [.str.replace] makes of one cell: values that are not strings
    become missing. *)
Definition replace_cell (old new : string) (c : cell) : cell :=
  match c with
  | Str s => Str (str_replace old new s)
  | _ => NA
  end.

(** [series.str.replace(old, new, regex=False)]. *)
Definition series_str_replace (old new : string) (ser : Series) : result Series :=
  match s_dtype ser with
  | DObject =>
      if str_accessor_ok (s_values ser)
      then Ok (mkSeries (replaced_dtype (s_values ser))
                        (map (replace_cell old new) (s_values ser)))
      else Raise AttributeError
  | DString =>
      Ok (mkSeries DString (map (replace_cell old new) (s_values ser)))
  | _ => Raise AttributeError
  end.

(** [pd.to_numeric] on one cell of an object column of strings and
    missing values. *)
Definition read_cell (c : cell) : Numeric.reading :=
  match c with
  | Str s => Numeric.read_text (strtod E) s
  | _ => Numeric.RMissing
  end.

Definition is_int_reading (r : Numeric.reading) : bool :=
  match r with Numeric.RInt _ _ => true | _ => false end.

Definition int_of_reading (r : Numeric.reading) : Z :=
  match r with Numeric.RInt n _ => n | _ => 0 end.

(** The cell of a reading in an integer column and in a float64 column. *)
Definition int_cell (r : Numeric.reading) : cell :=
  match r with Numeric.RInt n _ => Int n | _ => NA end.

Definition float_cell (r : Numeric.reading) : cell :=
  match r with
  | Numeric.RInt _ (m, e) => Float m e
  | Numeric.RFloat (m, e) => Float m e
  | Numeric.RInf neg => Inf neg
  | Numeric.RMissing => NA
  end.

Definition in_int64 (n : Z) : bool := (- 2 ^ 63 <=? n) && (n <? 2 ^ 63).
Definition in_uint64 (n : Z) : bool := (0 <=? n) && (n <? 2 ^ 64).

(** The column [pd.to_numeric] builds from the readings of its cells:
    int64 when every cell is an integer within the range of int64,
    uint64 when every cell is a non-negative integer within the range of
    uint64, float64 in every other case (a missing value, a literal with
    a point or an exponent, an integer out of range, a negative integer
    beside one above the range of int64). *)
Definition numeric_column (rs : list Numeric.reading) : Series :=
  if forallb is_int_reading rs then
    if forallb in_int64 (map int_of_reading rs)
    then mkSeries DInt64 (map int_cell rs)
    else if forallb in_uint64 (map int_of_reading rs)
    then mkSeries DUInt64 (map int_cell rs)
    else mkSeries DFloat64 (map float_cell rs)
  else mkSeries DFloat64 (map float_cell rs).

(** [pd.to_numeric(series, errors='coerce')]. *)
Definition to_numeric_coerce (ser : Series) : Series :=
  match s_dtype ser with
  | DObject =>
      if forallb text_or_missing (s_values ser)
      then numeric_column (map read_cell (s_values ser))
      else to_numeric_other E ser
  | _ => to_numeric_other E ser
  end.

(** The chain of five [.str.replace] calls. *)
Definition replace_chain (ser : Series) : result Series :=
  rbind (series_str_replace "#DIV/0!" "NaN" ser) (fun s1 =>
  rbind (series_str_replace "." "NaN" s1) (fun s2 =>
  rbind (series_str_replace "%" "" s2) (fun s3 =>
  rbind (series_str_replace "," "" s3) (fun s4 =>
  series_str_replace "$" "" s4)))).

(** One iteration of the loop of [cleaning_values]. *)
Definition clean_column (df : ref) (col : string) : M unit :=
  d <- deref df ;;
  ser <- lift (getitem AttributeError d col) ;;
  cleaned <- lift (replace_chain ser) ;;
  assign df (setitem d col cleaned) ;;;
  d <- deref df ;;
  ser <- lift (getitem TypeError d col) ;;
  assign df (setitem d col (to_numeric_coerce ser)).

Fixpoint for_each {A} (xs : list A) (body : A -> M unit) : M unit :=
  match xs with
  | [] => ret tt
  | x :: xs' => body x ;;; for_each xs' body
  end.

Definition cleaning_values (self : DFCleaner) (df : ref) : M ref :=
  df <- copy df ;;
  d <- deref df ;;
  for_each (text_columns d) (clean_column df) ;;;
  ret df.

End Methods.

(** ** Definitions the properties are stated with

    The quoted ones follow the wording of the specification; the others
    name what the code computes. *)

Section Statements.

Variable E : Env.

(** "Returns the first column, scanning columns in their existing order,
    whose lowercased name matches the vocabulary; none if no match." *)
Definition first_in_vocabulary (vocab : list string) (cols : list string)
           (res : option string) : Prop :=
  match res with
  | Some c =>
      exists pre post,
        cols = (pre ++ c :: post)%list
        /\ In (py_lower E c) vocab
        /\ (forall x, In x pre -> ~ In (py_lower E x) vocab)
  | None => forall x, In x cols -> ~ In (py_lower E x) vocab
  end.

(** "If hint is provided, it is folded to lowercase and added to the
    vocabulary." *)
Definition hinted_vocabulary (hint : option string) : list string :=
  match hint with
  | Some h => (time_cols_literal ++ [py_lower E h])%list
  | None => time_cols_literal
  end.

(** The vocabulary the code scans with: an empty hint adds nothing. *)
Definition scanned_vocabulary (hint : option string) : list string :=
  match hint with
  | Some h =>
      if str_truthy h then (time_cols_literal ++ [py_lower E h])%list
      else time_cols_literal
  | None => time_cols_literal
  end.

(** The text of a cell after the five replacements: "[#DIV/0!] to
    missing marker, then [.], then [%], [,], [$] stripped". *)
Definition replaced_text (s : string) : string :=
  str_replace "$" ""
    (str_replace "," ""
       (str_replace "%" ""
          (str_replace "." "NaN"
             (str_replace "#DIV/0!" "NaN" s)))).

(** "... and then coerced to a number, anything still unparsable
    becoming missing": what is read from the text of a cell once
    replaced, and from a cell of a textual column. *)
Definition clean_reading (s : string) : Numeric.reading :=
  Numeric.read_text (strtod E) (replaced_text s).








(** "Integer values are interpreted as milliseconds since the Unix
    epoch": the naive datetime index of the instants [ns] milliseconds
    after 1970-01-01 00:00. *)
Definition epoch_ms_index (ns : list Z) : Series :=
  mkSeries (DDatetime None) (map (fun n => Time (n * Calendar.NS_PER_MS)) ns).

(** "For all tables with a column named case-insensitively [timestamp],
    integer values are interpreted as milliseconds since epoch": with no
    explicit column, [to_time] returns a table whose index holds these
    instants. *)
Definition timestamp_read_as_epoch_ms (self : DFCleaner) (d : DataFrame)
  : Prop :=
  forall col t ns,
    In col (column_names d) ->
    String.eqb (py_lower E col) "timestamp" = true ->
    select d col = [mkSeries t (map Int ns)] ->
    forall s df dayfirst,
      nth_error s df = Some d ->
      exists r f s' d',
        to_time E self df None dayfirst s = (Ok (r, f), s')
        /\ nth_error s' r = Some d'
        /\ s_values (df_index d') = s_values (epoch_ms_index ns).

End Statements.

(** ** A small instance of the environment

    Enough of pandas to run the methods on examples: ASCII lowering,
    four-digit years, ISO dates, a regular-step frequency test and two
    zones with a fixed offset. *)

Module Sample.

Definition nat_strings : list string :=
  ["NaT"; "nat"; "NAT"; "nan"; "NaN"; "NAN"].

Fixpoint all_digits (s : string) : bool :=
  match s with
  | EmptyString => true
  | String c s' => Numeric.is_digit c && all_digits s'
  end.

Fixpoint digits_val (acc : Z) (s : string) : Z :=
  match s with
  | EmptyString => acc
  | String c s' => digits_val (acc * 10 + Numeric.digit_val c) s'
  end.

Definition strptime_Y (s : string) : result (option Z) :=
  if str_in s nat_strings || String.eqb s "" then Ok None
  else if all_digits s && (String.length s =? 4)%nat
  then (if (1678 <=? digits_val 0 s) && (digits_val 0 s <=? 2261)
        then Ok (Some (digits_val 0 s)) else Raise OutOfBoundsDatetime)
  else Raise ValueError.

Definition py_str (c : cell) : string :=
  match c with
  | NA => "nan"
  | Str s => s
  | Int n => string_of_Z n
  | Float m e => if e =? 0 then string_of_Z m ++ ".0" else "float"
  | Inf neg => if neg then "-inf" else "inf"
  | Bool b => if b then "True" else "False"
  | Time _ => "timestamp"
  end.

Definition to_datetime_ms_other (c : cell) : result (option Z) :=
  match c with
  | NA => Ok None
  | Int _ => Raise OutOfBoundsDatetime
  | Str s =>
      if all_digits s && negb (String.eqb s "")
      then (if Calendar.in_bounds (digits_val 0 s * Calendar.NS_PER_MS)
            then Ok (Some (digits_val 0 s * Calendar.NS_PER_MS))
            else Raise OutOfBoundsDatetime)
      else Raise ValueError
  | Time t => Ok (Some t)
  | Bool _ => Raise TypeError
  | _ => Raise ValueError
  end.

(** [YYYY-MM-DD] *)
Definition parse_iso_date (s : string) : option Z :=
  if (String.length s =? 10)%nat
     && all_digits (substring 0 4 s) && String.eqb (substring 4 1 s) "-"
     && all_digits (substring 5 2 s) && String.eqb (substring 7 1 s) "-"
     && all_digits (substring 8 2 s)
  then Some (Calendar.midnight (digits_val 0 (substring 0 4 s))
                               (digits_val 0 (substring 5 2 s))
                               (digits_val 0 (substring 8 2 s)))
  else None.

Definition to_datetime_coerce (dayfirst : bool) (ser : Series) : result Series :=
  Ok (mkSeries (DDatetime None)
        (map (fun c => match c with
                       | Time t => Time t
                       | Str s => match parse_iso_date s with
                                  | Some t => Time t
                                  | None => NA
                                  end
                       | _ => NA
                       end) (s_values ser))).

Fixpoint steps (vs : list cell) : option (list Z) :=
  match vs with
  | Time a :: ((Time b :: _) as rest) =>
      match steps rest with
      | Some ds => Some (b - a :: ds)
      | None => None
      end
  | [Time _] => Some []
  | [] => Some []
  | _ => None
  end.

Definition infer_freq (ix : Series) : result (option string) :=
  match s_dtype ix with
  | DDatetime _ =>
      match steps (s_values ix) with
      | Some (d :: ds) =>
          if forallb (Z.eqb d) ds then
            if d =? Calendar.NS_PER_DAY then Ok (Some "D")
            else if d =? 3600 * Calendar.NS_PER_SEC then Ok (Some "h")
            else Ok None
          else Ok None
      | _ => Ok None
      end
  | _ => Raise TypeError
  end.

Definition tz_valid (z : string) : bool :=
  String.eqb z "UTC" || String.eqb z "Asia/Tokyo".

Definition tz_utcoffset (z : string) (t : Z) : Z :=
  if String.eqb z "Asia/Tokyo" then 9 * 3600 * Calendar.NS_PER_SEC else 0.

Definition tz_localize_wall (z : string) (w : Z) : result Z :=
  if tz_valid z then Ok (w - tz_utcoffset z w) else Raise TzError.

(** The double nearest to [n / d] (both positive), ties to even, by its
    exact value [m * 10^e], [e <= 0]; subnormal numbers are not
    modelled. *)
Definition nearest_double (n d : Z) : Z * Z :=
  let scaled := fun k =>
    if 0 <=? k then (n, d * 2 ^ k) else (n * 2 ^ (- k), d) in
  let k0 := Z.log2 n - Z.log2 d - 52 in
  let q0 := fst (scaled k0) / snd (scaled k0) in
  let k := if q0 <? 2 ^ 52 then k0 - 1
           else if 2 ^ 53 <=? q0 then k0 + 1 else k0 in
  let a := fst (scaled k) in
  let b := snd (scaled k) in
  let q := a / b in
  let r := a mod b in
  let q' := if (b <? 2 * r) || ((2 * r =? b) && Z.odd q) then q + 1 else q in
  if 0 <=? k then (q' * 2 ^ k, 0) else (q' * 5 ^ (- k), k).

(** [m * 10^e] without the trailing zeros of [m], as far as [e] is
    negative. *)
Fixpoint trim_zeros (fuel : nat) (m e : Z) : Z * Z :=
  match fuel with
  | O => (m, e)
  | S fuel' =>
      if (e <? 0) && (m mod 10 =? 0) then trim_zeros fuel' (m / 10) (e + 1)
      else (m, e)
  end.

(** This instance reads a literal as the double nearest to its value,
    and reports a range error for a decimal exponent beyond 308 or below
    -300 and for a value beyond the largest double. *)
Definition strtod (s : string) : option (Z * Z) :=
  match Numeric.scan Numeric.SLead Numeric.acc0 s with
  | Some a =>
      let m := Numeric.a_mant a in
      let ex := (if Numeric.a_eneg a then - Numeric.a_exp a
                 else Numeric.a_exp a) - Numeric.a_frac a in
      if (308 <? ex) || (ex <? - 300) then None
      else if m =? 0 then Some (0, 0)
      else
        let '(v, e) := if 0 <=? ex then nearest_double (m * 10 ^ ex) 1
                       else nearest_double m (10 ^ (- ex)) in
        let '(v, e) := trim_zeros (Z.to_nat (- e)) v e in
        if (e =? 0) && (2 ^ 1024 <=? v) then None
        else Some ((if Numeric.a_neg a then - v else v), e)
  | None => None
  end.

(** This instance reads each cell of a column of another dtype on its
    own, into a float64 column. *)
Definition to_numeric_other (ser : Series) : Series :=
  mkSeries DFloat64
    (map (fun c => match c with
                   | Str s =>
                       match Numeric.read_text strtod s with
                       | Numeric.RInt _ (m, e) => Float m e
                       | Numeric.RFloat (m, e) => Float m e
                       | Numeric.RInf neg => Inf neg
                       | Numeric.RMissing => NA
                       end
                   | Int _ | Float _ _ | Inf _ => c
                   | _ => NA
                   end) (s_values ser)).

Definition env : Env :=
  mkEnv ascii_lower eq_refl py_str strptime_Y to_datetime_ms_other to_datetime_coerce
        infer_freq tz_valid tz_utcoffset tz_localize_wall tz_localize_wall
        strtod to_numeric_other.

(** Wednesday 2024-06-12, 15:30 UTC. *)
Definition clock_2024_06_12 : Clock :=
  mkClock (Calendar.at_time 2024 6 12 15 30 0)
          (Calendar.days_from_civil 2024 6 12).

(** 2024-08-01, 09:00 UTC. *)
Definition clock_2024_08_01 : Clock :=
  mkClock (Calendar.at_time 2024 8 1 9 0 0)
          (Calendar.days_from_civil 2024 8 1).

Definition naive_cleaner : DFCleaner := mkDFCleaner None.
Definition utc_cleaner : DFCleaner := mkDFCleaner (Some "UTC").
Definition tokyo_cleaner : DFCleaner := mkDFCleaner (Some "Asia/Tokyo").

Definition range_index (n : nat) : Series :=
  mkSeries DInt64 (map (fun i => Int (Z.of_nat i)) (seq 0 n)).

Definition obj (vs : list cell) : Series := mkSeries DObject vs.
Definition ints (vs : list Z) : Series := mkSeries DInt64 (map Int vs).

Definition naive_index (ts : list Z) : Series :=
  mkSeries (DDatetime None) (map Time ts).

Definition aware_index (z : string) (ts : list Z) : Series :=
  mkSeries (DDatetime (Some z)) (map Time ts).

(** Example tables. *)

Definition blank_name_table : DataFrame :=
  mkDF [("", ints [1; 2])] (range_index 2).

Definition prices_table : DataFrame :=
  mkDF [("price", obj [Str "12%"; Str "#DIV/0!"; Str "$1,234.56"]);
        ("Qty", ints [3; 4; 5])]
       (range_index 3).


Definition date_and_timestamp_table : DataFrame :=
  mkDF [("date", obj [Str "2024-06-09"]);
        ("timestamp", ints [1700000000000])]
       (range_index 1).

Definition timestamp_table : DataFrame :=
  mkDF [("Timestamp", ints [1700000000000]); ("v", ints [7])]
       (range_index 1).

(** An integer beyond [Timestamp.max] when read as milliseconds (year
    2286). *)
Definition far_future_table : DataFrame :=
  mkDF [("timestamp", ints [10000000000000])] (range_index 1).

Definition bad_year_table : DataFrame :=
  mkDF [("year", obj [Str "2021"; Str "abc"]); ("v", ints [1; 2])]
       (range_index 2).

(** Two rows one hour apart. *)
Definition hourly_two_rows_table : DataFrame :=
  mkDF [("timestamp", ints [1700000000000; 1700003600000]); ("v", ints [1; 2])]
       (range_index 2).

Definition june_rows : list Z :=
  [Calendar.at_time 2024 6 10 10 0 0; Calendar.midnight 2024 6 9;
   Calendar.midnight 2024 6 1; Calendar.midnight 2024 5 31].

Definition june_naive_table : DataFrame :=
  mkDF [("v", ints [1; 2; 3; 4])] (naive_index june_rows).

Definition june_utc_table : DataFrame :=
  mkDF [("v", ints [1; 2; 3; 4])] (aware_index "UTC" june_rows).


(** Two rows of Monday 2024-06-10, the later one first. *)
Definition monday_utc_table : DataFrame :=
  mkDF [("v", ints [1; 2])]
       (aware_index "UTC" [Calendar.at_time 2024 6 10 14 0 0;
                           Calendar.at_time 2024 6 10 10 0 0]).

End Sample.

(** ** Further definitions the properties are stated with *)

Section MoreStatements.

Variable E : Env.

(** The column [to_time] works on: [time_col or detect_time_col(df)]. *)
Definition resolved_col (time_col : option string) (d : DataFrame)
  : option string :=
  if opt_truthy time_col then time_col
  else first_time_col E time_cols_literal (column_names d).

(** The index [apply_timezone] leaves on a table whose index is [ix]. *)
Definition policy_index (self : DFCleaner) (ix : Series) : result Series :=
  if is_datetime64_any_dtype ix then tz_policy E self ix else Ok ix.

(** The zone the policy leaves a datetime index in. *)
Definition configured_zone (self : DFCleaner) : option string :=
  if opt_truthy (timezone self) then timezone self else None.

(** A zone whose [tz_localize] and UTC offset agree: a wall-clock time
    localized to an instant reads back as that wall-clock time. *)
Definition zone_coherent (z : string) : Prop :=
  forall w t, tz_localize_wall E z w = Ok t -> t + tz_utcoffset E z t = w.

(** The frequency the [try] block of [to_time] settles on for the index
    [ix]. *)
Definition settled_freq (ix : Series) : string :=
  if (3 <=? List.length (s_values ix))%nat then
    match infer_freq E ix with
    | Ok (Some f) => if str_truthy f then f else "D"
    | Ok None => "D"
    | Raise _ => "D"
    end
  else "D".

(** The outcome of [to_time] on a store [s] whose table [d] is the
    argument: the result or the exception, and the final store. *)
Definition to_time_outcome (self : DFCleaner) (time_col : option string)
           (dayfirst : bool) (s : store) (d : DataFrame)
  : result (ref * string) * store :=
  let unchanged := (Ok (List.length s, "D"), (s ++ [d])%list) in
  match resolved_col time_col d with
  | None => unchanged
  | Some col =>
      if str_truthy col then
        match select d col with
        | [] => (Raise KeyError, (s ++ [d])%list)
        | [ser] =>
            match convert_column E dayfirst col ser with
            | Raise e => (Raise e, (s ++ [d])%list)
            | Ok conv =>
                match policy_index self conv with
                | Raise e => (Raise e, (s ++ [set_index d col conv])%list)
                | Ok ix =>
                    (Ok (List.length s, settled_freq ix),
                     (s ++ [set_index d col ix])%list)
                end
            end
        | _ => (Raise ValueError, (s ++ [d])%list)
        end
      else unchanged
  end.

End MoreStatements.

(** Every column has as many cells as the index. *)
Definition rectangular (d : DataFrame) : Prop :=
  Forall (fun p => List.length (s_values (snd p))
                   = List.length (s_values (df_index d)))
         (df_columns d).

(** The table made of the rows of [d] at the positions [pos], in that
    order. *)
Definition row_select (pos : list nat) (d : DataFrame) : DataFrame :=
  mkDF (map (fun p => (fst p, series_take pos (snd p))) (df_columns d))
       (series_take pos (df_index d)).

(** The positions, counted from [i], at which a mask is true. *)
Fixpoint positions (i : nat) (mask : list bool) : list nat :=
  match mask with
  | [] => []
  | b :: mask' =>
      if b then i :: positions (S i) mask' else positions (S i) mask'
  end.

Definition key_sorted (a b : option Z) : Prop := key_le a b = true.

(** *** Calendar periods

    The week, month and quarter a timestamp falls in, each as one
    number: weeks start on Monday. *)

Definition week_index (t : Z) : Z := (Calendar.day_of t + 3) / 7.

Definition month_index (t : Z) : Z := 12 * Calendar.year t + Calendar.month t.

Definition quarter_index (t : Z) : Z :=
  4 * Calendar.year t + (Calendar.month t - 1) / 3.

(** The calendar of [civil_from_days] counts years from 1 March, in eras
    of 400 years.  The day of the era on which its year [yoe] starts, and
    the day after the last day of that year: *)
Definition year_start (yoe : Z) : Z := 365 * yoe + yoe / 4 - yoe / 100.

Definition year_end (yoe : Z) : Z := year_start (yoe + 1) + (yoe + 1) / 400.

(** The civil date of day [doy] of the year that starts on 1 March of
    [y]. *)
Definition civil_of_year_day (y doy : Z) : Z * Z * Z :=
  let mp := (5 * doy + 2) / 153 in
  let d := doy - (153 * mp + 2) / 5 + 1 in
  let m := if mp <? 10 then mp + 3 else mp - 9 in
  ((if m <=? 2 then y + 1 else y), m, d).

(** The day number [z] is day [doy] of year [yoe] of the era [era]. *)
Definition day_parts (z era yoe doy : Z) : Prop :=
  0 <= yoe <= 399 /\ 0 <= doy /\ year_start yoe + doy < year_end yoe
  /\ z + 719468 = era * 146097 + year_start yoe + doy.

(** *** Decorated numbers

    A text made of decimal digits, percent signs, commas and dollar
    signs, and the number its digits spell. *)

Definition is_decoration (c : ascii) : bool :=
  Ascii.eqb c "%" || Ascii.eqb c "," || Ascii.eqb c "$".

Fixpoint decorated_digits (s : string) : bool :=
  match s with
  | EmptyString => true
  | String c s' =>
      (Numeric.is_digit c || is_decoration c) && decorated_digits s'
  end.

Fixpoint has_digit (s : string) : bool :=
  match s with
  | EmptyString => false
  | String c s' => Numeric.is_digit c || has_digit s'
  end.

Fixpoint digits_value (acc : Z) (s : string) : Z :=
  match s with
  | EmptyString => acc
  | String c s' =>
      if Numeric.is_digit c
      then digits_value (acc * 10 + Numeric.digit_val c) s'
      else digits_value acc s'
  end.

(** [s] without the character [c]. *)
Fixpoint remove_char (c : ascii) (s : string) : string :=
  match s with
  | EmptyString => EmptyString
  | String a s' =>
      if Ascii.eqb c a then remove_char c s' else String a (remove_char c s')
  end.

(** More example tables. *)

Module MoreSamples.

Definition tokyo_table : DataFrame :=
  mkDF [("v", Sample.ints [7])]
       (Sample.aware_index "Asia/Tokyo"
          [Calendar.at_time 2023 11 14 13 13 20]).

Definition utc_table : DataFrame :=
  mkDF [("v", Sample.ints [7])]
       (Sample.aware_index "UTC" [Calendar.at_time 2023 11 14 13 13 20]).

Definition june_tokyo_table : DataFrame :=
  mkDF [("v", Sample.ints [1; 2; 3; 4])]
       (Sample.aware_index "Asia/Tokyo"
          (map (fun w => w - 9 * 3600 * Calendar.NS_PER_SEC)
               Sample.june_rows)).

Definition close_date_table : DataFrame :=
  mkDF [("Close", Sample.ints [1]); ("date", Sample.obj [Str "2024-06-09"])]
       (Sample.range_index 1).

Definition daily_table : DataFrame :=
  mkDF [("date", Sample.obj [Str "2024-06-09"; Str "2024-06-10";
                             Str "2024-06-11"]);
        ("v", Sample.ints [1; 2; 3])]
       (Sample.range_index 3).

Definition daily_index : Series :=
  Sample.naive_index [Calendar.midnight 2024 6 9; Calendar.midnight 2024 6 10;
                      Calendar.midnight 2024 6 11].

Definition daily_indexed_table : DataFrame :=
  mkDF [("v", Sample.ints [1; 2; 3])] daily_index.

Definition year_table : DataFrame :=
  mkDF [("year", Sample.obj [Str "2021"; Str "2022"]);
        ("v", Sample.ints [1; 2])]
       (Sample.range_index 2).

Definition year_indexed_table : DataFrame :=
  mkDF [("v", Sample.ints [1; 2])] (Sample.ints [2021; 2022]).


End MoreSamples.

(** ** The loader [to_df]

    What [to_df] takes from pandas and the [re] module: the two readers
    (the file system is theirs), [str.strip], the search for [^\s*$] and
    the text of an exception. *)

Record IOEnv : Type := mkIOEnv {
  (** [pd.read_excel(file)] *)
  read_excel : string -> result DataFrame;
  (** [pd.read_csv(file, delimiter=delimiter, encoding='utf-8-sig')] *)
  read_csv : string -> string -> result DataFrame;
  (** [str.strip] *)
  py_strip : string -> string;
  (** [re.search('^\s*$', s)] finds a match: [s] is empty or white space *)
  re_blank : string -> bool;
  (** [str(e)] *)
  exn_text : exn -> string
}.

(** The byte order mark U+FEFF, in UTF-8. *)
Definition BOM : string :=
  String (ascii_of_nat 239)
    (String (ascii_of_nat 187) (String (ascii_of_nat 191) EmptyString)).

(** [old in s]. *)
Fixpoint str_has (old s : string) : bool :=
  prefix old s
  || match s with
     | EmptyString => false
     | String _ s' => str_has old s'
     end.

(** [s.endswith(suffix)]. *)
Definition endswith (s suffix : string) : bool :=
  let n := String.length s in
  let k := String.length suffix in
  (k <=? n)%nat && String.eqb (substring (n - k) k s) suffix.

(** [frame.any(axis=1)]: for each of the [n] rows, whether some column
    is true there. *)
Definition row_any (cols : list (list bool)) (i : nat) : bool :=
  existsb (fun col => nth i col false) cols.

Definition any_axis1 (n : nat) (cols : list (list bool)) : list bool :=
  map (row_any cols) (seq 0 n).

Section Loader.

Variable E : Env.
Variable IO : IOEnv.

(** [str.contains('\ufeff|^\s*$', regex=True)] on the text of a cell. *)
Definition flagged (c : cell) : bool :=
  str_has BOM (astype_str E c) || re_blank IO (astype_str E c).

(** [df.columns.str.replace('\ufeff', '', regex=False).str.strip()] *)
Definition clean_header (name : string) : string :=
  py_strip IO (str_replace BOM "" name).

Definition rename_columns (d : DataFrame) : DataFrame :=
  mkDF (map (fun p => (clean_header (fst p), snd p)) (df_columns d))
       (df_index d).

(** [df.apply(lambda row: row.astype(str).str.contains(...))]: the
    function is applied to each column. *)
Definition flag_frame (d : DataFrame) : list (list bool) :=
  map (fun p => map flagged (s_values (snd p))) (df_columns d).

(** The rows [to_df] keeps. *)
Definition keep_mask (d : DataFrame) : list bool :=
  map negb (any_axis1 (List.length (s_values (df_index d))) (flag_frame d)).

(** [to_df]: the table, or [None] after printing the error; the second
    component is what was printed.  Column labels are text, as everywhere
    in this development, so the [.str] accessor of the header is
    defined. *)
Definition to_df (self : DFCleaner) (file : string) (delimiter : string)
  : M (option ref * list string) :=
  try_except
    (df <- (if endswith file ".xlsx" || endswith file ".xls"
            then d <- lift (read_excel IO file) ;; alloc d
            else d <- lift (read_csv IO file delimiter) ;; alloc d) ;;
     d <- deref df ;;
     assign df (rename_columns d) ;;;
     d <- deref df ;;
     df <- alloc (df_mask (keep_mask d) d) ;;
     ret (Some df, []))
    (fun e =>
       ret (None, ["Error loading file " ++ file ++ ": " ++ exn_text IO e])).

(** The read [to_df] makes for a file name. *)
Definition read_file (file delimiter : string) : result DataFrame :=
  if endswith file ".xlsx" || endswith file ".xls"
  then read_excel IO file
  else read_csv IO file delimiter.

(** Row [j] of [d] has no cell that [to_df] rejects. *)
Definition row_clean (d : DataFrame) (j : nat) : bool :=
  forallb (fun p => match nth_error (s_values (snd p)) j with
                    | Some c => negb (flagged c)
                    | None => true
                    end)
          (df_columns d).

End Loader.

(** A small instance of the loader's environment: one CSV file. *)

Module SampleIO.

Definition is_blank (s : string) : bool :=
  forallb Numeric.is_space (list_ascii_of_string s).

Fixpoint lstrip (l : list ascii) : list ascii :=
  match l with
  | c :: l' => if Numeric.is_space c then lstrip l' else l
  | [] => []
  end.

Definition strip (s : string) : string :=
  string_of_list_ascii
    (rev (lstrip (rev (lstrip (list_ascii_of_string s))))).

Definition raw_table : DataFrame :=
  mkDF [(BOM ++ "date ", Sample.obj [Str "2024-06-09"; Str " ";
                                     Str "2024-06-11"]);
        ("price", Sample.obj [Str "12%"; Str "7"; Str (BOM ++ "8")])]
       (Sample.range_index 3).

Definition read_csv (file delimiter : string) : result DataFrame :=
  if String.eqb file "data.csv" then Ok raw_table else Raise ValueError.

Definition read_excel (file : string) : result DataFrame :=
  Raise ValueError.

Definition exn_text (e : exn) : string :=
  match e with
  | KeyError => "KeyError"
  | ValueError => "No such file"
  | TypeError => "TypeError"
  | AttributeError => "AttributeError"
  | OutOfBoundsDatetime => "OutOfBoundsDatetime"
  | TzError => "TzError"
  end.

Definition io : IOEnv := mkIOEnv read_excel read_csv strip is_blank exn_text.

End SampleIO.

Unset Implicit Arguments.

(** * Properties *)

(** ** The store monad *)

Lemma bind_ok_inv {A B} (m : M A) (f : A -> M B) s b s' :
  bind m f s = (Ok b, s') ->
  exists a s1, m s = (Ok a, s1) /\ f a s1 = (Ok b, s').
Proof.
  unfold bind. destruct (m s) as [[a | e] s1]; intros H.
  - exists a, s1. split; [reflexivity | exact H].
  - discriminate H.
Qed.

Lemma bind_run_ok {A B} {m : M A} (f : A -> M B) {s a s1} :
  m s = (Ok a, s1) -> bind m f s = f a s1.
Proof. unfold bind. intros ->. reflexivity. Qed.

Lemma bind_run_raise {A B} {m : M A} (f : A -> M B) {s e s1} :
  m s = (Raise e, s1) -> bind m f s = (Raise e, s1).
Proof. unfold bind. intros ->. reflexivity. Qed.

Lemma nth_error_last {A} (l : list A) (x : A) :
  nth_error (l ++ [x]) (List.length l) = Some x.
Proof.
  rewrite nth_error_app2 by lia. rewrite Nat.sub_diag. reflexivity.
Qed.

Lemma list_set_last {A} (l : list A) (x y : A) :
  list_set (l ++ [x]) (List.length l) y = (l ++ [y])%list.
Proof.
  induction l as [| a l IH]; cbn; [reflexivity | now rewrite IH].
Qed.

Lemma list_set_length {A} (l : list A) i x :
  List.length (list_set l i x) = List.length l.
Proof.
  revert i. induction l as [| a l IH]; intros [| i]; cbn; auto.
Qed.

Lemma list_set_same {A} (l : list A) i x :
  nth_error (list_set l i x) i =
  match nth_error l i with Some _ => Some x | None => None end.
Proof.
  revert i. induction l as [| a l IH]; intros [| i]; cbn; auto.
Qed.

Lemma list_set_idem {A} (l : list A) i x y :
  list_set (list_set l i x) i y = list_set l i y.
Proof.
  revert i. induction l as [| a l IH]; intros [| i]; cbn; auto.
  now rewrite IH.
Qed.

Lemma firstn_list_set {A} (l : list A) n i x :
  (n <= i)%nat -> firstn n (list_set l i x) = firstn n l.
Proof.
  revert n i. induction l as [| a l IH]; intros n i Hle.
  - destruct i; reflexivity.
  - destruct i as [| i].
    + assert (n = O) by lia. subst. reflexivity.
    + destruct n as [| n]; cbn; [reflexivity |].
      rewrite IH by lia. reflexivity.
Qed.

Lemma copy_run {s r d} :
  nth_error s r = Some d ->
  copy r s = (Ok (List.length s), (s ++ [d])%list).
Proof.
  intros H. unfold copy, bind, deref, alloc. rewrite H. reflexivity.
Qed.

Lemma deref_run {s r d} :
  nth_error s r = Some d -> deref r s = (Ok d, s).
Proof. intros H. unfold deref. rewrite H. reflexivity. Qed.

Lemma deref_last s d : deref (List.length s) (s ++ [d])%list = (Ok d, (s ++ [d])%list).
Proof. apply deref_run, nth_error_last. Qed.

Lemma assign_last s d d' :
  assign (List.length s) d' (s ++ [d])%list = (Ok tt, (s ++ [d'])%list).
Proof. unfold assign. now rewrite list_set_last. Qed.

(** ** Frames *)

Lemma keeps_ret n {A} (a : A) (post : A -> Prop) :
  post a -> keeps n (ret a) post.
Proof.
  intros Hp s Hs. cbn. repeat split; auto.
  intros a' H. inversion H; subst. exact Hp.
Qed.

Lemma keeps_raise n {A} e (post : A -> Prop) : keeps n (raise e) post.
Proof. intros s Hs. cbn. repeat split; auto. discriminate. Qed.

Lemma keeps_lift n {A} (r : result A) (post : A -> Prop) :
  (forall a, r = Ok a -> post a) -> keeps n (lift r) post.
Proof.
  intros H. destruct r; cbn.
  - apply keeps_ret. now apply H.
  - apply keeps_raise.
Qed.

Lemma keeps_bind n {A B} (m : M A) (f : A -> M B) mid post :
  keeps n m mid -> (forall a, mid a -> keeps n (f a) post) ->
  keeps n (bind m f) post.
Proof.
  intros Hm Hf s Hs. unfold bind.
  destruct (Hm s Hs) as (H1 & H2 & H3).
  destruct (m s) as [[a | e] s1] eqn:Em; cbn in *.
  - destruct (Hf a (H3 a eq_refl) s1 H2) as (G1 & G2 & G3).
    repeat split; auto. congruence.
  - repeat split; auto. discriminate.
Qed.

Lemma keeps_try n {A} (m : M A) h post :
  keeps n m post -> (forall e, keeps n (h e) post) ->
  keeps n (try_except m h) post.
Proof.
  intros Hm Hh s Hs. unfold try_except.
  destruct (Hm s Hs) as (H1 & H2 & H3).
  destruct (m s) as [[a | e] s1] eqn:Em; cbn in *.
  - repeat split; auto.
  - destruct (Hh e s1 H2) as (G1 & G2 & G3).
    repeat split; auto. congruence.
Qed.

Lemma keeps_deref n r : keeps n (deref r) (fun _ => True).
Proof.
  intros s Hs. unfold deref. destruct (nth_error s r); cbn; auto.
Qed.

Lemma keeps_assign n r d :
  (n <= r)%nat -> keeps n (assign r d) (fun _ => True).
Proof.
  intros Hr s Hs. unfold assign; cbn.
  rewrite firstn_list_set by exact Hr. rewrite list_set_length. auto.
Qed.

Lemma keeps_alloc n d : keeps n (alloc d) (fun r => (n <= r)%nat).
Proof.
  intros s Hs. unfold alloc; cbn.
  rewrite firstn_app.
  replace (n - List.length s)%nat with O by lia.
  cbn. rewrite app_nil_r, length_app. cbn.
  repeat split; try lia.
  intros a H. inversion H. lia.
Qed.

Lemma keeps_copy n r : keeps n (copy r) (fun r' => (n <= r')%nat).
Proof.
  unfold copy. eapply keeps_bind; [apply keeps_deref |].
  intros d _. apply keeps_alloc.
Qed.

(** A computation that keeps the objects of [s] extends [s]. *)
Lemma keeps_extends {A} (m : M A) post s :
  keeps (List.length s) m post ->
  exists ext, snd (m s) = (s ++ ext)%list.
Proof.
  intros H. destruct (H s (le_n _)) as (H1 & _ & _).
  rewrite firstn_all in H1.
  exists (skipn (List.length s) (snd (m s))).
  pose proof (firstn_skipn (List.length s) (snd (m s))) as F.
  rewrite H1 in F. symmetry. exact F.
Qed.

Ltac frame :=
  lazymatch goal with
  | |- keeps _ (bind _ _) _ =>
      eapply keeps_bind; [ frame | intros ? ?; frame ]
  | |- keeps _ (try_except _ _) _ =>
      apply keeps_try; [ frame | intros ?; frame ]
  | |- keeps _ (ret _) _ =>
      apply keeps_ret; try exact I; cbv beta in *; try lia
  | |- keeps _ (raise _) _ => apply keeps_raise
  | |- keeps _ (deref _) _ => apply keeps_deref
  | |- keeps _ (lift _) _ =>
      apply keeps_lift with (post := fun _ => True); intros; exact I
  | |- keeps _ (assign _ _) _ => apply keeps_assign; cbv beta in *; lia
  | |- keeps _ (alloc _) _ => apply keeps_alloc
  | |- keeps _ (copy _) _ => apply keeps_copy
  | |- keeps _ (if ?b then _ else _) _ => destruct b; frame
  | |- keeps _ (match ?x with _ => _ end) _ => destruct x; frame
  | |- _ => idtac
  end.

Section Frames.

Variable E : Env.
Variable clk : Clock.

Lemma keeps_set_df_index n df ix :
  (n <= df)%nat -> keeps n (set_df_index df ix) (fun _ => True).
Proof. intros H. unfold set_df_index. frame. Qed.

Lemma keeps_apply_timezone n self df :
  (n <= df)%nat -> keeps n (apply_timezone E self df) (fun r => (n <= r)%nat).
Proof.
  intros H. unfold apply_timezone. frame;
    apply keeps_set_df_index; exact H.
Qed.

Lemma keeps_detect_time_col n self df hint :
  keeps n (detect_time_col E self df hint) (fun _ => True).
Proof. unfold detect_time_col. frame. Qed.

Lemma keeps_infer_time_freq n df f :
  keeps n (infer_time_freq E df f) (fun _ => True).
Proof. unfold infer_time_freq. frame. Qed.

Lemma keeps_to_time n self df time_col dayfirst :
  keeps n (to_time E self df time_col dayfirst)
        (fun p => (n <= fst p)%nat).
Proof.
  unfold to_time.
  eapply keeps_bind; [apply keeps_copy | intros df1 Hdf1].
  eapply keeps_bind with (mid := fun _ => True).
  - destruct (opt_truthy time_col); [frame | apply keeps_detect_time_col].
  - intros col _. destruct (opt_truthy col); [| frame; exact Hdf1].
    destruct col as [col |]; [| frame; exact Hdf1].
    do 7 (eapply keeps_bind; [frame | intros ? ?]).
    eapply keeps_bind; [apply keeps_apply_timezone; exact Hdf1 |].
    intros df2 Hdf2.
    eapply keeps_bind; [apply keeps_infer_time_freq |].
    intros f _. apply keeps_ret. exact Hdf2.
Qed.

Lemma keeps_clean_dates n self df time_freq :
  keeps n (clean_dates E clk self df time_freq) (fun r => (n <= r)%nat).
Proof. unfold clean_dates. frame. Qed.

Lemma keeps_for_each n {A} (xs : list A) (body : A -> M unit) :
  (forall x, keeps n (body x) (fun _ => True)) ->
  keeps n (for_each xs body) (fun _ => True).
Proof.
  intros Hb. induction xs as [| x xs IH]; cbn.
  - frame.
  - eapply keeps_bind; [apply Hb | intros _ _; exact IH].
Qed.

Lemma keeps_clean_column n df col :
  (n <= df)%nat -> keeps n (clean_column E df col) (fun _ => True).
Proof. intros H. unfold clean_column. frame. Qed.

Lemma keeps_cleaning_values n self df :
  keeps n (cleaning_values E self df) (fun r => (n <= r)%nat).
Proof.
  unfold cleaning_values.
  eapply keeps_bind; [apply keeps_copy | intros df1 Hdf1].
  eapply keeps_bind; [apply keeps_deref | intros d _].
  eapply keeps_bind.
  - apply keeps_for_each. intros col. apply keeps_clean_column. exact Hdf1.
  - intros _ _. apply keeps_ret. exact Hdf1.
Qed.

(** C10.  [to_time], [clean_dates] and [cleaning_values] work on a copy:
    whatever the outcome (a result or an exception), every object of the
    caller's store, the argument table among them, is the same after the
    call as before (the final store is the initial one followed by the
    objects the call created), and the table returned is one of the
    created objects. *)
Theorem methods_operate_on_a_copy :
  forall (self : DFCleaner) (df : ref) (s : store),
    (forall time_col dayfirst,
        (exists ext,
            snd (to_time E self df time_col dayfirst s) = (s ++ ext)%list)
        /\ (forall r f,
               fst (to_time E self df time_col dayfirst s) = Ok (r, f) ->
               (List.length s <= r)%nat))
    /\ (forall time_freq,
           (exists ext,
               snd (clean_dates E clk self df time_freq s) = (s ++ ext)%list)
           /\ (forall r,
                  fst (clean_dates E clk self df time_freq s) = Ok r ->
                  (List.length s <= r)%nat))
    /\ ((exists ext, snd (cleaning_values E self df s) = (s ++ ext)%list)
        /\ (forall r,
               fst (cleaning_values E self df s) = Ok r ->
               (List.length s <= r)%nat)).
Proof.
  intros self df s. split; [| split].
  - intros time_col dayfirst.
    pose proof (@keeps_to_time (List.length s) self df time_col dayfirst) as K.
    split; [eapply keeps_extends; exact K |].
    intros r f Hr. destruct (K s (le_n _)) as (_ & _ & H).
    exact (H (r, f) Hr).
  - intros time_freq.
    pose proof (@keeps_clean_dates (List.length s) self df time_freq) as K.
    split; [eapply keeps_extends; exact K |].
    intros r Hr. destruct (K s (le_n _)) as (_ & _ & H). exact (H r Hr).
  - pose proof (@keeps_cleaning_values (List.length s) self df) as K.
    split; [eapply keeps_extends; exact K |].
    intros r Hr. destruct (K s (le_n _)) as (_ & _ & H). exact (H r Hr).
Qed.

End Frames.

(** ** The time-zone policy *)

Section TimezonePolicy.

Variable E : Env.

Lemma set_df_index_run {s df d} ix :
  nth_error s df = Some d ->
  set_df_index df ix s = (Ok tt, list_set s df (mkDF (df_columns d) ix)).
Proof.
  intros H. unfold set_df_index, bind, deref, assign. rewrite H. reflexivity.
Qed.

(** [apply_timezone] assigns the index [tz_policy] computes, in place. *)
Lemma apply_timezone_run self {s df d} :
  nth_error s df = Some d ->
  apply_timezone E self df s =
  if is_datetime64_any_dtype (df_index d) then
    match tz_policy E self (df_index d) with
    | Ok ix => (Ok df, list_set s df (mkDF (df_columns d) ix))
    | Raise e => (Raise e, s)
    end
  else (Ok df, s).
Proof.
  intros H. unfold apply_timezone, tz_policy.
  rewrite (bind_run_ok _ (deref_run H)).
  destruct (is_datetime64_any_dtype (df_index d)); cbn [negb]; [| reflexivity].
  assert (step : forall r : result Series,
             (ix <- lift r ;; set_df_index df ix ;;; ret df) s =
             match r with
             | Ok ix => (Ok df, list_set s df (mkDF (df_columns d) ix))
             | Raise e => (Raise e, s)
             end).
  { intros [ix | e]; cbn; [| reflexivity].
    unfold bind. cbn. rewrite (set_df_index_run ix H). reflexivity. }
  destruct (timezone self) as [z |]; [| apply step].
  destruct (str_truthy z); [| apply step].
  destruct (index_tz (df_index d)); apply step.
Qed.

Lemma apply_timezone_dangling self {s df} :
  nth_error s df = None -> apply_timezone E self df s = (Raise KeyError, s).
Proof.
  intros H. unfold apply_timezone, bind, deref. rewrite H. reflexivity.
Qed.

(** The policy fixes the index it produces. *)
Lemma tz_policy_fixpoint self {ix ix'} :
  is_datetime64_any_dtype ix = true ->
  tz_policy E self ix = Ok ix' ->
  is_datetime64_any_dtype ix' = true /\ tz_policy E self ix' = Ok ix'.
Proof.
  intros Hdt. unfold tz_policy.
  assert (strip : index_tz_localize E None ix = Ok ix' ->
                  is_datetime64_any_dtype ix' = true
                  /\ index_tz_localize E None ix' = Ok ix').
  { unfold index_tz_localize.
    destruct (index_tz ix) as [z0 |] eqn:Etz; intros H; inversion H; subst.
    - split; reflexivity.
    - split; [exact Hdt | now rewrite Etz]. }
  destruct (timezone self) as [z |]; [| exact strip].
  destruct (str_truthy z); [| exact strip].
  destruct (index_tz ix) as [z0 |] eqn:Etz.
  - unfold index_tz_convert. rewrite Etz.
    destruct (tz_valid E z) eqn:Ev; intros H; inversion H; subst.
    split; reflexivity.
  - unfold index_tz_localize. rewrite Etz.
    destruct (tz_valid E z) eqn:Ev; [| discriminate].
    destruct (mapr (localize_cell E z) (s_values ix)) as [vs | e];
      cbn; intros H; inversion H; subst.
    split; [reflexivity |]. cbn. unfold index_tz_convert. cbn.
    now rewrite Ev.
Qed.

(** C3.  Running [apply_timezone] twice in succession, with the same
    cleaner (hence the same time-zone configuration), has the same
    outcome as running it once: the same returned table, the same store
    (so the same index), or the same exception. *)
Theorem apply_timezone_idempotent :
  forall (self : DFCleaner) (df : ref) (s : store),
    bind (apply_timezone E self df) (apply_timezone E self) s
    = apply_timezone E self df s.
Proof.
  intros self df s.
  destruct (nth_error s df) as [d |] eqn:Hd.
  - pose proof (apply_timezone_run self Hd) as R1.
    destruct (is_datetime64_any_dtype (df_index d)) eqn:Hdt.
    + destruct (tz_policy E self (df_index d)) as [ix | e] eqn:Hp.
      * rewrite (bind_run_ok _ R1), R1.
        destruct (tz_policy_fixpoint self Hdt Hp) as [Hdt' Hp'].
        assert (Hd' : nth_error (list_set s df (mkDF (df_columns d) ix)) df
                      = Some (mkDF (df_columns d) ix)).
        { rewrite list_set_same, Hd. reflexivity. }
        rewrite (apply_timezone_run self Hd'). cbn [df_index df_columns].
        rewrite Hdt', Hp', list_set_idem. reflexivity.
      * rewrite (bind_run_raise _ R1), R1. reflexivity.
    + rewrite (bind_run_ok _ R1). reflexivity.
  - pose proof (apply_timezone_dangling self Hd) as R1.
    rewrite (bind_run_raise _ R1), R1. reflexivity.
Qed.

End TimezonePolicy.

(** ** The time-column detector *)

Section Detector.

Variable E : Env.

Lemma str_in_In x xs : str_in x xs = true <-> In x xs.
Proof.
  unfold str_in. rewrite existsb_exists. split.
  - intros (y & Hy & Heq). apply String.eqb_eq in Heq. now subst.
  - intros H. exists x. split; [exact H | apply String.eqb_refl].
Qed.

Lemma first_time_col_first vocab cols :
  first_in_vocabulary E vocab cols (first_time_col E vocab cols).
Proof.
  induction cols as [| col cols IH]; cbn.
  - intros x [].
  - destruct (str_in (py_lower E col) vocab) eqn:Hin.
    + exists [], cols. repeat split.
      * now apply str_in_In.
      * intros x [].
    + assert (Hnot : ~ In (py_lower E col) vocab).
      { intros H. apply str_in_In in H. congruence. }
      destruct (first_time_col E vocab cols) as [c |]; cbn in IH |- *.
      * destruct IH as (pre & post & -> & Hc & Hpre).
        exists (col :: pre), post. repeat split; auto.
        intros x [<- | Hx]; auto.
      * intros x [<- | Hx]; auto.
Qed.

Lemma detect_time_col_run self hint {s df d} :
  nth_error s df = Some d ->
  detect_time_col E self df hint s
  = (Ok (first_time_col E (scanned_vocabulary E hint) (column_names d)), s).
Proof.
  intros H. unfold detect_time_col.
  rewrite (bind_run_ok _ (deref_run H)).
  unfold scanned_vocabulary. destruct hint as [h |]; reflexivity.
Qed.

(** C8.  [detect_time_col] leaves the store as it is and
    returns the first column, in the order of the columns, whose lowered
    name is in the literal vocabulary extended by the lowered hint when
    the hint is a non-empty string; it returns none exactly when no column
    name matches.  An empty hint adds nothing to the vocabulary. *)
Theorem detect_time_col_first_match :
  forall (self : DFCleaner) (df : ref) (hint : option string)
         (s : store) (d : DataFrame),
    nth_error s df = Some d ->
    exists res,
      detect_time_col E self df hint s = (Ok res, s)
      /\ first_in_vocabulary E (scanned_vocabulary E hint) (column_names d) res
      /\ (opt_truthy hint = true ->
          scanned_vocabulary E hint = hinted_vocabulary E hint)
      /\ scanned_vocabulary E None = time_cols_literal.
Proof.
  intros self df hint s d Hd.
  exists (first_time_col E (scanned_vocabulary E hint) (column_names d)).
  split; [apply (detect_time_col_run self hint Hd) |].
  split; [apply first_time_col_first |].
  split; [| reflexivity].
  destruct hint as [h |]; cbn; [| discriminate].
  intros ->. reflexivity.
Qed.

End Detector.

(** With the hint [""] and a column named [""], the scan finds nothing,
    although the lowered name is in the vocabulary extended by the lowered
    hint. *)
Lemma detect_time_col_empty_hint :
  ~ (exists res,
        detect_time_col Sample.env Sample.naive_cleaner O (Some "")
                        [Sample.blank_name_table]
        = (Ok res, [Sample.blank_name_table])
        /\ first_in_vocabulary Sample.env
             (hinted_vocabulary Sample.env (Some ""))
             (column_names Sample.blank_name_table) res).
Proof.
  intros (res & Hrun & Hspec).
  vm_compute in Hrun. inversion Hrun; subst res.
  apply (Hspec "").
  - left. reflexivity.
  - cbn. repeat (right; try (left; reflexivity)).
Qed.

Lemma detect_time_col_first_match_witness :
  exists res,
    detect_time_col Sample.env Sample.naive_cleaner O (Some "QTY")
                    [Sample.prices_table]
    = (Ok res, [Sample.prices_table])
    /\ first_in_vocabulary Sample.env
         (scanned_vocabulary Sample.env (Some "QTY"))
         (column_names Sample.prices_table) res
    /\ (opt_truthy (Some "QTY") = true ->
        scanned_vocabulary Sample.env (Some "QTY")
        = hinted_vocabulary Sample.env (Some "QTY"))
    /\ scanned_vocabulary Sample.env None = time_cols_literal.
Proof.
  apply (detect_time_col_first_match Sample.env Sample.naive_cleaner O
           (Some "QTY") [Sample.prices_table] Sample.prices_table).
  reflexivity.
Defined.

(** ** The timestamp indexer *)

Section Indexer.

Variable E : Env.

Lemma mapr_raise {A B} (f : A -> result B) xs x e :
  In x xs -> f x = Raise e -> exists e', mapr f xs = Raise e'.
Proof.
  induction xs as [| y ys IH]; intros Hin Hx; [destruct Hin |].
  cbn. destruct Hin as [-> | Hin].
  - rewrite Hx. cbn. eauto.
  - destruct (f y) as [b | e1]; cbn; [| eauto].
    destruct (IH Hin Hx) as (e' & ->). cbn. eauto.
Qed.

Lemma mapr_ok_map {A B} (f : A -> result B) (g : A -> B) xs :
  Forall (fun x => f x = Ok (g x)) xs -> mapr f xs = Ok (map g xs).
Proof.
  induction 1 as [| x xs Hx _ IH]; cbn; [reflexivity |].
  rewrite Hx, IH. reflexivity.
Qed.

Lemma select_setitem d col ser :
  select (setitem d col ser) col = map (fun _ => ser) (select d col).
Proof.
  unfold select, setitem. cbn.
  induction (df_columns d) as [| [name x] cols IH]; cbn; [reflexivity |].
  destruct (String.eqb name col) eqn:Hn; cbn; rewrite Hn; cbn;
    now rewrite IH.
Qed.

Lemma set_index_setitem d col ser key :
  set_index (setitem d col ser) col key = set_index d col key.
Proof.
  unfold set_index, setitem. cbn. f_equal.
  induction (df_columns d) as [| [name x] cols IH]; cbn; [reflexivity |].
  destruct (String.eqb name col) eqn:Hn; cbn; rewrite Hn; cbn;
    now rewrite IH.
Qed.

(** The [try] block never raises and leaves the store alone; on an index
    of fewer than three entries it keeps the frequency set before it. *)
Lemma infer_time_freq_run df t s :
  exists f,
    infer_time_freq E df t s = (Ok f, s)
    /\ (forall d, nth_error s df = Some d ->
                  (List.length (s_values (df_index d)) < 3)%nat -> f = t).
Proof.
  unfold infer_time_freq, try_except, bind, deref.
  destruct (nth_error s df) as [d |] eqn:Hd.
  - destruct (3 <=? List.length (s_values (df_index d)))%nat eqn:Hlen.
    + apply Nat.leb_le in Hlen.
      destruct (infer_freq E (df_index d)) as [inferred | e]; cbn;
        eexists; (split; [reflexivity |]);
        intros d' Hd' Hshort; inversion Hd'; subst; lia.
    + cbn. exists t. split; [reflexivity | auto].
  - cbn. exists "D". split; [reflexivity |]. intros d' Hd'. discriminate.
Qed.

Tactic Notation "bind_inv" hyp(H) "as" ident(a) ident(s1) ident(H1) :=
  apply bind_ok_inv in H; destruct H as (a & s1 & H1 & H).

Ltac bind_skip H :=
  let a := fresh "a" in
  let s1 := fresh "s" in
  let H1 := fresh "Hstep" in
  apply bind_ok_inv in H; destruct H as (a & s1 & H1 & H).

(** C6.  When the table [to_time] returns has an index of fewer than
    three entries, the frequency it returns is ["D"] (Daily), whatever the
    entries are and whatever [infer_freq] would answer on them. *)
Theorem to_time_short_index_daily :
  forall (self : DFCleaner) (df : ref) (time_col : option string)
         (dayfirst : bool) (s s' : store) (r : ref) (f : string)
         (d' : DataFrame),
    to_time E self df time_col dayfirst s = (Ok (r, f), s') ->
    nth_error s' r = Some d' ->
    (List.length (s_values (df_index d')) < 3)%nat ->
    f = "D".
Proof.
  intros self df time_col dayfirst s s' r f d' H Hd' Hshort.
  unfold to_time in H.
  bind_inv H as df1 st1 Hcopy. bind_inv H as col0 st2 Hcol.
  destruct (opt_truthy col0); [| inversion H; reflexivity].
  destruct col0 as [col |]; [| inversion H; reflexivity].
  do 7 bind_skip H.
  bind_inv H as df2 st3 Htz. bind_inv H as f0 st4 Hinf.
  inversion H; subst.
  destruct (infer_time_freq_run r "D" st3) as (f' & Hrun & Hf).
  rewrite Hrun in Hinf. inversion Hinf; subst.
  exact (Hf d' Hd' Hshort).
Qed.

(** C5.  With no explicit column and a detector that finds none,
    [to_time] returns a copy of the table, equal to it in columns, rows
    and index, together with ["D"] (Daily); the original is untouched. *)
Theorem to_time_no_time_column :
  forall (self : DFCleaner) (df : ref) (dayfirst : bool)
         (s : store) (d : DataFrame),
    nth_error s df = Some d ->
    detect_time_col E self df None s = (Ok None, s) ->
    to_time E self df None dayfirst s
    = (Ok (List.length s, "D"), (s ++ [d])%list)
    /\ nth_error (s ++ [d])%list (List.length s) = Some d
    /\ nth_error (s ++ [d])%list df = Some d.
Proof.
  intros self df dayfirst s d Hd Hdet.
  rewrite (detect_time_col_run E self None Hd) in Hdet.
  assert (Hnone : first_time_col E time_cols_literal (column_names d) = None)
    by (cbn [scanned_vocabulary] in Hdet; congruence).
  split; [| split].
  - unfold to_time.
    rewrite (bind_run_ok _ (copy_run Hd)). cbn [opt_truthy].
    rewrite (bind_run_ok _ (detect_time_col_run E self None
                              (nth_error_last s d))).
    cbn [scanned_vocabulary]. rewrite Hnone. reflexivity.
  - apply nth_error_last.
  - rewrite nth_error_app1; [exact Hd |].
    apply nth_error_Some. congruence.
Qed.

Lemma lowered_name_truthy col name :
  py_lower E col = name -> name <> "" -> str_truthy col = true.
Proof.
  intros H Hne. destruct col; [| reflexivity].
  rewrite (py_lower_empty E) in H. congruence.
Qed.

(** The start of [to_time] up to the parsed column, when the detector
    picks [col]. *)
Lemma to_time_detected self dayfirst {s df d col} :
  nth_error s df = Some d ->
  first_time_col E time_cols_literal (column_names d) = Some col ->
  str_truthy col = true ->
  forall ser, select d col = [ser] ->
  to_time E self df None dayfirst s =
  match convert_column E dayfirst col ser with
  | Raise e => (Raise e, (s ++ [d])%list)
  | Ok conv =>
      (df2 <- apply_timezone E self (List.length s) ;;
       time_freq <- infer_time_freq E df2 "D" ;;
       ret (df2, time_freq))
        (s ++ [set_index d col conv])%list
  end.
Proof.
  intros Hd Hcol Htruthy ser Hsel. unfold to_time.
  rewrite (bind_run_ok _ (copy_run Hd)). cbn [opt_truthy].
  rewrite (bind_run_ok _ (detect_time_col_run E self None
                            (nth_error_last s d))).
  cbn [scanned_vocabulary]. rewrite Hcol. cbn [opt_truthy].
  rewrite Htruthy.
  rewrite (bind_run_ok _ (deref_last s d)).
  unfold getitem at 1. rewrite Hsel. cbn [lift].
  rewrite (bind_run_ok (s := (s ++ [d])%list) (a := ser) _ eq_refl).
  destruct (convert_column E dayfirst col ser) as [conv | e];
    cbn [lift]; [| reflexivity].
  rewrite (bind_run_ok (s := (s ++ [d])%list) (a := conv) _ eq_refl).
  rewrite (bind_run_ok _ (assign_last s d (setitem d col conv))).
  rewrite (bind_run_ok _ (deref_last s (setitem d col conv))).
  unfold getitem. rewrite select_setitem, Hsel. cbn [map lift].
  rewrite (bind_run_ok (s := (s ++ [setitem d col conv])%list) (a := conv)
                       _ eq_refl).
  rewrite (bind_run_ok _ (assign_last s (setitem d col conv) _)).
  rewrite set_index_setitem. reflexivity.
Qed.

(** C2 (the code at an input where it raises).  When the detector picks a
    column whose lowered name is [year] and the [%Y] parser raises on the
    text of one of its cells, [to_time] raises: the exception escapes,
    nothing turns the cell into a missing value. *)
Theorem to_time_year_parse_error_escapes :
  forall (self : DFCleaner) (df : ref) (dayfirst : bool) (s : store)
         (d : DataFrame) (col : string) (ser : Series) (c : cell) (e : exn),
    nth_error s df = Some d ->
    first_time_col E time_cols_literal (column_names d) = Some col ->
    py_lower E col = "year" ->
    select d col = [ser] ->
    In c (s_values ser) ->
    strptime_Y E (astype_str E c) = Raise e ->
    exists e' s', to_time E self df None dayfirst s = (Raise e', s').
Proof.
  intros self df dayfirst s d col ser c e Hd Hcol Hlow Hsel Hin Hraise.
  assert (Htruthy : str_truthy col = true).
  { apply (lowered_name_truthy col "year" Hlow). discriminate. }
  rewrite (to_time_detected self dayfirst Hd Hcol Htruthy ser Hsel).
  unfold convert_column. rewrite Hlow.
  replace ("year" =? "year")%string with true by reflexivity.
  unfold to_datetime_year.
  destruct (mapr_raise (fun c => strptime_Y E (astype_str E c))
                       (s_values ser) c e Hin Hraise) as (e' & ->).
  cbn. eauto.
Qed.

End Indexer.

Section TimestampColumn.

Variable E : Env.

Lemma to_datetime_ms_ints t ns :
  Forall (fun n => Calendar.in_bounds (n * Calendar.NS_PER_MS) = true) ns ->
  to_datetime_ms E (mkSeries t (map Int ns)) = Ok (epoch_ms_index ns).
Proof.
  intros Hb. unfold to_datetime_ms. cbn [s_values].
  rewrite (mapr_ok_map (ms_cell E)
             (fun c => match c with
                       | Int n => Some (n * Calendar.NS_PER_MS)
                       | _ => None
                       end)).
  - cbn. unfold epoch_ms_index. f_equal. rewrite !map_map. reflexivity.
  - apply Forall_map. eapply Forall_impl; [| exact Hb].
    intros n Hn. cbn. now rewrite Hn.
Qed.

Lemma tz_policy_unset self ix :
  opt_truthy (timezone self) = false ->
  index_tz ix = None ->
  tz_policy E self ix = Ok ix.
Proof.
  intros Hf Hn. unfold tz_policy, index_tz_localize.
  destruct (timezone self) as [z |]; cbn in Hf.
  - rewrite Hf, Hn. reflexivity.
  - rewrite Hn. reflexivity.
Qed.

(** C4.  When the column the detector picks (the first
    column in the vocabulary) has the lowered name [timestamp], is the
    only column of that name and holds integers within the nanosecond
    range, [to_time] reads them as milliseconds since the Unix epoch: the
    new index is the time-zone policy applied to the naive timestamps
    [n * 1000000] ns, and the column leaves the column set.  With no zone
    configured that index is these naive timestamps themselves, so
    1700000000000 becomes 2023-11-14 22:13:20. *)
Theorem to_time_timestamp_column_epoch_ms :
  forall (self : DFCleaner) (df : ref) (dayfirst : bool) (s : store)
         (d : DataFrame) (col : string) (t : dtype) (ns : list Z)
         (ix : Series),
    nth_error s df = Some d ->
    first_time_col E time_cols_literal (column_names d) = Some col ->
    py_lower E col = "timestamp" ->
    select d col = [mkSeries t (map Int ns)] ->
    Forall (fun n => Calendar.in_bounds (n * Calendar.NS_PER_MS) = true) ns ->
    tz_policy E self (epoch_ms_index ns) = Ok ix ->
    (exists f,
        to_time E self df None dayfirst s
        = (Ok (List.length s, f),
           (s ++ [set_index d col ix])%list))
    /\ (opt_truthy (timezone self) = false -> ix = epoch_ms_index ns)
    /\ epoch_ms_index [1700000000000]
       = mkSeries (DDatetime None)
                  [Time (Calendar.at_time 2023 11 14 22 13 20)].
Proof.
  intros self df dayfirst s d col t ns ix Hd Hcol Hlow Hsel Hb Hpol.
  split; [| split].
  - assert (Htruthy : str_truthy col = true).
    { apply (lowered_name_truthy E col "timestamp" Hlow). discriminate. }
    rewrite (to_time_detected E self dayfirst Hd Hcol Htruthy _ Hsel).
    unfold convert_column. rewrite Hlow.
    replace ("timestamp" =? "year")%string with false by reflexivity.
    replace ("timestamp" =? "timestamp")%string with true by reflexivity.
    rewrite (to_datetime_ms_ints t ns Hb).
    pose proof (apply_timezone_run E self
                  (nth_error_last s (set_index d col (epoch_ms_index ns))))
      as Rtz.
    cbn [df_index set_index is_datetime64_any_dtype epoch_ms_index s_dtype]
      in Rtz.
    fold (epoch_ms_index ns) in Rtz. rewrite Hpol in Rtz.
    rewrite list_set_last in Rtz.
    rewrite (bind_run_ok _ Rtz).
    destruct (infer_time_freq_run E (List.length s) "D"
                (s ++ [set_index d col ix])%list) as (f & Hf & _).
    exists f. cbn [df_columns set_index] in Hf |- *.
    rewrite (bind_run_ok _ Hf). reflexivity.
  - intros Hunset.
    rewrite (tz_policy_unset self (epoch_ms_index ns) Hunset eq_refl) in Hpol.
    congruence.
  - reflexivity.
Qed.

End TimestampColumn.

(** A [date] column placed before the [timestamp] column is the one
    [to_time] indexes by, and the integers of the [timestamp] column are
    left as they are; with the zone [Asia/Tokyo] configured the index
    holds the instant 2023-11-14 13:13:20 UTC, not 22:13:20 UTC; and an
    integer beyond the nanosecond range raises. *)
Lemma to_time_timestamp_not_epoch_ms :
  ~ timestamp_read_as_epoch_ms Sample.env Sample.naive_cleaner
      Sample.date_and_timestamp_table
  /\ ~ timestamp_read_as_epoch_ms Sample.env Sample.tokyo_cleaner
         Sample.timestamp_table
  /\ ~ timestamp_read_as_epoch_ms Sample.env Sample.naive_cleaner
         Sample.far_future_table
  /\ to_time Sample.env Sample.naive_cleaner O None false
             [Sample.date_and_timestamp_table]
     = (Ok (1%nat, "D"),
        [Sample.date_and_timestamp_table;
         mkDF [("timestamp", Sample.ints [1700000000000])]
              (Sample.naive_index [Calendar.midnight 2024 6 9])])
  /\ to_time Sample.env Sample.tokyo_cleaner O None false
             [Sample.timestamp_table]
     = (Ok (1%nat, "D"),
        [Sample.timestamp_table;
         mkDF [("v", Sample.ints [7])]
              (Sample.aware_index "Asia/Tokyo"
                 [Calendar.at_time 2023 11 14 13 13 20])]).
Proof.
  split; [| split; [| split; [| split]]].
  - intros H.
    destruct (H "timestamp" DInt64 [1700000000000]
                (or_intror (or_introl eq_refl)) eq_refl eq_refl
                [Sample.date_and_timestamp_table] O false eq_refl)
      as (r & f & s' & d' & Hrun & Hd' & Hix).
    vm_compute in Hrun. inversion Hrun; subst.
    vm_compute in Hd'. inversion Hd'; subst.
    vm_compute in Hix. discriminate Hix.
  - intros H.
    destruct (H "Timestamp" DInt64 [1700000000000]
                (or_introl eq_refl) eq_refl eq_refl
                [Sample.timestamp_table] O false eq_refl)
      as (r & f & s' & d' & Hrun & Hd' & Hix).
    vm_compute in Hrun. inversion Hrun; subst.
    vm_compute in Hd'. inversion Hd'; subst.
    vm_compute in Hix. discriminate Hix.
  - intros H.
    destruct (H "timestamp" DInt64 [10000000000000]
                (or_introl eq_refl) eq_refl eq_refl
                [Sample.far_future_table] O false eq_refl)
      as (r & f & s' & d' & Hrun & Hd' & Hix).
    vm_compute in Hrun. discriminate Hrun.
  - vm_compute. reflexivity.
  - vm_compute. reflexivity.
Qed.

Lemma to_time_timestamp_column_epoch_ms_witness :
  (exists f,
      to_time Sample.env Sample.naive_cleaner O None false
              [Sample.timestamp_table]
      = (Ok (1%nat, f),
         [Sample.timestamp_table;
          set_index Sample.timestamp_table "Timestamp"
                    (epoch_ms_index [1700000000000])]))
  /\ (opt_truthy (timezone Sample.naive_cleaner) = false ->
      epoch_ms_index [1700000000000] = epoch_ms_index [1700000000000])
  /\ epoch_ms_index [1700000000000]
     = mkSeries (DDatetime None)
                [Time (Calendar.at_time 2023 11 14 22 13 20)].
Proof.
  apply (to_time_timestamp_column_epoch_ms Sample.env Sample.naive_cleaner
           O false [Sample.timestamp_table] Sample.timestamp_table
           "Timestamp" DInt64 [1700000000000]
           (epoch_ms_index [1700000000000])).
  - reflexivity.
  - reflexivity.
  - reflexivity.
  - reflexivity.
  - repeat constructor.
  - reflexivity.
Defined.

Lemma to_time_year_parse_error_escapes_witness :
  exists e' s',
    to_time Sample.env Sample.naive_cleaner O None false
            [Sample.bad_year_table] = (Raise e', s').
Proof.
  apply (to_time_year_parse_error_escapes Sample.env Sample.naive_cleaner
           O false [Sample.bad_year_table] Sample.bad_year_table
           "year" (Sample.obj [Str "2021"; Str "abc"]) (Str "abc") ValueError).
  - reflexivity.
  - reflexivity.
  - reflexivity.
  - reflexivity.
  - right. left. reflexivity.
  - reflexivity.
Defined.

Lemma to_time_no_time_column_witness :
  to_time Sample.env Sample.naive_cleaner O None false [Sample.prices_table]
  = (Ok (1%nat, "D"), [Sample.prices_table; Sample.prices_table])
  /\ nth_error [Sample.prices_table; Sample.prices_table] 1
     = Some Sample.prices_table
  /\ nth_error [Sample.prices_table; Sample.prices_table] 0
     = Some Sample.prices_table.
Proof.
  apply (to_time_no_time_column Sample.env Sample.naive_cleaner O false
           [Sample.prices_table] Sample.prices_table).
  - reflexivity.
  - reflexivity.
Defined.

Lemma to_time_short_index_daily_witness :
  infer_freq Sample.env
    (epoch_ms_index [1700000000000; 1700003600000; 1700007200000])
  = Ok (Some "h")
  /\ to_time Sample.env Sample.naive_cleaner O None false
             [Sample.hourly_two_rows_table]
     = (Ok (1%nat, "D"),
        [Sample.hourly_two_rows_table;
         mkDF [("v", Sample.ints [1; 2])]
              (epoch_ms_index [1700000000000; 1700003600000])])
  /\ "D" = "D".
Proof.
  split; [vm_compute; reflexivity |].
  split; [vm_compute; reflexivity |].
  apply (to_time_short_index_daily Sample.env Sample.naive_cleaner O None
           false [Sample.hourly_two_rows_table]
           [Sample.hourly_two_rows_table;
            mkDF [("v", Sample.ints [1; 2])]
                 (epoch_ms_index [1700000000000; 1700003600000])]
           1%nat "D"
           (mkDF [("v", Sample.ints [1; 2])]
                 (epoch_ms_index [1700000000000; 1700003600000]))).
  - vm_compute. reflexivity.
  - reflexivity.
  - cbn. lia.
Defined.

(** ** Sorting by index *)

Lemma key_le_total a b : key_le a b = false -> key_le b a = true.
Proof.
  destruct a as [x |], b as [y |]; cbn; try congruence.
  intros H. apply Z.leb_gt in H. apply Z.leb_le. lia.
Qed.

Lemma insert_by_key_perm p l : Permutation (insert_by_key p l) (p :: l).
Proof.
  induction l as [| q l IH]; cbn; [reflexivity |].
  destruct (key_le (fst p) (fst q)); [reflexivity |].
  rewrite IH. apply perm_swap.
Qed.

Lemma sort_pairs_perm l : Permutation (sort_pairs l) l.
Proof.
  induction l as [| p l IH]; cbn; [reflexivity |].
  rewrite insert_by_key_perm. now constructor.
Qed.

Lemma insert_by_key_sorted p l :
  Sorted pair_le l -> Sorted pair_le (insert_by_key p l).
Proof.
  induction l as [| q l IH]; intros Hs; cbn.
  - repeat constructor.
  - destruct (key_le (fst p) (fst q)) eqn:Hle.
    + constructor; [exact Hs | constructor; exact Hle].
    + inversion Hs as [| ? ? Hs' Hhd]; subst.
      constructor; [apply IH; exact Hs' |].
      destruct l as [| q' l']; cbn.
      * constructor. apply key_le_total. exact Hle.
      * destruct (key_le (fst p) (fst q')); constructor.
        -- apply key_le_total. exact Hle.
        -- now inversion Hhd.
Qed.

Lemma sort_pairs_sorted l : Sorted pair_le (sort_pairs l).
Proof.
  induction l as [| p l IH]; cbn; [constructor |].
  now apply insert_by_key_sorted.
Qed.

Lemma take_flat_map {A} pos (xs : list A) :
  take pos xs
  = flat_map (fun i => match nth_error xs i with
                       | Some x => [x]
                       | None => []
                       end) pos.
Proof.
  induction pos as [| i pos IH]; cbn; [reflexivity |].
  destruct (nth_error xs i); cbn; now rewrite IH.
Qed.

Lemma take_perm {A} pos pos' (xs : list A) :
  Permutation pos pos' -> Permutation (take pos xs) (take pos' xs).
Proof.
  intros H. rewrite !take_flat_map. now apply Permutation_flat_map.
Qed.

Lemma enumerate_snd {A} i (xs : list A) :
  map snd (enumerate i xs) = seq i (List.length xs).
Proof.
  revert i. induction xs as [| x xs IH]; intros i; cbn; [reflexivity |].
  now rewrite IH.
Qed.

Lemma take_seq {A} (pre xs : list A) :
  take (seq (List.length pre) (List.length xs)) (pre ++ xs) = xs.
Proof.
  revert pre. induction xs as [| x xs IH]; intros pre; cbn; [reflexivity |].
  rewrite nth_error_app2 by lia. rewrite Nat.sub_diag. cbn.
  f_equal.
  specialize (IH (pre ++ [x])%list).
  rewrite length_app, <- app_assoc in IH. cbn in IH.
  rewrite Nat.add_1_r in IH. exact IH.
Qed.

Lemma enumerate_lookup {A} (pre xs : list A) :
  Forall (fun p => nth_error (pre ++ xs) (snd p) = Some (fst p))
         (enumerate (List.length pre) xs).
Proof.
  revert pre. induction xs as [| x xs IH]; intros pre; cbn; constructor.
  - cbn. rewrite nth_error_app2 by lia. now rewrite Nat.sub_diag.
  - specialize (IH (pre ++ [x])%list).
    rewrite length_app, <- app_assoc in IH. cbn in IH.
    rewrite Nat.add_1_r in IH. exact IH.
Qed.

Lemma take_keys (vs : list cell) (ps : list (option Z * nat)) :
  Forall (fun p => nth_error (map sort_key vs) (snd p) = Some (fst p)) ps ->
  map sort_key (take (map snd ps) vs) = map fst ps.
Proof.
  induction 1 as [| [k i] ps Hp _ IH]; cbn; [reflexivity |].
  cbn in Hp. rewrite nth_error_map in Hp.
  destruct (nth_error vs i) as [c |]; cbn in Hp; [| discriminate].
  inversion Hp; subst. cbn. now rewrite IH.
Qed.

Lemma argsort_perm (ix : Series) :
  Permutation (take (argsort ix) (s_values ix)) (s_values ix).
Proof.
  unfold argsort.
  rewrite <- (take_seq [] (s_values ix)) at 3. cbn [List.length app].
  apply take_perm.
  rewrite <- (length_map sort_key), <- enumerate_snd.
  apply Permutation_map, sort_pairs_perm.
Qed.

Lemma argsort_keys (ix : Series) :
  map sort_key (take (argsort ix) (s_values ix))
  = map fst (sort_pairs (enumerate O (map sort_key (s_values ix)))).
Proof.
  unfold argsort. apply take_keys.
  apply Forall_forall. intros p Hp.
  apply (Permutation_in _ (sort_pairs_perm _)) in Hp.
  pose proof (enumerate_lookup [] (map sort_key (s_values ix))) as F.
  rewrite Forall_forall in F. exact (F p Hp).
Qed.

Lemma sorted_times ts ps :
  map Some ts = map fst ps -> Sorted pair_le ps -> Sorted Z.le ts.
Proof.
  revert ps. induction ts as [| t ts IH]; intros ps Heq Hs; [constructor |].
  destruct ps as [| [k i] ps]; [discriminate |].
  cbn in Heq. inversion Heq; subst.
  inversion Hs as [| ? ? Hs' Hhd]; subst.
  constructor; [eapply IH; eauto |].
  destruct ts as [| t' ts]; [constructor |].
  destruct ps as [| [k' i'] ps]; [discriminate |].
  cbn in H1. inversion H1; subst.
  inversion Hhd as [| ? ? Hle]; subst. unfold pair_le in Hle. cbn in Hle.
  constructor. now apply Z.leb_le.
Qed.

Lemma mask_select_filter {A} (f : A -> bool) xs :
  mask_select (map f xs) xs = filter f xs.
Proof.
  induction xs as [| x xs IH]; cbn; [reflexivity |].
  destruct (f x); now rewrite IH.
Qed.

Lemma mask_select_none {A} (mask : list bool) (xs : list A) :
  Forall (fun b => b = false) mask -> mask_select mask xs = [].
Proof.
  intros H. revert xs. induction H as [| b mask Hb _ IH]; intros xs;
    [reflexivity |].
  destruct xs as [| x xs]; cbn; [reflexivity |]. subst b. apply IH.
Qed.

Lemma times_of_cells bound (vs : list cell) :
  Forall (fun c => cell_lt bound c = true) vs ->
  exists ts, vs = map Time ts /\ Forall (fun t => t < bound) ts.
Proof.
  induction 1 as [| c vs Hc _ (ts & -> & Hts)].
  - exists []. split; [reflexivity | constructor].
  - destruct c; cbn in Hc; try discriminate.
    exists (t :: ts). split; [reflexivity |].
    constructor; [now apply Z.ltb_lt | exact Hts].
Qed.

(** ** The period trimmer *)

Section Trimmer.

Variable E : Env.
Variable clk : Clock.

(** The three tables [clean_dates] creates: the copy, the rows before the
    bound, and these rows sorted. *)
Lemma clean_dates_run self time_freq {s df d} bound :
  nth_error s df = Some d ->
  is_datetime64_any_dtype (df_index d) = true ->
  trim_bound E clk (index_tz (df_index d)) time_freq = Ok bound ->
  clean_dates E clk self df time_freq s
  = (Ok (S (S (List.length s))),
     (s ++ [d; df_mask (index_lt (df_index d) bound) d;
            sort_index (df_mask (index_lt (df_index d) bound) d)])%list).
Proof.
  intros Hd Hdt Hb. unfold clean_dates.
  rewrite (bind_run_ok _ (copy_run Hd)).
  rewrite (bind_run_ok _ (deref_last s d)).
  rewrite Hdt, Hb. cbn [negb lift].
  unfold bind, ret, alloc, deref.
  rewrite nth_error_last.
  rewrite !length_app. cbn [List.length].
  rewrite <- !app_assoc. cbn [app].
  repeat f_equal; lia.
Qed.

(** On a naive index every branch yields a bound. *)
Lemma trim_bound_naive time_freq :
  exists bound, trim_bound E clk None time_freq = Ok bound.
Proof.
  unfold trim_bound.
  destruct (String.eqb time_freq "W"); [eauto |].
  destruct (String.eqb time_freq "M"); [eauto |].
  destruct (String.eqb time_freq "Q"); eauto.
Qed.

Lemma sort_index_names d : column_names (sort_index d) = column_names d.
Proof.
  unfold column_names, sort_index. cbn. rewrite map_map. reflexivity.
Qed.

Lemma sort_index_values d :
  s_values (df_index (sort_index d))
  = take (argsort (df_index d)) (s_values (df_index d)).
Proof. reflexivity. Qed.

Lemma df_mask_names mask d : column_names (df_mask mask d) = column_names d.
Proof.
  unfold column_names, df_mask. cbn. rewrite map_map. reflexivity.
Qed.

(** X28.  On a table with a datetime index, for every frequency for
    which the code computes its bound, [clean_dates] returns a table with
    the column names of the input whose index is sorted ascending,
    whatever the order of the input rows; its index entries are the
    entries of the input strictly before that bound; and when no input row
    is before the bound it has no rows, in the index and in every
    column. *)
Theorem clean_dates_sorted_and_empty :
  forall (self : DFCleaner) (df : ref) (time_freq : string) (s : store)
         (d : DataFrame) (bound : Z),
    nth_error s df = Some d ->
    is_datetime64_any_dtype (df_index d) = true ->
    trim_bound E clk (index_tz (df_index d)) time_freq = Ok bound ->
    exists d',
      clean_dates E clk self df time_freq s
      = (Ok (S (S (List.length s))),
         (s ++ [d; df_mask (index_lt (df_index d) bound) d; d'])%list)
      /\ column_names d' = column_names d
      /\ (exists ts,
             s_values (df_index d') = map Time ts
             /\ Sorted Z.le ts
             /\ Forall (fun t => t < bound) ts)
      /\ Permutation (s_values (df_index d'))
                     (filter (cell_lt bound) (s_values (df_index d)))
      /\ (Forall (fun c => cell_lt bound c = false) (s_values (df_index d)) ->
          s_values (df_index d') = []
          /\ Forall (fun p => s_values (snd p) = []) (df_columns d')).
Proof.
  intros self df time_freq s d bound Hd Hdt Hb.
  set (masked := df_mask (index_lt (df_index d) bound) d).
  exists (sort_index masked).
  split; [apply (clean_dates_run self time_freq bound Hd Hdt Hb) |].
  assert (Hvals : s_values (df_index masked)
                  = filter (cell_lt bound) (s_values (df_index d))).
  { unfold masked, df_mask, index_lt. cbn. apply mask_select_filter. }
  assert (Hperm : Permutation (s_values (df_index (sort_index masked)))
                              (filter (cell_lt bound) (s_values (df_index d)))).
  { rewrite <- Hvals, sort_index_values. apply argsort_perm. }
  split; [| split; [| split; [exact Hperm |]]].
  - rewrite sort_index_names. apply df_mask_names.
  - assert (Hall : Forall (fun c => cell_lt bound c = true)
                          (s_values (df_index (sort_index masked)))).
    { apply Forall_forall. intros c Hc.
      apply (Permutation_in _ Hperm) in Hc.
      apply filter_In in Hc. tauto. }
    destruct (times_of_cells bound _ Hall) as (ts & Hts & Hlt).
    exists ts. split; [exact Hts |]. split; [| exact Hlt].
    apply (sorted_times ts
             (sort_pairs (enumerate O
                (map sort_key (s_values (df_index masked)))))).
    + rewrite <- argsort_keys, <- sort_index_values.
      rewrite Hts, map_map. reflexivity.
    + apply sort_pairs_sorted.
  - intros Hnone.
    assert (Hmask : Forall (fun b => b = false) (index_lt (df_index d) bound)).
    { unfold index_lt. apply Forall_map. exact Hnone. }
    assert (Hix : s_values (df_index masked) = []).
    { unfold masked, df_mask. cbn. now apply mask_select_none. }
    split.
    + rewrite sort_index_values. unfold argsort. rewrite Hix. reflexivity.
    + unfold sort_index, argsort. rewrite Hix. cbn.
      apply Forall_map. apply Forall_forall. intros p _. reflexivity.
Qed.

End Trimmer.

(** On a naive index [today] is midnight of the current date: the weekly
    bound is midnight of a Monday, at most six days back; the monthly and
    quarterly bounds are midnight of the first day of the month and of
    the quarter. *)
Lemma naive_bounds_at_midnight :
  forall (E : Env) (clk : Clock),
    let today := date_today clk * Calendar.NS_PER_DAY in
    (exists monday,
        trim_bound E clk None "W" = Ok (monday * Calendar.NS_PER_DAY)
        /\ Calendar.weekday (monday * Calendar.NS_PER_DAY) = 0
        /\ date_today clk - 6 <= monday <= date_today clk)
    /\ trim_bound E clk None "M"
       = Ok (Calendar.midnight (Calendar.year today) (Calendar.month today) 1)
    /\ trim_bound E clk None "Q"
       = Ok (Calendar.midnight (Calendar.year today)
               (((Calendar.month today - 1) / 3 + 1 - 1) * 3 + 1) 1).
Proof.
  intros E clk today.
  assert (Hday : forall n, Calendar.day_of (n * Calendar.NS_PER_DAY) = n).
  { intros n. unfold Calendar.day_of. apply Z.div_mul. discriminate. }
  assert (Htod : Calendar.time_of_day today = 0).
  { unfold Calendar.time_of_day, today. apply Z.mod_mul. discriminate. }
  split; [| split].
  - exists (date_today clk - (date_today clk + 3) mod 7).
    unfold trim_bound, today_wall, today_of.
    replace ("W" =? "W")%string with true by reflexivity.
    unfold Calendar.weekday. rewrite !Hday.
    pose proof (Z.mod_pos_bound (date_today clk + 3) 7 eq_refl) as Hb.
    split; [f_equal; ring |]. split; [| lia].
    replace (date_today clk - (date_today clk + 3) mod 7 + 3)
      with (7 * ((date_today clk + 3) / 7)).
    + rewrite Z.mul_comm. apply Z.mod_mul. discriminate.
    + pose proof (Z.div_mod (date_today clk + 3) 7) as Hdm. lia.
  - unfold trim_bound, today_wall, today_of.
    replace ("M" =? "W")%string with false by reflexivity.
    replace ("M" =? "M")%string with true by reflexivity.
    unfold Calendar.replace_day1. fold today. rewrite Htod.
    f_equal. ring.
  - unfold trim_bound, today_wall, today_of.
    replace ("Q" =? "W")%string with false by reflexivity.
    replace ("Q" =? "M")%string with false by reflexivity.
    replace ("Q" =? "Q")%string with true by reflexivity.
    reflexivity.
Qed.

(** The bounds of the three examples, on a naive index. *)
Lemma naive_bounds_2024 :
  forall (E : Env),
    trim_bound E Sample.clock_2024_06_12 None "W"
    = Ok (Calendar.midnight 2024 6 10)
    /\ Calendar.weekday (Calendar.midnight 2024 6 12) = 2
    /\ trim_bound E Sample.clock_2024_06_12 None "M"
       = Ok (Calendar.midnight 2024 6 1)
    /\ trim_bound E Sample.clock_2024_08_01 None "Q"
       = Ok (Calendar.midnight 2024 7 1).
Proof.
  intros E. repeat split; vm_compute; reflexivity.
Qed.

(** C1 (the code at an input where it departs from the claim).  It is
    Wednesday 2024-06-12, 15:30 UTC, the index is aware in UTC and the
    frequency is ["W"].  The bound is Monday 2024-06-10 15:30, not 00:00,
    and the row of Monday 2024-06-10 10:00, a row of the current week,
    is kept. *)
Theorem clean_dates_weekly_aware_keeps_current_week :
  trim_bound Sample.env Sample.clock_2024_06_12 (Some "UTC") "W"
  = Ok (Calendar.at_time 2024 6 10 15 30 0)
  /\ clean_dates Sample.env Sample.clock_2024_06_12 Sample.utc_cleaner O "W"
                 [Sample.june_utc_table]
     = (Ok 3%nat,
        [Sample.june_utc_table; Sample.june_utc_table; Sample.june_utc_table;
         mkDF [("v", Sample.ints [4; 3; 2; 1])]
              (Sample.aware_index "UTC"
                 [Calendar.midnight 2024 5 31; Calendar.midnight 2024 6 1;
                  Calendar.midnight 2024 6 9;
                  Calendar.at_time 2024 6 10 10 0 0])])
  /\ clean_dates Sample.env Sample.clock_2024_06_12 Sample.naive_cleaner O "W"
                 [Sample.june_naive_table]
     = (Ok 3%nat,
        [Sample.june_naive_table; Sample.june_naive_table;
         mkDF [("v", Sample.ints [2; 3; 4])]
              (Sample.naive_index
                 [Calendar.midnight 2024 6 9; Calendar.midnight 2024 6 1;
                  Calendar.midnight 2024 5 31]);
         mkDF [("v", Sample.ints [4; 3; 2])]
              (Sample.naive_index
                 [Calendar.midnight 2024 5 31; Calendar.midnight 2024 6 1;
                  Calendar.midnight 2024 6 9])]).
Proof.
  repeat split; vm_compute; reflexivity.
Qed.

(** C9 (the code at an input where it departs from the claim).  It is
    Wednesday 2024-06-12, 15:30 UTC, the index is aware in UTC and the
    frequency is ["W"].  Both rows of the table are rows of Monday
    2024-06-10, so every row falls at or after the boundary of the
    current week, Monday 00:00.  The result is sorted, but it is not
    empty: the bound of the code is Monday 15:30 and both rows are
    returned.  The defect is the one of C1. *)
Theorem clean_dates_aware_current_week_not_emptied :
  Forall (fun c => cell_lt (Calendar.midnight 2024 6 10) c = false)
         (s_values (df_index Sample.monday_utc_table))
  /\ trim_bound Sample.env Sample.clock_2024_06_12 (Some "UTC") "W"
     = Ok (Calendar.at_time 2024 6 10 15 30 0)
  /\ clean_dates Sample.env Sample.clock_2024_06_12 Sample.utc_cleaner O "W"
                 [Sample.monday_utc_table]
     = (Ok 3%nat,
        [Sample.monday_utc_table; Sample.monday_utc_table;
         Sample.monday_utc_table;
         mkDF [("v", Sample.ints [2; 1])]
              (Sample.aware_index "UTC"
                 [Calendar.at_time 2024 6 10 10 0 0;
                  Calendar.at_time 2024 6 10 14 0 0])]).
Proof.
  split; [repeat constructor |].
  split; vm_compute; reflexivity.
Qed.

Lemma clean_dates_sorted_and_empty_witness :
  exists d',
    clean_dates Sample.env Sample.clock_2024_06_12 Sample.naive_cleaner O "D"
                [Sample.june_naive_table]
    = (Ok 3%nat,
       [Sample.june_naive_table; Sample.june_naive_table;
        df_mask (index_lt (df_index Sample.june_naive_table)
                          (Calendar.midnight 2024 6 12))
                Sample.june_naive_table;
        d'])
    /\ column_names d' = column_names Sample.june_naive_table
    /\ (exists ts,
           s_values (df_index d') = map Time ts
           /\ Sorted Z.le ts
           /\ Forall (fun t => t < Calendar.midnight 2024 6 12) ts)
    /\ Permutation (s_values (df_index d'))
                   (filter (cell_lt (Calendar.midnight 2024 6 12))
                           (s_values (df_index Sample.june_naive_table)))
    /\ (Forall (fun c => cell_lt (Calendar.midnight 2024 6 12) c = false)
               (s_values (df_index Sample.june_naive_table)) ->
        s_values (df_index d') = []
        /\ Forall (fun p => s_values (snd p) = []) (df_columns d')).
Proof.
  apply (clean_dates_sorted_and_empty Sample.env Sample.clock_2024_06_12
           Sample.naive_cleaner O "D" [Sample.june_naive_table]
           Sample.june_naive_table (Calendar.midnight 2024 6 12)).
  - reflexivity.
  - reflexivity.
  - vm_compute. reflexivity.
Defined.

(** ** The numeric normalizer *)

(** *** Text *)

Lemma str_contains_app c s1 s2 :
  str_contains c s2 = true -> str_contains c (s1 ++ s2) = true.
Proof.
  intros H. induction s1 as [| a s1 IH]; cbn; [exact H |].
  rewrite IH. apply orb_true_r.
Qed.

Lemma prefix_substring p s :
  prefix p s = true -> substring 0 (String.length p) s = p.
Proof.
  revert s. induction p as [| a p IH]; intros s H.
  - destruct s; reflexivity.
  - destruct s as [| b s]; cbn in H; [discriminate |].
    destruct (ascii_dec a b) as [<- | _]; [| discriminate].
    cbn. now rewrite IH.
Qed.

(** A character that does not occur in [old] survives the replacement of
    [old]. *)
Lemma skip_replace_keeps c a0 old0 new s :
  str_contains c (String a0 old0) = false ->
  forall k,
    str_contains c (substring 0 k s) = false ->
    str_contains c s = true ->
    str_contains c (skip_replace (String a0 old0) new k s) = true.
Proof.
  intros Hold. induction s as [| a s IH]; intros k Hk Hs; [discriminate |].
  cbn in Hs. destruct k as [| k].
  - cbn [skip_replace].
    destruct (prefix (String a0 old0) (String a s)) eqn:Hp.
    + apply str_contains_app.
      cbn in Hp. destruct (ascii_dec a0 a) as [<- | _]; [| discriminate].
      cbn in Hold. apply orb_false_elim in Hold. destruct Hold as [Ha Hold0].
      rewrite Ha in Hs. cbn in Hs.
      apply IH; [| exact Hs].
      replace (String.length (String a0 old0) - 1)%nat
        with (String.length old0) by (cbn [String.length]; lia).
      now rewrite (prefix_substring old0 s Hp).
    + cbn. destruct (Ascii.eqb c a); [reflexivity |]. cbn in Hs |- *.
      apply IH; [| exact Hs]. destruct s; reflexivity.
  - cbn in Hk. apply orb_false_elim in Hk. destruct Hk as [Ha Hk].
    rewrite Ha in Hs. cbn in Hs. cbn [skip_replace]. now apply IH.
Qed.

Lemma str_replace_keeps c a0 old0 new s :
  str_contains c (String a0 old0) = false ->
  str_contains c s = true ->
  str_contains c (str_replace (String a0 old0) new s) = true.
Proof.
  intros Hold Hs. unfold str_replace.
  apply skip_replace_keeps; [exact Hold | | exact Hs].
  destruct s; reflexivity.
Qed.


Lemma step_rejects_a st a : Numeric.step st a "a" = None.
Proof. destruct st; reflexivity. Qed.

Lemma scan_rejects_a s :
  str_contains "a" s = true -> forall st a, Numeric.scan st a s = None.
Proof.
  induction s as [| c s IH]; intros H st a; [discriminate |].
  cbn [str_contains] in H. cbn [Numeric.scan].
  destruct (Ascii.eqb "a" c) eqn:Hc.
  - apply Ascii.eqb_eq in Hc. subst c. now rewrite step_rejects_a.
  - cbn [orb] in H. destruct (Numeric.step st a c) as [[st' a'] |]; [| reflexivity].
    now apply IH.
Qed.

Lemma ascii_lower_keeps_a s :
  str_contains "a" s = true -> str_contains "a" (ascii_lower s) = true.
Proof.
  induction s as [| c s IH]; intros H; [discriminate |].
  cbn [str_contains ascii_lower] in H |- *.
  destruct (Ascii.eqb "a" c) eqn:Hc.
  - apply Ascii.eqb_eq in Hc. subst c. reflexivity.
  - cbn [orb] in H. rewrite (IH H). apply orb_true_r.
Qed.

Lemma parse_inf_rejects_a s :
  str_contains "a" s = true -> Numeric.parse_inf s = None.
Proof.
  intros H. apply ascii_lower_keeps_a in H. unfold Numeric.parse_inf.
  assert (no : forall lit, str_contains "a" lit = false ->
                           String.eqb (ascii_lower s) lit = false).
  { intros lit Hlit. destruct (String.eqb (ascii_lower s) lit) eqn:Heq;
      [| reflexivity].
    apply String.eqb_eq in Heq. congruence. }
  rewrite !no by reflexivity. reflexivity.
Qed.

Lemma read_text_rejects_a strtod s :
  str_contains "a" s = true ->
  Numeric.read_text strtod s = Numeric.RMissing.
Proof.
  intros H. unfold Numeric.read_text.
  rewrite (scan_rejects_a s H Numeric.SLead Numeric.acc0).
  now rewrite (parse_inf_rejects_a s H).
Qed.

Section Normalizer.

Variable E : Env.


(** *** Columns *)





Lemma replace_cell_text old new vs :
  forallb text_or_missing (map (replace_cell old new) vs) = true.
Proof.
  induction vs as [| c vs IH]; [reflexivity |].
  cbn. rewrite IH. now destruct c.
Qed.







(** *** Tables *)



Lemma select_absent (cols : list (string * Series)) col :
  ~ In col (map fst cols) ->
  filter (fun p => String.eqb (fst p) col) cols = [].
Proof.
  induction cols as [| p cols IH]; intros Hn; cbn; [reflexivity |].
  destruct (String.eqb (fst p) col) eqn:Hp.
  - apply String.eqb_eq in Hp. exfalso. apply Hn. left. exact Hp.
  - apply IH. intros H. apply Hn. right. exact H.
Qed.













End Normalizer.



(** * Further properties of the methods *)

(** ** [apply_timezone] *)

Lemma list_set_other {A} (l : list A) i r x :
  r <> i -> nth_error (list_set l i x) r = nth_error l r.
Proof.
  revert i r. induction l as [| a l IH]; intros [| i] [| r] Hne; cbn;
    try reflexivity; try congruence.
  apply IH. congruence.
Qed.

Lemma list_set_self {A} (l : list A) i x :
  nth_error l i = Some x -> list_set l i x = l.
Proof.
  revert i. induction l as [| a l IH]; intros [| i]; cbn; try discriminate.
  - intros H. now inversion H.
  - intros H. now rewrite IH.
Qed.

Lemma mapr_length {A B} (f : A -> result B) xs ys :
  mapr f xs = Ok ys -> List.length ys = List.length xs.
Proof.
  revert ys. induction xs as [| x xs IH]; intros ys H; cbn in H.
  - inversion H. reflexivity.
  - destruct (f x) as [y | e]; cbn in H; [| discriminate].
    destruct (mapr f xs) as [ys' | e]; cbn in H; [| discriminate].
    inversion H; subst. cbn. now rewrite (IH ys' eq_refl).
Qed.

Section TimezoneMore.

Variable E : Env.

(** What [tz_policy] leaves: the configured zone, as many entries, and
    the same instants when the index was already aware and a zone is
    configured. *)
Lemma tz_policy_result self ix ix' :
  is_datetime64_any_dtype ix = true ->
  tz_policy E self ix = Ok ix' ->
  s_dtype ix' = DDatetime (configured_zone self)
  /\ List.length (s_values ix') = List.length (s_values ix)
  /\ (opt_truthy (timezone self) = true -> index_tz ix <> None ->
      s_values ix' = s_values ix).
Proof.
  intros Hdt. unfold tz_policy, configured_zone.
  assert (strip : index_tz_localize E None ix = Ok ix' ->
                  s_dtype ix' = DDatetime None
                  /\ List.length (s_values ix') = List.length (s_values ix)).
  { unfold index_tz_localize.
    destruct (index_tz ix) as [z0 |] eqn:Etz; intros H; inversion H; subst.
    - cbn. rewrite length_map. auto.
    - unfold index_tz in Etz. unfold is_datetime64_any_dtype in Hdt.
      destruct (s_dtype ix'); try discriminate. subst. auto. }
  destruct (timezone self) as [z |]; cbn [opt_truthy].
  - destruct (str_truthy z) eqn:Hz.
    + destruct (index_tz ix) as [z0 |] eqn:Etz.
      * unfold index_tz_convert. rewrite Etz.
        destruct (tz_valid E z); intros H; inversion H; subst. cbn. auto.
      * unfold index_tz_localize. rewrite Etz.
        destruct (tz_valid E z); [| discriminate].
        destruct (mapr (localize_cell E z) (s_values ix)) as [vs | e] eqn:Hm;
          cbn; intros H; inversion H; subst. cbn.
        repeat split; [now apply (mapr_length _ _ _ Hm) | congruence].
    + intros H. destruct (strip H) as [H1 H2].
      repeat split; auto. discriminate.
  - intros H. destruct (strip H) as [H1 H2].
    repeat split; auto. discriminate.
Qed.

(** X1.  [apply_timezone] works in place: whether it returns or raises,
    the store keeps its size and every object other than the argument is
    left as it was; when it returns, it returns the argument itself, whose
    columns are unchanged. *)
Theorem apply_timezone_in_place :
  forall (self : DFCleaner) (df : ref) (s : store),
    List.length (snd (apply_timezone E self df s)) = List.length s
    /\ (forall r, r <> df ->
          nth_error (snd (apply_timezone E self df s)) r = nth_error s r)
    /\ (forall r, fst (apply_timezone E self df s) = Ok r ->
          r = df
          /\ exists d d',
               nth_error s df = Some d
               /\ nth_error (snd (apply_timezone E self df s)) df = Some d'
               /\ df_columns d' = df_columns d).
Proof.
  intros self df s.
  destruct (nth_error s df) as [d |] eqn:Hd.
  - rewrite (apply_timezone_run E self Hd).
    destruct (is_datetime64_any_dtype (df_index d)).
    + destruct (tz_policy E self (df_index d)) as [ix | e]; cbn.
      * split; [apply list_set_length |].
        split; [intros r Hr; now apply list_set_other |].
        intros r Hr. inversion Hr; subst. split; [reflexivity |].
        exists d, (mkDF (df_columns d) ix).
        rewrite list_set_same, Hd. auto.
      * repeat split; auto; discriminate.
    + cbn. split; [reflexivity |]. split; [reflexivity |].
      intros r Hr. inversion Hr; subst. split; [reflexivity |].
      exists d, d. auto.
  - rewrite (apply_timezone_dangling E self Hd). cbn.
    repeat split; auto; discriminate.
Qed.

(** X2.  After a successful [apply_timezone] on a datetime index, the
    index is a datetime index in exactly the configured zone (naive when
    no zone is configured), it has as many entries as before, and when an
    aware index is converted to the configured zone its instants are the
    same. *)
Theorem apply_timezone_zone_invariant :
  forall (self : DFCleaner) (df r : ref) (s s' : store) (d : DataFrame),
    nth_error s df = Some d ->
    is_datetime64_any_dtype (df_index d) = true ->
    apply_timezone E self df s = (Ok r, s') ->
    exists d',
      nth_error s' df = Some d'
      /\ s_dtype (df_index d') = DDatetime (configured_zone self)
      /\ List.length (s_values (df_index d'))
         = List.length (s_values (df_index d))
      /\ (opt_truthy (timezone self) = true ->
          index_tz (df_index d) <> None ->
          s_values (df_index d') = s_values (df_index d)).
Proof.
  intros self df r s s' d Hd Hdt Hrun.
  rewrite (apply_timezone_run E self Hd), Hdt in Hrun.
  destruct (tz_policy E self (df_index d)) as [ix | e] eqn:Hp;
    inversion Hrun; subst.
  exists (mkDF (df_columns d) ix).
  rewrite list_set_same, Hd. split; [reflexivity |].
  exact (tz_policy_result self _ _ Hdt Hp).
Qed.

(** X3.  With no zone configured (none, or the empty string)
    [apply_timezone] cannot fail on a table of the store, and it leaves
    the store exactly as it was when the index is not aware. *)
Theorem apply_timezone_unset_total :
  forall (self : DFCleaner) (df : ref) (s : store) (d : DataFrame),
    opt_truthy (timezone self) = false ->
    nth_error s df = Some d ->
    exists s',
      apply_timezone E self df s = (Ok df, s')
      /\ (index_tz (df_index d) = None -> s' = s).
Proof.
  intros self df s d Hunset Hd.
  rewrite (apply_timezone_run E self Hd).
  destruct (is_datetime64_any_dtype (df_index d)) eqn:Hdt; [| eauto].
  assert (Hp : tz_policy E self (df_index d)
               = index_tz_localize E None (df_index d)).
  { unfold tz_policy. destruct (timezone self) as [z |]; [| reflexivity].
    cbn in Hunset. now rewrite Hunset. }
  rewrite Hp. unfold index_tz_localize.
  destruct (index_tz (df_index d)) as [z0 |] eqn:Etz.
  - eexists. split; [reflexivity | discriminate].
  - eexists. split; [reflexivity |]. intros _.
    apply list_set_self. rewrite Hd. destruct d; reflexivity.
Qed.

(** X4.  Round trip: localizing a naive index to a coherent zone and then
    stripping the zone (the same table passed to a cleaner with no zone)
    gives back the store one started from. *)
Theorem localize_then_strip_round_trip :
  forall (to_zone strip : DFCleaner) (z : string) (df r : ref)
         (s s1 : store) (d : DataFrame),
    zone_coherent E z ->
    timezone to_zone = Some z -> str_truthy z = true ->
    opt_truthy (timezone strip) = false ->
    nth_error s df = Some d ->
    s_dtype (df_index d) = DDatetime None ->
    apply_timezone E to_zone df s = (Ok r, s1) ->
    apply_timezone E strip r s1 = (Ok df, s).
Proof.
  intros to_zone strip z df r s s1 d Hco Hz Hzt Hunset Hd Hnaive Hrun.
  assert (Hdt : is_datetime64_any_dtype (df_index d) = true)
    by (unfold is_datetime64_any_dtype; now rewrite Hnaive).
  assert (Htz : index_tz (df_index d) = None)
    by (unfold index_tz; now rewrite Hnaive).
  rewrite (apply_timezone_run E to_zone Hd), Hdt in Hrun.
  unfold tz_policy in Hrun. rewrite Hz, Hzt, Htz in Hrun.
  unfold index_tz_localize in Hrun. rewrite Htz in Hrun.
  destruct (tz_valid E z); [| discriminate].
  destruct (mapr (localize_cell E z) (s_values (df_index d))) as [vs | e]
    eqn:Hm; cbn in Hrun; inversion Hrun; subst. clear Hrun.
  set (d1 := mkDF (df_columns d) (mkSeries (DDatetime (Some z)) vs)).
  assert (Hd1 : nth_error (list_set s r d1) r = Some d1)
    by (rewrite list_set_same, Hd; reflexivity).
  rewrite (apply_timezone_run E strip Hd1). cbn.
  assert (Hp : tz_policy E strip (mkSeries (DDatetime (Some z)) vs)
               = Ok (mkSeries (DDatetime None) (map (naive_cell E z) vs))).
  { unfold tz_policy. destruct (timezone strip) as [z' |]; cbn in Hunset.
    - rewrite Hunset. reflexivity.
    - reflexivity. }
  rewrite Hp, list_set_idem. apply f_equal.
  apply list_set_self. rewrite Hd. f_equal.
  destruct d as [cols [t vals]]. cbn in *. subst t. f_equal. f_equal.
  clear - Hm Hco. revert vs Hm.
  induction vals as [| c vals IH]; intros vs Hm; cbn in Hm.
  - inversion Hm. reflexivity.
  - destruct (localize_cell E z c) as [c' | e] eqn:Hc; cbn in Hm;
      [| discriminate].
    destruct (mapr (localize_cell E z) vals) as [vs' | e]; cbn in Hm;
      [| discriminate].
    inversion Hm; subst. cbn. rewrite (IH vs' eq_refl). f_equal.
    destruct c; cbn in Hc; try (inversion Hc; reflexivity).
    destruct (tz_localize_wall E z t) as [u | e] eqn:Hl; cbn in Hc;
      inversion Hc; subst. cbn. unfold wall_of. now rewrite (Hco t u Hl).
Qed.

End TimezoneMore.

Lemma apply_timezone_zone_invariant_witness :
  exists d',
    nth_error [MoreSamples.utc_table] 0 = Some d'
    /\ s_dtype (df_index d') = DDatetime (configured_zone Sample.utc_cleaner)
    /\ List.length (s_values (df_index d'))
       = List.length (s_values (df_index MoreSamples.tokyo_table))
    /\ (opt_truthy (timezone Sample.utc_cleaner) = true ->
        index_tz (df_index MoreSamples.tokyo_table) <> None ->
        s_values (df_index d')
        = s_values (df_index MoreSamples.tokyo_table)).
Proof.
  apply (apply_timezone_zone_invariant Sample.env Sample.utc_cleaner
           O O [MoreSamples.tokyo_table] [MoreSamples.utc_table]
           MoreSamples.tokyo_table).
  - reflexivity.
  - reflexivity.
  - reflexivity.
Defined.

Lemma apply_timezone_unset_total_witness :
  exists s',
    apply_timezone Sample.env Sample.naive_cleaner O [Sample.june_utc_table]
    = (Ok O, s')
    /\ (index_tz (df_index Sample.june_utc_table) = None ->
        s' = [Sample.june_utc_table]).
Proof.
  apply (apply_timezone_unset_total Sample.env Sample.naive_cleaner O
           [Sample.june_utc_table] Sample.june_utc_table).
  - reflexivity.
  - reflexivity.
Defined.

Lemma localize_then_strip_round_trip_witness :
  apply_timezone Sample.env Sample.naive_cleaner O
                 [MoreSamples.june_tokyo_table]
  = (Ok O, [Sample.june_naive_table]).
Proof.
  apply (localize_then_strip_round_trip Sample.env Sample.tokyo_cleaner
           Sample.naive_cleaner "Asia/Tokyo" O O
           [Sample.june_naive_table] [MoreSamples.june_tokyo_table]
           Sample.june_naive_table).
  - intros w t H. unfold tz_localize_wall, tz_utcoffset in *. cbn [Sample.env] in *.
    unfold Sample.tz_localize_wall, Sample.tz_utcoffset in *.
    replace (Sample.tz_valid "Asia/Tokyo") with true in H by reflexivity.
    replace ("Asia/Tokyo" =? "Asia/Tokyo")%string with true in *
      by reflexivity.
    injection H as <-. unfold Calendar.NS_PER_SEC. lia.
  - reflexivity.
  - reflexivity.
  - reflexivity.
  - reflexivity.
  - reflexivity.
  - vm_compute. reflexivity.
Defined.

(** ** [detect_time_col] and [to_time] *)

Section IndexerMore.

Variable E : Env.

Lemma infer_time_freq_settled df d s :
  nth_error s df = Some d ->
  infer_time_freq E df "D" s = (Ok (settled_freq E (df_index d)), s).
Proof.
  intros Hd. unfold infer_time_freq, try_except, bind, deref, settled_freq.
  rewrite Hd.
  destruct (3 <=? List.length (s_values (df_index d)))%nat; [| reflexivity].
  destruct (infer_freq E (df_index d)) as [[f |] | e]; reflexivity.
Qed.

(** [to_time] computes [to_time_outcome]. *)
Lemma to_time_spec self df time_col dayfirst s d :
  nth_error s df = Some d ->
  to_time E self df time_col dayfirst s
  = to_time_outcome E self time_col dayfirst s d.
Proof.
  intros Hd. unfold to_time, to_time_outcome, resolved_col.
  rewrite (bind_run_ok _ (copy_run Hd)).
  assert (Hcol :
    (if opt_truthy time_col then ret time_col
     else detect_time_col E self (List.length s) None) (s ++ [d])%list
    = (Ok (if opt_truthy time_col then time_col
           else first_time_col E time_cols_literal (column_names d)),
       (s ++ [d])%list)).
  { destruct (opt_truthy time_col); [reflexivity |].
    apply (detect_time_col_run E self None (nth_error_last s d)). }
  rewrite (bind_run_ok _ Hcol). clear Hcol.
  destruct (if opt_truthy time_col then time_col
            else first_time_col E time_cols_literal (column_names d))
    as [col |]; [| reflexivity].
  cbn [opt_truthy]. destruct (str_truthy col); [| reflexivity].
  rewrite (bind_run_ok _ (deref_last s d)).
  unfold getitem at 1.
  destruct (select d col) as [| ser [| ser2 rest]] eqn:Hsel;
    cbn [lift]; try reflexivity.
  rewrite (bind_run_ok (s := (s ++ [d])%list) (a := ser) _ eq_refl).
  destruct (convert_column E dayfirst col ser) as [conv | e];
    cbn [lift]; [| reflexivity].
  rewrite (bind_run_ok (s := (s ++ [d])%list) (a := conv) _ eq_refl).
  rewrite (bind_run_ok _ (assign_last s d (setitem d col conv))).
  rewrite (bind_run_ok _ (deref_last s (setitem d col conv))).
  unfold getitem. rewrite select_setitem, Hsel. cbn [map lift].
  rewrite (bind_run_ok (s := (s ++ [setitem d col conv])%list) (a := conv)
                       _ eq_refl).
  rewrite (bind_run_ok _ (assign_last s (setitem d col conv) _)).
  rewrite set_index_setitem.
  pose proof (apply_timezone_run E self
                (nth_error_last s (set_index d col conv))) as Rtz.
  cbn [df_index df_columns set_index] in Rtz.
  unfold policy_index.
  destruct (is_datetime64_any_dtype conv).
  - destruct (tz_policy E self conv) as [ix | e].
    + rewrite list_set_last in Rtz. rewrite (bind_run_ok _ Rtz).
      rewrite (bind_run_ok _ (infer_time_freq_settled _ _ _
                                (nth_error_last s _))).
      reflexivity.
    + rewrite (bind_run_raise _ Rtz). reflexivity.
  - rewrite (bind_run_ok _ Rtz).
    rewrite (bind_run_ok _ (infer_time_freq_settled _ _ _
                              (nth_error_last s _))).
    reflexivity.
Qed.

Lemma first_time_col_member vocab cols c :
  first_time_col E vocab cols = Some c -> In c cols.
Proof.
  induction cols as [| y ys IH]; [discriminate |]. cbn [first_time_col].
  destruct (str_in (py_lower E y) vocab); intros H;
    [injection H as ->; now left | right; auto].
Qed.

Lemma first_time_col_larger vocab vocab' cols c :
  (forall x, str_in x vocab = true -> str_in x vocab' = true) ->
  first_time_col E vocab cols = Some c ->
  exists c' pre post,
    first_time_col E vocab' cols = Some c'
    /\ cols = (pre ++ c' :: post)%list
    /\ (forall x, In x pre -> ~ In (py_lower E x) vocab)
    /\ (c' = c \/ In c post).
Proof.
  intros Hsub. induction cols as [| col cols IH]; intros Hc; [discriminate |].
  cbn [first_time_col] in Hc |- *.
  destruct (str_in (py_lower E col) vocab) eqn:Hlit.
  - injection Hc as ->. rewrite (Hsub _ Hlit).
    exists c, [], cols. repeat split; auto.
  - destruct (str_in (py_lower E col) vocab').
    + exists col, [], cols. repeat split; auto.
      right. exact (first_time_col_member vocab cols c Hc).
    + destruct (IH Hc) as (c' & pre & post & Hrun' & Hsplit & Hpre & Hpos).
      exists c', (col :: pre), post.
      split; [exact Hrun' |].
      split; [cbn; now rewrite Hsplit |].
      split; [| exact Hpos].
      intros x [<- | Hx]; [| now apply Hpre].
      intros Hin. apply str_in_In in Hin. congruence.
Qed.

(** X5.  A hint never hides a time column and can only move the
    detection to an earlier column: when the scan without hint finds a
    column, the scan with any hint finds one too, and no column before it
    is in the fixed vocabulary. *)
Theorem detect_time_col_hint_moves_earlier :
  forall (self : DFCleaner) (df : ref) (hint : option string) (s : store)
         (c : string),
    detect_time_col E self df None s = (Ok (Some c), s) ->
    exists c' pre post d,
      nth_error s df = Some d
      /\ detect_time_col E self df hint s = (Ok (Some c'), s)
      /\ column_names d = (pre ++ c' :: post)%list
      /\ (forall x, In x pre -> ~ In (py_lower E x) time_cols_literal)
      /\ (c' = c \/ In c post).
Proof.
  intros self df hint s c Hrun.
  destruct (nth_error s df) as [d |] eqn:Hd.
  2: { unfold detect_time_col, bind, deref in Hrun. rewrite Hd in Hrun.
       discriminate. }
  rewrite (detect_time_col_run E self None Hd) in Hrun.
  cbn [scanned_vocabulary] in Hrun.
  assert (Hc : first_time_col E time_cols_literal (column_names d) = Some c)
    by congruence.
  clear Hrun.
  rewrite (detect_time_col_run E self hint Hd).
  assert (Hsub : forall x, str_in x time_cols_literal = true ->
                           str_in x (scanned_vocabulary E hint) = true).
  { intros x Hx. apply str_in_In. apply str_in_In in Hx.
    unfold scanned_vocabulary. destruct hint as [h |]; [| exact Hx].
    destruct (str_truthy h); [| exact Hx]. apply in_or_app. now left. }
  destruct (first_time_col_larger _ _ _ c Hsub Hc)
    as (c' & pre & post & Hrun' & Hsplit & Hpre & Hpos).
  exists c', pre, post, d. rewrite Hrun'. auto.
Qed.

(** X6.  An explicit column name that the table does not have makes
    [to_time] raise [KeyError]; the store holds the untouched copy and the
    caller's table is as it was. *)
Theorem to_time_missing_column_raises :
  forall (self : DFCleaner) (df : ref) (col : string) (dayfirst : bool)
         (s : store) (d : DataFrame),
    nth_error s df = Some d ->
    str_truthy col = true ->
    ~ In col (column_names d) ->
    to_time E self df (Some col) dayfirst s
    = (Raise KeyError, (s ++ [d])%list).
Proof.
  intros self df col dayfirst s d Hd Htruthy Hnot.
  rewrite (to_time_spec self df (Some col) dayfirst s d Hd).
  unfold to_time_outcome, resolved_col, opt_truthy.
  rewrite !Htruthy. unfold select.
  now rewrite (select_absent (df_columns d) col Hnot).
Qed.

(** X7.  Whenever [to_time] returns, the frequency is a non-empty code:
    it is ["D"] or the code [infer_freq] finds on the returned index, and
    it is ["D"] whenever [infer_freq] raises on that index or finds
    nothing. *)
Theorem to_time_frequency_settled :
  forall (self : DFCleaner) (df : ref) (time_col : option string)
         (dayfirst : bool) (s s' : store) (r : ref) (f : string)
         (d' : DataFrame),
    to_time E self df time_col dayfirst s = (Ok (r, f), s') ->
    nth_error s' r = Some d' ->
    f <> ""
    /\ (f = "D" \/ f = settled_freq E (df_index d'))
    /\ (forall e, infer_freq E (df_index d') = Raise e -> f = "D")
    /\ (infer_freq E (df_index d') = Ok None -> f = "D").
Proof.
  intros self df time_col dayfirst s s' r f d' Hrun Hd'.
  assert (Hne : settled_freq E (df_index d') <> "").
  { unfold settled_freq.
    destruct (3 <=? _)%nat; [| discriminate].
    destruct (infer_freq E (df_index d')) as [[g |] | e]; try discriminate.
    destruct g; cbn; discriminate. }
  assert (Hraise : forall e, infer_freq E (df_index d') = Raise e ->
                             settled_freq E (df_index d') = "D").
  { intros e He. unfold settled_freq. rewrite He.
    now destruct (3 <=? _)%nat. }
  assert (Hnone : infer_freq E (df_index d') = Ok None ->
                  settled_freq E (df_index d') = "D").
  { intros He. unfold settled_freq. rewrite He.
    now destruct (3 <=? _)%nat. }
  destruct (nth_error s df) as [d |] eqn:Hd.
  2: { unfold to_time, copy, deref in Hrun. unfold bind at 1 2 in Hrun.
       rewrite Hd in Hrun. discriminate. }
  rewrite (to_time_spec self df time_col dayfirst s d Hd) in Hrun.
  unfold to_time_outcome in Hrun.
  assert (Hdaily : (Ok (List.length s, "D"), (s ++ [d])%list)
                   = (Ok (r, f), s') ->
                   f <> ""
                   /\ (f = "D" \/ f = settled_freq E (df_index d'))
                   /\ (forall e, infer_freq E (df_index d') = Raise e ->
                                 f = "D")
                   /\ (infer_freq E (df_index d') = Ok None -> f = "D")).
  { intros H. inversion H; subst. repeat split; auto. discriminate. }
  destruct (resolved_col E time_col d) as [col |]; [| now apply Hdaily].
  destruct (str_truthy col); [| now apply Hdaily].
  destruct (select d col) as [| ser [| ser2 rest]]; try discriminate.
  destruct (convert_column E dayfirst col ser) as [conv | e];
    [| discriminate].
  destruct (policy_index E self conv) as [ix | e]; [| discriminate].
  inversion Hrun; subst. rewrite nth_error_last in Hd'.
  inversion Hd'; subst. cbn [df_index set_index] in *.
  repeat split; auto.
Qed.

(** What [to_time] returned when it indexed the table by [col]. *)
Lemma to_time_indexed_inv :
  forall (self : DFCleaner) (df : ref) (time_col : option string)
         (dayfirst : bool) (s s' : store) (r : ref) (f : string)
         (d : DataFrame) (col : string),
    nth_error s df = Some d ->
    resolved_col E time_col d = Some col ->
    str_truthy col = true ->
    to_time E self df time_col dayfirst s = (Ok (r, f), s') ->
    exists ser conv ix,
      select d col = [ser]
      /\ convert_column E dayfirst col ser = Ok conv
      /\ policy_index E self conv = Ok ix
      /\ r = List.length s
      /\ s' = (s ++ [mkDF (filter (fun p => negb (String.eqb (fst p) col))
                                  (df_columns d)) ix])%list
      /\ ~ In col (column_names
                     (mkDF (filter (fun p => negb (String.eqb (fst p) col))
                                   (df_columns d)) ix)).
Proof.
  intros self df time_col dayfirst s s' r f d col Hd Hcol Htruthy Hrun.
  rewrite (to_time_spec self df time_col dayfirst s d Hd) in Hrun.
  unfold to_time_outcome in Hrun. rewrite Hcol, Htruthy in Hrun.
  destruct (select d col) as [| ser [| ser2 rest]] eqn:Hsel;
    try discriminate.
  destruct (convert_column E dayfirst col ser) as [conv | e] eqn:Hconv;
    [| discriminate].
  destruct (policy_index E self conv) as [ix | e] eqn:Hpol; [| discriminate].
  inversion Hrun; subst.
  exists ser, conv, ix. repeat split; auto.
  unfold column_names. cbn. intros Hin.
  apply in_map_iff in Hin. destruct Hin as (p & Hp & Hin).
  apply filter_In in Hin. destruct Hin as [_ Hneq].
  rewrite Hp, String.eqb_refl in Hneq. discriminate.
Qed.

(** X8.  When [to_time] indexes a table by a column and returns, the
    returned table is a new object whose columns are the columns of the
    input other than that column, each with its cells untouched and in the
    same order, and whose index is the parsed column after the time-zone
    policy. *)
Theorem to_time_columns_carried_over :
  forall (self : DFCleaner) (df : ref) (time_col : option string)
         (dayfirst : bool) (s s' : store) (r : ref) (f : string)
         (d : DataFrame) (col : string),
    nth_error s df = Some d ->
    resolved_col E time_col d = Some col ->
    str_truthy col = true ->
    to_time E self df time_col dayfirst s = (Ok (r, f), s') ->
    exists ser conv ix,
      select d col = [ser]
      /\ convert_column E dayfirst col ser = Ok conv
      /\ policy_index E self conv = Ok ix
      /\ r = List.length s
      /\ s' = (s ++ [mkDF (filter (fun p => negb (String.eqb (fst p) col))
                                  (df_columns d)) ix])%list
      /\ ~ In col (column_names
                     (mkDF (filter (fun p => negb (String.eqb (fst p) col))
                                   (df_columns d)) ix)).
Proof. exact to_time_indexed_inv. Qed.

(** X9.  A failure of the frequency inference never escapes: when the
    column is there once, its parse succeeds and the time-zone policy
    succeeds, [to_time] returns, whatever [infer_freq] does. *)
Theorem to_time_returns_when_parse_and_zone_succeed :
  forall (self : DFCleaner) (df : ref) (time_col : option string)
         (dayfirst : bool) (s : store) (d : DataFrame) (col : string)
         (ser conv ix : Series),
    nth_error s df = Some d ->
    resolved_col E time_col d = Some col ->
    str_truthy col = true ->
    select d col = [ser] ->
    convert_column E dayfirst col ser = Ok conv ->
    policy_index E self conv = Ok ix ->
    to_time E self df time_col dayfirst s
    = (Ok (List.length s, settled_freq E ix),
       (s ++ [set_index d col ix])%list).
Proof.
  intros self df time_col dayfirst s d col ser conv ix
         Hd Hcol Htruthy Hsel Hconv Hpol.
  rewrite (to_time_spec self df time_col dayfirst s d Hd).
  unfold to_time_outcome. now rewrite Hcol, Htruthy, Hsel, Hconv, Hpol.
Qed.

End IndexerMore.

(** ** [clean_dates] *)

Lemma positions_ge i mask : Forall (fun j => (i <= j)%nat) (positions i mask).
Proof.
  revert i. induction mask as [| b mask IH]; intros i; cbn; [constructor |].
  assert (H : Forall (fun j => (i <= j)%nat) (positions (S i) mask)).
  { eapply Forall_impl; [| apply IH]. cbn. intros; lia. }
  destruct b; [constructor; [lia | exact H] | exact H].
Qed.

Lemma take_out_of_range {A} pos (xs : list A) :
  Forall (fun j => (List.length xs <= j)%nat) pos -> take pos xs = [].
Proof.
  induction 1 as [| j pos Hj _ IH]; cbn; [reflexivity |].
  apply nth_error_None in Hj. now rewrite Hj.
Qed.

Lemma mask_select_positions {A} mask (pre xs : list A) :
  take (positions (List.length pre) mask) (pre ++ xs) = mask_select mask xs.
Proof.
  revert pre xs. induction mask as [| b mask IH]; intros pre xs;
    [reflexivity |].
  destruct xs as [| x xs].
  - rewrite app_nil_r. cbn [mask_select]. apply take_out_of_range.
    apply (positions_ge (List.length pre) (b :: mask)).
  - cbn [positions mask_select].
    specialize (IH (pre ++ [x])%list xs).
    rewrite length_app, <- app_assoc in IH. cbn in IH.
    rewrite Nat.add_1_r in IH.
    destruct b; [| exact IH].
    cbn [take]. rewrite nth_error_app2 by lia. rewrite Nat.sub_diag. cbn.
    now rewrite IH.
Qed.

Lemma positions_spec mask i j :
  In j (positions i mask) <->
  (i <= j)%nat /\ nth_error mask (j - i) = Some true.
Proof.
  revert i. induction mask as [| b mask IH]; intros i; cbn [positions].
  - split; [intros [] |]. intros [_ H]. destruct (j - i)%nat; discriminate.
  - assert (Hrec : In j (positions (S i) mask) <->
                   (i < j)%nat /\ nth_error (b :: mask) (j - i) = Some true).
    { rewrite IH. split; intros [Hle Hn]; split; try lia.
      - replace (j - i)%nat with (S (j - S i)) by lia. exact Hn.
      - replace (j - i)%nat with (S (j - S i)) in Hn by lia. exact Hn. }
    destruct b.
    + cbn [In]. rewrite Hrec. split.
      * intros [<- | [Hlt Hn]]; [| split; [lia | exact Hn]].
        split; [lia |]. now rewrite Nat.sub_diag.
      * intros [Hle Hn]. destruct (Nat.eq_dec i j) as [-> | Hne];
          [now left | right; split; [lia | exact Hn]].
    + rewrite Hrec. split; intros [Hle Hn]; split; try lia; try exact Hn.
      destruct (Nat.eq_dec i j) as [-> | Hne]; [| lia].
      rewrite Nat.sub_diag in Hn. discriminate.
Qed.

Lemma positions_NoDup i mask : NoDup (positions i mask).
Proof.
  revert i. induction mask as [| b mask IH]; intros i; cbn; [constructor |].
  destruct b; [| apply IH]. constructor; [| apply IH].
  intros Hin. pose proof (positions_ge (S i) mask) as Hge.
  rewrite Forall_forall in Hge. specialize (Hge i Hin). lia.
Qed.

Lemma nth_error_take {A} pos (xs : list A) i :
  Forall (fun j => (j < List.length xs)%nat) pos ->
  nth_error (take pos xs) i
  = match nth_error pos i with
    | Some j => nth_error xs j
    | None => None
    end.
Proof.
  intros H. revert i. induction H as [| j pos Hj _ IH]; intros i.
  - destruct i; reflexivity.
  - cbn [take]. destruct (nth_error xs j) as [x |] eqn:Hx.
    + destruct i; cbn; [now rewrite Hx | apply IH].
    + apply nth_error_None in Hx. lia.
Qed.

Lemma take_take {A} p2 p1 (xs : list A) :
  Forall (fun j => (j < List.length xs)%nat) p1 ->
  take p2 (take p1 xs) = take (take p2 p1) xs.
Proof.
  intros H. induction p2 as [| i p2 IH]; cbn; [reflexivity |].
  rewrite (nth_error_take p1 xs i H).
  destruct (nth_error p1 i) as [j |]; [| exact IH].
  cbn. destruct (nth_error xs j); now rewrite IH.
Qed.

Lemma take_length_in_range {A} pos (xs : list A) :
  Forall (fun j => (j < List.length xs)%nat) pos ->
  List.length (take pos xs) = List.length pos.
Proof.
  induction 1 as [| j pos Hj _ IH]; cbn; [reflexivity |].
  destruct (nth_error xs j) eqn:Hx; [cbn; now rewrite IH |].
  apply nth_error_None in Hx. lia.
Qed.

Lemma argsort_perm_seq ix :
  Permutation (argsort ix) (seq 0 (List.length (s_values ix))).
Proof.
  unfold argsort.
  rewrite <- (length_map sort_key), <- enumerate_snd.
  apply Permutation_map, sort_pairs_perm.
Qed.

Lemma df_mask_row_select mask d :
  df_mask mask d = row_select (positions 0 mask) d.
Proof.
  unfold df_mask, row_select, series_mask, series_take. f_equal.
  - apply map_ext. intros p. f_equal. f_equal.
    symmetry. apply (mask_select_positions mask [] (s_values (snd p))).
  - f_equal. symmetry.
    apply (mask_select_positions mask [] (s_values (df_index d))).
Qed.

Lemma row_select_row_select p2 p1 d :
  rectangular d ->
  Forall (fun j => (j < List.length (s_values (df_index d)))%nat) p1 ->
  row_select p2 (row_select p1 d) = row_select (take p2 p1) d.
Proof.
  intros Hrect Hp1. unfold row_select, series_take. cbn. f_equal.
  - rewrite map_map. apply map_ext_in. intros p Hp. cbn. f_equal. f_equal.
    apply take_take. unfold rectangular in Hrect.
    rewrite Forall_forall in Hrect, Hp1. apply Forall_forall.
    intros j Hj. rewrite (Hrect p Hp). now apply Hp1.
  - f_equal. now apply take_take.
Qed.

Lemma row_select_rectangular pos d :
  rectangular d ->
  Forall (fun j => (j < List.length (s_values (df_index d)))%nat) pos ->
  rectangular (row_select pos d).
Proof.
  intros Hrect Hpos. unfold rectangular, row_select in *. cbn.
  apply Forall_map. apply Forall_forall. intros p Hp. cbn.
  rewrite Forall_forall in Hrect.
  assert (Hc : Forall (fun j => (j < List.length (s_values (snd p)))%nat) pos).
  { rewrite (Hrect p Hp). exact Hpos. }
  now rewrite (take_length_in_range pos _ Hc),
              (take_length_in_range pos _ Hpos).
Qed.

Lemma take_seq_all {A} (xs : list A) :
  take (seq 0 (List.length xs)) xs = xs.
Proof. exact (take_seq [] xs). Qed.

Lemma row_select_all d :
  rectangular d ->
  row_select (seq 0 (List.length (s_values (df_index d)))) d = d.
Proof.
  intros Hrect. unfold row_select, series_take.
  destruct d as [cols [t vals]]. cbn in *. f_equal.
  - unfold rectangular in Hrect. cbn in Hrect.
    rewrite <- (map_id cols) at 2. apply map_ext_in. intros [name [t' vs]] Hp.
    rewrite Forall_forall in Hrect. specialize (Hrect _ Hp). cbn in *.
    rewrite <- Hrect. now rewrite take_seq_all.
  - now rewrite take_seq_all.
Qed.

Lemma sort_pairs_sorted_id l : Sorted pair_le l -> sort_pairs l = l.
Proof.
  induction 1 as [| p l Hs IH Hhd]; cbn; [reflexivity |].
  rewrite IH. destruct Hhd as [| q l' Hpq]; cbn; [reflexivity |].
  unfold pair_le in Hpq. now rewrite Hpq.
Qed.

Lemma sorted_keys_of_pairs ps :
  Sorted pair_le ps -> Sorted key_sorted (map fst ps).
Proof.
  induction 1 as [| p l Hs IH Hhd]; cbn; constructor; auto.
  destruct Hhd; cbn; constructor. assumption.
Qed.

Lemma sorted_pairs_of_keys i keys :
  Sorted key_sorted keys -> Sorted pair_le (enumerate i keys).
Proof.
  intros H. revert i. induction H as [| k l Hs IH Hhd]; intros i; cbn;
    constructor; auto.
  destruct Hhd; cbn; constructor. assumption.
Qed.

Lemma argsort_sorted_id ix :
  Sorted key_sorted (map sort_key (s_values ix)) ->
  argsort ix = seq 0 (List.length (s_values ix)).
Proof.
  intros H. unfold argsort.
  rewrite (sort_pairs_sorted_id _ (sorted_pairs_of_keys 0 _ H)).
  rewrite enumerate_snd. now rewrite length_map.
Qed.

Lemma sort_index_sorted d :
  Sorted key_sorted (map sort_key (s_values (df_index (sort_index d)))).
Proof.
  rewrite sort_index_values, argsort_keys.
  apply sorted_keys_of_pairs, sort_pairs_sorted.
Qed.

Section TrimmerMore.

Variable E : Env.
Variable clk : Clock.

Lemma clean_dates_not_datetime :
  forall (self : DFCleaner) (df : ref) (time_freq : string) (s : store)
         (d : DataFrame),
    nth_error s df = Some d ->
    is_datetime64_any_dtype (df_index d) = false ->
    clean_dates E clk self df time_freq s
    = (Raise AttributeError, (s ++ [d])%list).
Proof.
  intros self df time_freq s d Hd Hdt. unfold clean_dates.
  rewrite (bind_run_ok _ (copy_run Hd)).
  rewrite (bind_run_ok _ (deref_last s d)).
  now rewrite Hdt.
Qed.

(** X10.  On a table whose index is not a datetime index [clean_dates]
    raises [AttributeError]; only the copy it made is added to the store. *)
Theorem clean_dates_needs_datetime_index :
  forall (self : DFCleaner) (df : ref) (time_freq : string) (s : store)
         (d : DataFrame),
    nth_error s df = Some d ->
    is_datetime64_any_dtype (df_index d) = false ->
    clean_dates E clk self df time_freq s
    = (Raise AttributeError, (s ++ [d])%list).
Proof. exact clean_dates_not_datetime. Qed.

Lemma clean_dates_total :
  forall (self : DFCleaner) (df : ref) (time_freq : string) (s : store)
         (d : DataFrame),
    nth_error s df = Some d ->
    is_datetime64_any_dtype (df_index d) = true ->
    index_tz (df_index d) = None
    \/ (time_freq <> "M" /\ time_freq <> "Q") ->
    exists bound d',
      trim_bound E clk (index_tz (df_index d)) time_freq = Ok bound
      /\ clean_dates E clk self df time_freq s
         = (Ok (S (S (List.length s))),
            (s ++ [d; df_mask (index_lt (df_index d) bound) d; d'])%list).
Proof.
  intros self df time_freq s d Hd Hdt Hcase.
  assert (Hb : exists bound,
             trim_bound E clk (index_tz (df_index d)) time_freq = Ok bound).
  { destruct Hcase as [-> | [HM HQ]]; [apply trim_bound_naive |].
    unfold trim_bound.
    destruct (String.eqb time_freq "W"); [eauto |].
    destruct (String.eqb time_freq "M") eqn:E1;
      [apply String.eqb_eq in E1; contradiction |].
    destruct (String.eqb time_freq "Q") eqn:E2;
      [apply String.eqb_eq in E2; contradiction |].
    eauto. }
  destruct Hb as (bound & Hb). exists bound. eexists.
  split; [exact Hb |].
  apply (clean_dates_run E clk self time_freq bound Hd Hdt Hb).
Qed.

(** X11.  [clean_dates] returns on every naive datetime index, for every
    frequency string, and on every aware datetime index for every
    frequency other than ["M"] and ["Q"], the only ones that go back to
    the zone database. *)
Theorem clean_dates_returns :
  forall (self : DFCleaner) (df : ref) (time_freq : string) (s : store)
         (d : DataFrame),
    nth_error s df = Some d ->
    is_datetime64_any_dtype (df_index d) = true ->
    index_tz (df_index d) = None
    \/ (time_freq <> "M" /\ time_freq <> "Q") ->
    exists bound d',
      trim_bound E clk (index_tz (df_index d)) time_freq = Ok bound
      /\ clean_dates E clk self df time_freq s
         = (Ok (S (S (List.length s))),
            (s ++ [d; df_mask (index_lt (df_index d) bound) d; d'])%list).
Proof. exact clean_dates_total. Qed.

(** The rows [clean_dates] returns, as positions in the input. *)
Lemma clean_dates_positions d bound :
  rectangular d ->
  exists pos,
    sort_index (df_mask (index_lt (df_index d) bound) d) = row_select pos d
    /\ Permutation pos (positions 0 (index_lt (df_index d) bound))
    /\ Forall (fun j => (j < List.length (s_values (df_index d)))%nat) pos.
Proof.
  intros Hrect.
  set (mask := index_lt (df_index d) bound).
  assert (Hin : Forall (fun j => (j < List.length (s_values (df_index d)))%nat)
                       (positions 0 mask)).
  { apply Forall_forall. intros j Hj. apply positions_spec in Hj.
    destruct Hj as [_ Hj].
    assert (Hlt : (j - 0 < List.length mask)%nat)
      by (apply nth_error_Some; congruence).
    unfold mask, index_lt in Hlt. rewrite length_map in Hlt. lia. }
  assert (Hlen : List.length (s_values (df_index (df_mask mask d)))
                 = List.length (positions 0 mask)).
  { rewrite df_mask_row_select. cbn.
    now apply take_length_in_range. }
  exists (take (argsort (df_index (df_mask mask d))) (positions 0 mask)).
  assert (Hperm : Permutation
                    (take (argsort (df_index (df_mask mask d)))
                          (positions 0 mask))
                    (positions 0 mask)).
  { rewrite <- (take_seq [] (positions 0 mask)) at 2. cbn [List.length app].
    apply take_perm. rewrite <- Hlen. apply argsort_perm_seq. }
  split; [| split; [exact Hperm |]].
  - change (sort_index (df_mask mask d))
      with (row_select (argsort (df_index (df_mask mask d))) (df_mask mask d)).
    rewrite df_mask_row_select at 2.
    now apply row_select_row_select.
  - apply Forall_forall. intros j Hj.
    apply (Permutation_in _ Hperm) in Hj.
    rewrite Forall_forall in Hin. now apply Hin.
Qed.

(** X12.  [clean_dates] keeps rows whole: on a table whose columns are as
    long as its index, the returned table is made of the rows of the
    input at a list of positions without repetition, the same list for the
    index and for every column, and a position is in the list exactly
    when the index entry there is strictly before the bound. *)
Theorem clean_dates_keeps_rows_whole :
  forall (self : DFCleaner) (df : ref) (time_freq : string) (s : store)
         (d : DataFrame) (bound : Z),
    nth_error s df = Some d ->
    is_datetime64_any_dtype (df_index d) = true ->
    trim_bound E clk (index_tz (df_index d)) time_freq = Ok bound ->
    rectangular d ->
    exists pos,
      clean_dates E clk self df time_freq s
      = (Ok (S (S (List.length s))),
         (s ++ [d; df_mask (index_lt (df_index d) bound) d;
                row_select pos d])%list)
      /\ NoDup pos
      /\ (forall j, In j pos <->
                    exists c, nth_error (s_values (df_index d)) j = Some c
                              /\ cell_lt bound c = true).
Proof.
  intros self df time_freq s d bound Hd Hdt Hb Hrect.
  destruct (clean_dates_positions d bound Hrect) as (pos & Heq & Hperm & Hin).
  exists pos. split; [| split].
  - rewrite (clean_dates_run E clk self time_freq bound Hd Hdt Hb).
    now rewrite Heq.
  - apply (Permutation_NoDup (Permutation_sym Hperm)), positions_NoDup.
  - intros j. split.
    + intros Hj. apply (Permutation_in _ Hperm) in Hj.
      apply positions_spec in Hj. destruct Hj as [_ Hj].
      rewrite Nat.sub_0_r in Hj. unfold index_lt in Hj.
      rewrite nth_error_map in Hj.
      destruct (nth_error (s_values (df_index d)) j) as [c |];
        cbn in Hj; [| discriminate].
      exists c. split; [reflexivity | congruence].
    + intros (c & Hc & Hlt).
      apply (Permutation_in _ (Permutation_sym Hperm)).
      apply positions_spec. split; [lia |].
      rewrite Nat.sub_0_r. unfold index_lt. rewrite nth_error_map, Hc.
      cbn. now rewrite Hlt.
Qed.

(** X13.  [clean_dates] is idempotent at a fixed clock: applied to the
    table it returned, with the same frequency, it returns an equal
    table. *)
Theorem clean_dates_idempotent :
  forall (self : DFCleaner) (df : ref) (time_freq : string) (s : store)
         (d : DataFrame) (bound : Z),
    nth_error s df = Some d ->
    is_datetime64_any_dtype (df_index d) = true ->
    trim_bound E clk (index_tz (df_index d)) time_freq = Ok bound ->
    rectangular d ->
    exists r1 s1 d',
      clean_dates E clk self df time_freq s = (Ok r1, s1)
      /\ nth_error s1 r1 = Some d'
      /\ clean_dates E clk self r1 time_freq s1
         = (Ok (S (S (List.length s1))), (s1 ++ [d'; d'; d'])%list).
Proof.
  intros self df time_freq s d bound Hd Hdt Hb Hrect.
  destruct (clean_dates_positions d bound Hrect) as (pos & Heq & Hperm & Hin).
  set (masked := df_mask (index_lt (df_index d) bound) d) in *.
  set (d' := sort_index masked) in *.
  exists (S (S (List.length s))), (s ++ [d; masked; d'])%list, d'.
  split; [apply (clean_dates_run E clk self time_freq bound Hd Hdt Hb) |].
  assert (Hd' : nth_error (s ++ [d; masked; d'])%list (S (S (List.length s)))
                = Some d').
  { rewrite nth_error_app2 by lia.
    replace (S (S (List.length s)) - List.length s)%nat with 2%nat by lia.
    reflexivity. }
  split; [exact Hd' |].
  assert (Hty : s_dtype (df_index d') = s_dtype (df_index d)) by reflexivity.
  assert (Hdt' : is_datetime64_any_dtype (df_index d') = true)
    by (unfold is_datetime64_any_dtype in *; now rewrite Hty).
  assert (Htz' : index_tz (df_index d') = index_tz (df_index d))
    by (unfold index_tz; now rewrite Hty).
  assert (Hb' : trim_bound E clk (index_tz (df_index d')) time_freq = Ok bound)
    by now rewrite Htz'.
  rewrite (clean_dates_run E clk self time_freq bound Hd' Hdt' Hb').
  assert (Hrect' : rectangular d')
    by (rewrite Heq; now apply row_select_rectangular).
  assert (Hall : Forall (fun c => cell_lt bound c = true)
                        (s_values (df_index d'))).
  { apply Forall_forall. intros c Hc.
    unfold d' in Hc. rewrite sort_index_values in Hc.
    apply (Permutation_in _ (argsort_perm (df_index masked))) in Hc.
    unfold masked, df_mask, index_lt in Hc. cbn in Hc.
    rewrite mask_select_filter in Hc. apply filter_In in Hc. tauto. }
  assert (Hmask : df_mask (index_lt (df_index d') bound) d' = d').
  { rewrite df_mask_row_select.
    replace (positions 0 (index_lt (df_index d') bound))
      with (seq 0 (List.length (s_values (df_index d'))));
      [now apply row_select_all |].
    unfold index_lt. clear - Hall.
    generalize 0%nat as i.
    induction Hall as [| c vs Hc _ IH]; intros i; cbn; [reflexivity |].
    rewrite Hc. now rewrite IH. }
  rewrite Hmask.
  assert (Hsort : sort_index d' = d').
  { change (sort_index d') with (row_select (argsort (df_index d')) d').
    rewrite argsort_sorted_id; [now apply row_select_all |].
    apply sort_index_sorted. }
  now rewrite Hsort.
Qed.

End TrimmerMore.

(** ** [to_time] followed by [clean_dates] *)

Section Pipeline.

Variable E : Env.
Variable clk : Clock.

Lemma dt_year_not_datetime ys :
  is_datetime64_any_dtype (dt_year ys) = false.
Proof.
  unfold dt_year. now destruct (forallb _ ys).
Qed.

(** X14.  A table indexed through the [year] branch cannot be trimmed:
    the index [to_time] leaves holds year numbers, not timestamps, the
    time-zone policy does not apply to it, and [clean_dates] raises
    [AttributeError] on the returned table, for every frequency. *)
Theorem year_index_cannot_be_trimmed :
  forall (self : DFCleaner) (df : ref) (time_col : option string)
         (dayfirst : bool) (s s' : store) (r : ref) (f : string)
         (d : DataFrame) (col : string),
    nth_error s df = Some d ->
    resolved_col E time_col d = Some col ->
    py_lower E col = "year" ->
    to_time E self df time_col dayfirst s = (Ok (r, f), s') ->
    exists d',
      nth_error s' r = Some d'
      /\ is_datetime64_any_dtype (df_index d') = false
      /\ forall time_freq,
           clean_dates E clk self r time_freq s'
           = (Raise AttributeError, (s' ++ [d'])%list).
Proof.
  intros self df time_col dayfirst s s' r f d col Hd Hcol Hlow Hrun.
  assert (Htruthy : str_truthy col = true).
  { apply (lowered_name_truthy E col "year" Hlow). discriminate. }
  destruct (to_time_indexed_inv E self df time_col dayfirst s s' r f
              d col Hd Hcol Htruthy Hrun)
    as (ser & conv & ix & Hsel & Hconv & Hpol & -> & -> & _).
  unfold convert_column in Hconv. rewrite Hlow in Hconv.
  replace ("year" =? "year")%string with true in Hconv by reflexivity.
  unfold to_datetime_year in Hconv.
  destruct (mapr _ (s_values ser)) as [ys | e]; cbn in Hconv;
    [| discriminate].
  injection Hconv as <-.
  unfold policy_index in Hpol. rewrite dt_year_not_datetime in Hpol.
  injection Hpol as <-.
  eexists. split; [apply nth_error_last |].
  split; [apply dt_year_not_datetime |].
  intros time_freq.
  apply (clean_dates_not_datetime E clk self _ time_freq _ _
           (nth_error_last s _)).
  apply dt_year_not_datetime.
Qed.

(** X15.  With no zone configured, a datetime index produced by
    [to_time] is naive, and [clean_dates] then returns on the table
    [to_time] returned, for every frequency. *)
Theorem to_time_then_clean_dates_without_zone :
  forall (self : DFCleaner) (df : ref) (time_col : option string)
         (dayfirst : bool) (s s' : store) (r : ref) (f : string)
         (d d' : DataFrame) (col : string),
    opt_truthy (timezone self) = false ->
    nth_error s df = Some d ->
    resolved_col E time_col d = Some col ->
    str_truthy col = true ->
    to_time E self df time_col dayfirst s = (Ok (r, f), s') ->
    nth_error s' r = Some d' ->
    is_datetime64_any_dtype (df_index d') = true ->
    index_tz (df_index d') = None
    /\ forall time_freq,
         exists r2 s2,
           clean_dates E clk self r time_freq s' = (Ok r2, s2).
Proof.
  intros self df time_col dayfirst s s' r f d d' col
         Hunset Hd Hcol Htruthy Hrun Hd' Hdt'.
  destruct (to_time_indexed_inv E self df time_col dayfirst s s' r f
              d col Hd Hcol Htruthy Hrun)
    as (ser & conv & ix & Hsel & Hconv & Hpol & -> & -> & _).
  rewrite nth_error_last in Hd'. injection Hd' as <-.
  cbn [df_index] in *.
  assert (Hnaive : index_tz ix = None).
  { unfold policy_index in Hpol.
    destruct (is_datetime64_any_dtype conv) eqn:Hc.
    - destruct (tz_policy_result E self conv ix Hc Hpol) as (Hty & _).
      unfold index_tz, configured_zone in *. rewrite Hty.
      now rewrite Hunset.
    - injection Hpol as <-. congruence. }
  split; [exact Hnaive |].
  intros time_freq.
  set (d2 := mkDF (filter (fun p => negb (String.eqb (fst p) col))
                          (df_columns d)) ix).
  destruct (clean_dates_total E clk self (List.length s) time_freq
              (s ++ [d2])%list d2 (nth_error_last s d2) Hdt'
              (or_introl Hnaive))
    as (bound & d3 & _ & Hrun2).
  eauto.
Qed.

End Pipeline.

(** ** The calendar *)

(** Divisions by constants, as linear arithmetic on quotients and
    remainders. *)
Ltac euclid :=
  Z.to_euclidean_division_equations; lia.

(** The year of the era that [civil_from_days] computes for a day of the
    era is the year the day lies in. *)
Lemma year_of_era yoe doe :
  0 <= yoe <= 399 ->
  year_start yoe <= doe < year_end yoe ->
  (doe - doe / 1460 + doe / 36524 - doe / 146096) / 365 = yoe.
Proof. unfold year_end, year_start. intros HY H. euclid. Qed.

Lemma year_of_era_exists doe :
  0 <= doe < 146097 ->
  exists yoe, 0 <= yoe <= 399 /\ year_start yoe <= doe < year_end yoe.
Proof.
  intros H.
  exists ((doe - doe / 1460 + doe / 36524 - doe / 146096) / 365).
  unfold year_end, year_start. euclid.
Qed.

Lemma year_length yoe :
  0 <= yoe <= 399 ->
  year_end yoe = year_start yoe + 365
  \/ year_end yoe = year_start yoe + 366.
Proof. unfold year_end, year_start. intros H. euclid. Qed.

Lemma year_end_next yoe :
  0 <= yoe < 399 -> year_end yoe = year_start (yoe + 1).
Proof. unfold year_end, year_start. intros H. euclid. Qed.

Lemma era_bounds yoe :
  0 <= yoe <= 399 -> 0 <= year_start yoe /\ year_end yoe <= 146097.
Proof. unfold year_end, year_start. intros H. euclid. Qed.

(** [civil_from_days] through the era, the year of the era and the day of
    the year. *)
Lemma civil_from_days_parts z era yoe doy :
  day_parts z era yoe doy ->
  Calendar.civil_from_days z = civil_of_year_day (yoe + era * 400) doy.
Proof.
  intros (HY & Hdoy & Hend & Hz).
  pose proof (era_bounds yoe HY) as [Hs He].
  unfold Calendar.civil_from_days. rewrite Hz.
  assert (Hera : (era * 146097 + year_start yoe + doy) / 146097 = era).
  { symmetry. apply (Z.div_unique _ _ _ (year_start yoe + doy)); lia. }
  rewrite Hera.
  replace (era * 146097 + year_start yoe + doy - era * 146097)
    with (year_start yoe + doy) by ring.
  rewrite (year_of_era yoe (year_start yoe + doy) HY) by lia.
  fold (year_start yoe).
  replace (year_start yoe + doy - year_start yoe) with doy by ring.
  reflexivity.
Qed.

Lemma day_parts_exist z : exists era yoe doy, day_parts z era yoe doy.
Proof.
  set (era := (z + 719468) / 146097).
  set (doe := (z + 719468) mod 146097).
  assert (Hdoe : 0 <= doe < 146097) by (apply Z.mod_pos_bound; lia).
  destruct (year_of_era_exists doe Hdoe) as (yoe & HY & Hlo & Hhi).
  exists era, yoe, (doe - year_start yoe).
  unfold day_parts. repeat split; try lia.
  unfold doe, era. pose proof (Z.div_mod (z + 719468) 146097). lia.
Qed.

(** The day after: the next day of the year, or the first day of the next
    year. *)
Lemma day_parts_next z era yoe doy :
  day_parts z era yoe doy ->
  (year_start yoe + doy + 1 < year_end yoe
   /\ day_parts (z + 1) era yoe (doy + 1))
  \/ (364 <= doy <= 365
      /\ exists era' yoe',
           day_parts (z + 1) era' yoe' 0
           /\ yoe' + era' * 400 = yoe + era * 400 + 1).
Proof.
  intros (HY & Hdoy & Hend & Hz).
  destruct (Z_lt_le_dec (year_start yoe + doy + 1) (year_end yoe))
    as [Hin | Hout].
  - left. split; [exact Hin |]. unfold day_parts. lia.
  - right. pose proof (year_length yoe HY) as Hlen.
    split; [lia |].
    destruct (Z_lt_le_dec yoe 399) as [Hy | Hy].
    + exists era, (yoe + 1). split; [| ring].
      pose proof (year_end_next yoe ltac:(lia)) as Hnext.
      pose proof (year_length (yoe + 1) ltac:(lia)) as Hlen'.
      unfold day_parts. lia.
    + exists (era + 1), 0. split; [| lia].
      assert (yoe = 399) by lia. subst yoe.
      assert (H399 : year_end 399 = 146097) by reflexivity.
      assert (H0 : year_start 0 = 0) by reflexivity.
      assert (H1 : year_end 0 = 365) by reflexivity.
      unfold day_parts. rewrite H0, H1. lia.
Qed.

Lemma year_day_fields y doy :
  0 <= doy <= 365 ->
  let '(y', m, d) := civil_of_year_day y doy in
  1 <= m <= 12 /\ 1 <= d <= 31
  /\ 12 * y' + m = 12 * y + (5 * doy + 2) / 153 + 3
  /\ d = doy - (153 * ((5 * doy + 2) / 153) + 2) / 5 + 1.
Proof.
  intros H. unfold civil_of_year_day.
  assert (Hmp : 0 <= (5 * doy + 2) / 153 <= 11) by euclid.
  set (mp := (5 * doy + 2) / 153) in *.
  assert (Hd : 1 <= doy - (153 * mp + 2) / 5 + 1 <= 31)
    by (unfold mp; euclid).
  destruct (mp <? 10) eqn:Hlt.
  - apply Z.ltb_lt in Hlt.
    replace (mp + 3 <=? 2) with false by (symmetry; apply Z.leb_gt; lia).
    lia.
  - apply Z.ltb_ge in Hlt.
    replace (mp - 9 <=? 2) with true by (symmetry; apply Z.leb_le; lia).
    lia.
Qed.

Lemma year_day_next doy :
  0 <= doy < 365 ->
  ((5 * (doy + 1) + 2) / 153 = (5 * doy + 2) / 153
   /\ doy + 1 - (153 * ((5 * (doy + 1) + 2) / 153) + 2) / 5 + 1
      = doy - (153 * ((5 * doy + 2) / 153) + 2) / 5 + 1 + 1)
  \/ ((5 * (doy + 1) + 2) / 153 = (5 * doy + 2) / 153 + 1
      /\ doy + 1 - (153 * ((5 * (doy + 1) + 2) / 153) + 2) / 5 + 1 = 1).
Proof. intros H. euclid. Qed.

(** The first day of a month, as a day number, has the civil date it was
    made from. *)
Lemma civil_of_first_day y m :
  1 <= m <= 12 ->
  Calendar.civil_from_days (Calendar.days_from_civil y m 1) = (y, m, 1).
Proof.
  intros Hm.
  set (y' := if m <=? 2 then y - 1 else y).
  set (mp := if m >? 2 then m - 3 else m + 9).
  set (era := y' / 400).
  set (yoe := y' - era * 400).
  assert (HY : 0 <= yoe <= 399) by (unfold yoe, era; euclid).
  assert (Hmp : 0 <= mp <= 11).
  { unfold mp. destruct (m >? 2) eqn:E; lia. }
  assert (Hdoy : 0 <= (153 * mp + 2) / 5 <= 337) by euclid.
  pose proof (year_length yoe HY) as Hlen.
  rewrite (civil_from_days_parts _ era yoe ((153 * mp + 2) / 5)).
  - unfold civil_of_year_day.
    assert (Hback : (5 * ((153 * mp + 2) / 5) + 2) / 153 = mp) by euclid.
    rewrite Hback.
    replace ((153 * mp + 2) / 5 - (153 * mp + 2) / 5 + 1) with 1 by ring.
    unfold mp, yoe, era, y'. rewrite Z.gtb_ltb.
    destruct (Z.leb_spec m 2) as [E2 | E2];
      destruct (Z.ltb_spec 2 m) as [E3 | E3]; try lia.
    + destruct (Z.ltb_spec (m + 9) 10) as [E4 | E4]; try lia.
      destruct (Z.leb_spec (m + 9 - 9) 2) as [E5 | E5]; try lia.
      apply f_equal2; [apply f_equal2 |]; lia.
    + destruct (Z.ltb_spec (m - 3) 10) as [E4 | E4]; try lia.
      destruct (Z.leb_spec (m - 3 + 3) 2) as [E5 | E5]; try lia.
      apply f_equal2; [apply f_equal2 |]; lia.
  - unfold day_parts. split; [exact HY |]. split; [lia |]. split; [lia |].
    unfold Calendar.days_from_civil. fold y'. fold mp. fold era. fold yoe.
    unfold year_start. ring.
Qed.

(** What the calendar lemmas rest on, for every day: the civil date is
    well formed, the first days of its month and of its quarter have the
    civil dates they should have, and the next day is the next day of the
    month or the first day of the next month. *)
Lemma day_facts_all z :
  exists y m d,
    Calendar.civil_from_days z = (y, m, d)
    /\ 1 <= m <= 12 /\ 1 <= d
    /\ Calendar.civil_from_days (Calendar.days_from_civil y m 1) = (y, m, 1)
    /\ Calendar.civil_from_days
         (Calendar.days_from_civil y (((m - 1) / 3 + 1 - 1) * 3 + 1) 1)
       = (y, ((m - 1) / 3 + 1 - 1) * 3 + 1, 1)
    /\ exists y2 m2 d2,
         Calendar.civil_from_days (z + 1) = (y2, m2, d2)
         /\ ((12 * y2 + m2 = 12 * y + m /\ d2 = d + 1)
             \/ (12 * y2 + m2 = 12 * y + m + 1 /\ d2 = 1)).
Proof.
  destruct (day_parts_exist z) as (era & yoe & doy & Hp).
  pose proof (civil_from_days_parts _ _ _ _ Hp) as Hc.
  assert (Hdoy : 0 <= doy <= 365).
  { destruct Hp as (HY & H0 & Hend & _).
    pose proof (year_length yoe HY). lia. }
  pose proof (year_day_fields (yoe + era * 400) doy Hdoy) as F.
  destruct (civil_of_year_day (yoe + era * 400) doy) as [[y m] d].
  destruct F as (Hm & Hd & Hym & Hdv).
  exists y, m, d. split; [exact Hc |]. split; [exact Hm |].
  split; [lia |]. split; [apply civil_of_first_day; exact Hm |].
  split; [apply civil_of_first_day; euclid |].
  destruct (day_parts_next _ _ _ _ Hp)
    as [[Hin Hp'] | [Hlast (era' & yoe' & Hp' & Hy)]].
  - pose proof (civil_from_days_parts _ _ _ _ Hp') as Hc'.
    assert (Hdoy' : 0 <= doy + 1 <= 365).
    { destruct Hp' as (HY & H0 & Hend & _).
      pose proof (year_length yoe HY). lia. }
    pose proof (year_day_fields (yoe + era * 400) (doy + 1) Hdoy') as F'.
    destruct (civil_of_year_day (yoe + era * 400) (doy + 1))
      as [[y2 m2] d2].
    destruct F' as (_ & _ & Hym' & Hdv').
    exists y2, m2, d2. split; [exact Hc' |].
    destruct (year_day_next doy ltac:(lia)) as [[Hmp Hday] | [Hmp Hday]];
      [left | right]; split; lia.
  - pose proof (civil_from_days_parts _ _ _ _ Hp') as Hc'.
    rewrite Hy in Hc'.
    exists (yoe + era * 400 + 1), 3, 1. split; [exact Hc' |].
    right. split; [| reflexivity].
    assert (Hmp : (5 * doy + 2) / 153 = 11) by euclid.
    lia.
Qed.

(** The month a day falls in, as one number. *)
Lemma month_of_day_step z :
  let mi := fun z => 12 * fst (fst (Calendar.civil_from_days z))
                     + snd (fst (Calendar.civil_from_days z)) in
  (mi (z + 1) = mi z \/ mi (z + 1) = mi z + 1)
  /\ (snd (Calendar.civil_from_days (z + 1)) = 1 -> mi (z + 1) = mi z + 1).
Proof.
  cbv zeta.
  destruct (day_facts_all z)
    as (y & m & d & Hc & Hm & Hd & _ & _ & y2 & m2 & d2 & Hc2 & Hstep).
  rewrite Hc, Hc2. cbn [fst snd]. split.
  - destruct Hstep as [[H _] | [H _]]; [left | right]; exact H.
  - intros ->. destruct Hstep as [[_ H] | [H _]]; [lia | exact H].
Qed.

Lemma month_of_day_mono z n :
  0 <= n ->
  12 * fst (fst (Calendar.civil_from_days z))
  + snd (fst (Calendar.civil_from_days z))
  <= 12 * fst (fst (Calendar.civil_from_days (z + n)))
     + snd (fst (Calendar.civil_from_days (z + n))).
Proof.
  intros Hn. revert n Hn. apply natlike_ind.
  - rewrite Z.add_0_r. lia.
  - intros n Hn IH. replace (z + Z.succ n) with (z + n + 1) by lia.
    destruct (month_of_day_step (z + n)) as [[H | H] _]; cbv zeta in H; lia.
Qed.

(** The days before the first day of a month are the days of earlier
    months. *)
Lemma before_first_day B z :
  snd (Calendar.civil_from_days B) = 1 ->
  (z < B <->
   12 * fst (fst (Calendar.civil_from_days z))
   + snd (fst (Calendar.civil_from_days z))
   < 12 * fst (fst (Calendar.civil_from_days B))
     + snd (fst (Calendar.civil_from_days B))).
Proof.
  intros Hfirst.
  destruct (month_of_day_step (B - 1)) as [_ Hstep]. cbv zeta in Hstep.
  replace (B - 1 + 1) with B in Hstep by ring.
  specialize (Hstep Hfirst).
  split.
  - intros Hlt.
    pose proof (month_of_day_mono z (B - 1 - z) ltac:(lia)) as Hmono.
    replace (z + (B - 1 - z)) with (B - 1) in Hmono by ring. lia.
  - intros Hlt. destruct (Z_lt_le_dec z B) as [H | H]; [exact H |].
    pose proof (month_of_day_mono B (z - B) ltac:(lia)) as Hmono.
    replace (B + (z - B)) with z in Hmono by ring. lia.
Qed.

Lemma day_of_midnight D : Calendar.day_of (D * Calendar.NS_PER_DAY) = D.
Proof. unfold Calendar.day_of. apply Z.div_mul. discriminate. Qed.

Lemma before_midnight t B :
  t < B * Calendar.NS_PER_DAY <-> Calendar.day_of t < B.
Proof.
  unfold Calendar.day_of.
  assert (Hpos : 0 < Calendar.NS_PER_DAY) by reflexivity.
  pose proof (Z.div_mod t Calendar.NS_PER_DAY ltac:(lia)) as Hdm.
  pose proof (Z.mod_pos_bound t Calendar.NS_PER_DAY Hpos) as Hb.
  split; intros H; nia.
Qed.

Section PeriodsKept.

Variable E : Env.
Variable clk : Clock.

(** X16.  On a naive index with frequency ["W"], the rows kept are
    exactly the rows of earlier weeks, weeks running from Monday to
    Sunday: a timestamp is before the bound exactly when its week comes
    before the week of the current date. *)
Theorem naive_weekly_keeps_earlier_weeks :
  exists bound,
    trim_bound E clk None "W" = Ok bound
    /\ Calendar.weekday bound = 0
    /\ forall t,
         cell_lt bound (Time t) = true
         <-> week_index t < week_index (date_today clk * Calendar.NS_PER_DAY).
Proof.
  set (D := date_today clk).
  exists ((D - (D + 3) mod 7) * Calendar.NS_PER_DAY).
  split; [| split].
  - unfold trim_bound, today_wall, today_of.
    replace ("W" =? "W")%string with true by reflexivity.
    unfold Calendar.weekday. fold D. rewrite day_of_midnight.
    f_equal. ring.
  - unfold Calendar.weekday. rewrite day_of_midnight.
    pose proof (Z.div_mod (D + 3) 7 ltac:(lia)) as Hdm.
    replace (D - (D + 3) mod 7 + 3) with (((D + 3) / 7) * 7) by lia.
    apply Z.mod_mul. discriminate.
  - intros t. cbn [cell_lt]. rewrite Z.ltb_lt, before_midnight.
    unfold week_index. fold D. rewrite day_of_midnight.
    pose proof (Z.div_mod (D + 3) 7 ltac:(lia)) as H1.
    pose proof (Z.mod_pos_bound (D + 3) 7 ltac:(lia)) as H2.
    pose proof (Z.div_mod (Calendar.day_of t + 3) 7 ltac:(lia)) as H3.
    pose proof (Z.mod_pos_bound (Calendar.day_of t + 3) 7 ltac:(lia)) as H4.
    lia.
Qed.

(** X17.  On a naive index with frequency ["M"], the rows kept are
    exactly the rows of earlier months: a timestamp is before the bound
    exactly when its (year, month) comes before the (year, month) of the
    current date. *)
Theorem naive_monthly_keeps_earlier_months :
  exists bound,
    trim_bound E clk None "M" = Ok bound
    /\ forall t,
         cell_lt bound (Time t) = true
         <-> month_index t
             < month_index (date_today clk * Calendar.NS_PER_DAY).
Proof.
  set (D := date_today clk).
  destruct (day_facts_all D)
    as (y & m & d & Hc & Hm & Hd & Hfirst & _).
  exists (Calendar.days_from_civil y m 1 * Calendar.NS_PER_DAY).
  split.
  - unfold trim_bound, today_wall, today_of.
    replace ("M" =? "W")%string with false by reflexivity.
    replace ("M" =? "M")%string with true by reflexivity.
    unfold Calendar.replace_day1, Calendar.year, Calendar.month,
      Calendar.time_of_day, Calendar.midnight.
    fold D. rewrite day_of_midnight, Hc. cbn [fst snd].
    rewrite Z.mod_mul by discriminate. f_equal. ring.
  - intros t. cbn [cell_lt]. rewrite Z.ltb_lt, before_midnight.
    unfold month_index, Calendar.year, Calendar.month. fold D.
    rewrite day_of_midnight, Hc. cbn [fst snd].
    rewrite (before_first_day (Calendar.days_from_civil y m 1)
               (Calendar.day_of t)) by now rewrite Hfirst.
    rewrite Hfirst. cbn [fst snd]. reflexivity.
Qed.

(** X18.  On a naive index with frequency ["Q"], the rows kept are
    exactly the rows of earlier calendar quarters: a timestamp is before
    the bound exactly when its (year, quarter) comes before the (year,
    quarter) of the current date. *)
Theorem naive_quarterly_keeps_earlier_quarters :
  exists bound,
    trim_bound E clk None "Q" = Ok bound
    /\ forall t,
         cell_lt bound (Time t) = true
         <-> quarter_index t
             < quarter_index (date_today clk * Calendar.NS_PER_DAY).
Proof.
  set (D := date_today clk).
  destruct (day_facts_all D)
    as (y & m & d & Hc & Hm & Hd & _ & Hfirst & _).
  set (qm := ((m - 1) / 3 + 1 - 1) * 3 + 1) in *.
  exists (Calendar.days_from_civil y qm 1 * Calendar.NS_PER_DAY).
  split.
  - unfold trim_bound, today_wall, today_of.
    replace ("Q" =? "W")%string with false by reflexivity.
    replace ("Q" =? "M")%string with false by reflexivity.
    replace ("Q" =? "Q")%string with true by reflexivity.
    unfold Calendar.year, Calendar.month, Calendar.midnight.
    fold D. rewrite day_of_midnight, Hc. cbn [fst snd]. reflexivity.
  - intros t. cbn [cell_lt]. rewrite Z.ltb_lt, before_midnight.
    unfold quarter_index, Calendar.year, Calendar.month. fold D.
    rewrite day_of_midnight, Hc. cbn [fst snd].
    rewrite (before_first_day (Calendar.days_from_civil y qm 1)
               (Calendar.day_of t)) by now rewrite Hfirst.
    rewrite Hfirst. cbn [fst snd].
    destruct (day_facts_all (Calendar.day_of t))
      as (yt & mt & dt & Hct & Hmt & _).
    rewrite Hct. cbn [fst snd].
    unfold qm.
    pose proof (Z.div_mod (m - 1) 3 ltac:(lia)) as H1.
    pose proof (Z.mod_pos_bound (m - 1) 3 ltac:(lia)) as H2.
    pose proof (Z.div_mod (mt - 1) 3 ltac:(lia)) as H3.
    pose proof (Z.mod_pos_bound (mt - 1) 3 ltac:(lia)) as H4.
    lia.
Qed.

(** X19.  On a naive index every frequency code other than ["W"], ["M"]
    and ["Q"] (["D"], ["h"], ["W-SUN"], ["ME"], ...) is treated alike: the
    rows kept are exactly the rows dated before the current date. *)
Theorem naive_other_codes_keep_earlier_days :
  forall (time_freq : string),
    time_freq <> "W" -> time_freq <> "M" -> time_freq <> "Q" ->
    trim_bound E clk None time_freq
    = Ok (date_today clk * Calendar.NS_PER_DAY)
    /\ forall t,
         cell_lt (date_today clk * Calendar.NS_PER_DAY) (Time t) = true
         <-> Calendar.day_of t < date_today clk.
Proof.
  intros time_freq HW HM HQ. split.
  - unfold trim_bound, today_of.
    apply String.eqb_neq in HW, HM, HQ. now rewrite HW, HM, HQ.
  - intros t. cbn [cell_lt]. rewrite Z.ltb_lt. apply before_midnight.
Qed.

End PeriodsKept.

Lemma naive_other_codes_keep_earlier_days_witness :
  trim_bound Sample.env Sample.clock_2024_06_12 None "W-SUN"
  = Ok (date_today Sample.clock_2024_06_12 * Calendar.NS_PER_DAY)
  /\ forall t,
       cell_lt (date_today Sample.clock_2024_06_12 * Calendar.NS_PER_DAY)
               (Time t) = true
       <-> Calendar.day_of t < date_today Sample.clock_2024_06_12.
Proof.
  apply (naive_other_codes_keep_earlier_days Sample.env
           Sample.clock_2024_06_12 "W-SUN"); discriminate.
Defined.

(** ** [cleaning_values] *)

Section NormalizerMore.

Variable E : Env.



Lemma cleaning_values_no_text self df s d :
  nth_error s df = Some d ->
  text_columns d = [] ->
  cleaning_values E self df s = (Ok (List.length s), (s ++ [d])%list).
Proof.
  intros Hd Hnone. unfold cleaning_values.
  rewrite (bind_run_ok _ (copy_run Hd)).
  rewrite (bind_run_ok _ (deref_last s d)).
  rewrite Hnone. reflexivity.
Qed.

(** X20.  A table without object or string columns goes through
    [cleaning_values] unchanged: the result is an equal copy. *)
Theorem cleaning_values_without_text_columns :
  forall (self : DFCleaner) (df : ref) (s : store) (d : DataFrame),
    nth_error s df = Some d ->
    text_columns d = [] ->
    cleaning_values E self df s = (Ok (List.length s), (s ++ [d])%list).
Proof. exact cleaning_values_no_text. Qed.




End NormalizerMore.

(** *** What the replacements do to a text *)

Lemma str_replace_absent a0 old0 new s :
  str_contains a0 s = false -> str_replace (String a0 old0) new s = s.
Proof.
  unfold str_replace. induction s as [| a s IH]; intros H; [reflexivity |].
  cbn [str_contains] in H. apply orb_false_elim in H. destruct H as [Ha Hs].
  cbn [skip_replace prefix].
  destruct (ascii_dec a0 a) as [-> | _].
  - rewrite Ascii.eqb_refl in Ha. discriminate.
  - now rewrite IH.
Qed.

Lemma str_replace_remove c s :
  str_replace (String c EmptyString) EmptyString s = remove_char c s.
Proof.
  unfold str_replace. induction s as [| a s IH]; [reflexivity |].
  cbn [skip_replace prefix remove_char String.length Nat.sub].
  destruct (ascii_dec c a) as [-> | Hne].
  - rewrite Ascii.eqb_refl. destruct s; cbn; exact IH.
  - apply Ascii.eqb_neq in Hne. rewrite Hne. now rewrite IH.
Qed.

Lemma char_kinds c :
  (Numeric.is_digit c = true
   /\ Ascii.eqb "%" c = false /\ Ascii.eqb "," c = false
   /\ Ascii.eqb "$" c = false /\ Numeric.is_space c = false
   /\ Numeric.is_sign c = false
   /\ Ascii.eqb "#" c = false /\ Ascii.eqb "." c = false)
  \/ (Numeric.is_digit c = false
      /\ (c = "%"%char \/ c = ","%char \/ c = "$"%char))
  \/ (Numeric.is_digit c || is_decoration c = false).
Proof.
  destruct c as [[] [] [] [] [] [] [] []];
    first [ left; repeat split; reflexivity
          | right; left; split; [reflexivity |];
            first [ left; reflexivity
                  | right; left; reflexivity
                  | right; right; reflexivity ]
          | right; right; reflexivity ].
Qed.

Lemma decorated_no_token s :
  decorated_digits s = true ->
  str_contains "#" s = false /\ str_contains "." s = false.
Proof.
  induction s as [| c s IH]; intros H; [split; reflexivity |].
  cbn [decorated_digits] in H. apply andb_true_iff in H.
  destruct H as [Hc Hs]. destruct (IH Hs) as [H1 H2].
  cbn [str_contains]. rewrite H1, H2.
  destruct (char_kinds c)
    as [(_ & _ & _ & _ & _ & _ & Ha & Hb) | [(_ & Hk) | Hk]].
  - now rewrite Ha, Hb.
  - destruct Hk as [-> | [-> | ->]]; split; reflexivity.
  - congruence.
Qed.

(** The three removals keep the digits, in order. *)
Lemma scan_decorated_digits s :
  decorated_digits s = true ->
  forall a,
    Numeric.scan Numeric.SInt a
      (remove_char "$" (remove_char "," (remove_char "%" s)))
    = Some (Numeric.mkAcc (Numeric.a_neg a)
              (digits_value (Numeric.a_mant a) s)
              (Numeric.a_frac a) (Numeric.a_eneg a) (Numeric.a_exp a)
              (Numeric.a_int a)).
Proof.
  induction s as [| c s IH]; intros H a.
  - cbn. now destruct a.
  - cbn [decorated_digits] in H. apply andb_true_iff in H.
    destruct H as [Hc Hs].
    destruct (char_kinds c)
      as [(Hd & H1 & H2 & H3 & _) | [(Hd & Hk) | Hk]].
    + cbn [remove_char]. rewrite H1. cbn [remove_char]. rewrite H2.
      cbn [remove_char]. rewrite H3.
      cbn [Numeric.scan Numeric.step digits_value]. rewrite Hd.
      rewrite (IH Hs). reflexivity.
    + cbn [digits_value]. rewrite Hd.
      destruct Hk as [-> | [-> | ->]]; cbn [remove_char];
        repeat match goal with
               | |- context [Ascii.eqb ?x ?y] =>
                   let b := eval vm_compute in (Ascii.eqb x y) in
                   change (Ascii.eqb x y) with b; cbv iota
               end;
        cbn [remove_char];
        repeat match goal with
               | |- context [Ascii.eqb ?x ?y] =>
                   let b := eval vm_compute in (Ascii.eqb x y) in
                   change (Ascii.eqb x y) with b; cbv iota
               end;
        cbn [remove_char];
        repeat match goal with
               | |- context [Ascii.eqb ?x ?y] =>
                   let b := eval vm_compute in (Ascii.eqb x y) in
                   change (Ascii.eqb x y) with b; cbv iota
               end;
        apply (IH Hs).
    + congruence.
Qed.

Lemma scan_decorated_number s :
  decorated_digits s = true ->
  has_digit s = true ->
  Numeric.scan Numeric.SLead Numeric.acc0
    (remove_char "$" (remove_char "," (remove_char "%" s)))
  = Some (Numeric.mkAcc false (digits_value 0 s) 0 false 0 true).
Proof.
  induction s as [| c s IH]; intros H Hdig; [discriminate |].
  cbn [decorated_digits] in H. apply andb_true_iff in H.
  destruct H as [Hc Hs]. cbn [has_digit] in Hdig.
  destruct (char_kinds c)
    as [(Hd & H1 & H2 & H3 & H4 & H5 & _) | [(Hd & Hk) | Hk]].
  - cbn [remove_char]. rewrite H1. cbn [remove_char]. rewrite H2.
    cbn [remove_char]. rewrite H3.
    cbn [Numeric.scan Numeric.step digits_value]. rewrite H4, H5, Hd.
    rewrite (scan_decorated_digits s Hs). reflexivity.
  - rewrite Hd in Hdig. cbn [orb] in Hdig. cbn [digits_value]. rewrite Hd.
    destruct Hk as [-> | [-> | ->]]; cbn [remove_char];
      repeat match goal with
             | |- context [Ascii.eqb ?x ?y] =>
                 let b := eval vm_compute in (Ascii.eqb x y) in
                 change (Ascii.eqb x y) with b; cbv iota
             end;
      cbn [remove_char];
      repeat match goal with
             | |- context [Ascii.eqb ?x ?y] =>
                 let b := eval vm_compute in (Ascii.eqb x y) in
                 change (Ascii.eqb x y) with b; cbv iota
             end;
      cbn [remove_char];
      repeat match goal with
             | |- context [Ascii.eqb ?x ?y] =>
                 let b := eval vm_compute in (Ascii.eqb x y) in
                 change (Ascii.eqb x y) with b; cbv iota
             end;
      apply (IH Hs Hdig).
  - congruence.
Qed.

Lemma digit_count_remove c s :
  Numeric.is_digit c = false ->
  Numeric.digit_count (remove_char c s) = Numeric.digit_count s.
Proof.
  intros Hc. induction s as [| a s IH]; [reflexivity |].
  cbn [remove_char]. destruct (Ascii.eqb c a) eqn:Hca.
  - apply Ascii.eqb_eq in Hca. subst a.
    cbn [Numeric.digit_count]. now rewrite Hc.
  - cbn [Numeric.digit_count]. now rewrite IH.
Qed.

Lemma error_token_becomes_NaN pre post :
  str_contains "a"
    (str_replace "#DIV/0!" "NaN" (pre ++ "#DIV/0!" ++ post)) = true.
Proof.
  unfold str_replace. induction pre as [| c pre IH].
  - cbn. destruct post; reflexivity.
  - change ((String c pre ++ "#DIV/0!" ++ post)%string)
      with (String c (pre ++ "#DIV/0!" ++ post)%string).
    cbn [skip_replace].
    destruct (prefix "#DIV/0!" (String c (pre ++ "#DIV/0!" ++ post))).
    + reflexivity.
    + cbn [str_contains]. rewrite IH. apply orb_true_r.
Qed.

Section Readings.

Variable E : Env.

(** X23.  Percent signs, commas and dollar signs are deleted wherever
    they stand: a text made only of digits and these three characters,
    with at least one digit and at most 15, is read as the number its
    digits spell, as an integer and as a double (["$1,234%"] gives 1234,
    and so does ["1$2,3%4"]). *)
Theorem clean_text_decorated_number :
  forall (s : string),
    decorated_digits s = true ->
    has_digit s = true ->
    (Numeric.digit_count s <= 15)%nat ->
    clean_reading E s
    = Numeric.RInt (digits_value 0 s) (digits_value 0 s, 0).
Proof.
  intros s Hdec Hdig Hlen. unfold clean_reading, replaced_text.
  destruct (decorated_no_token s Hdec) as [Hhash Hpoint].
  rewrite (str_replace_absent "#" "DIV/0!" "NaN" s Hhash).
  rewrite (str_replace_absent "." "" "NaN" s Hpoint).
  rewrite !str_replace_remove.
  unfold Numeric.read_text.
  rewrite (scan_decorated_number s Hdec Hdig).
  cbn [Numeric.a_int Numeric.a_neg Numeric.a_mant].
  rewrite !digit_count_remove by reflexivity.
  apply Nat.leb_le in Hlen. now rewrite Hlen.
Qed.

(** X24.  A text that contains the error token [#DIV/0!] anywhere comes
    out missing, whatever stands before and after the token. *)
Theorem clean_text_error_token_anywhere :
  forall (pre post : string),
    clean_reading E (pre ++ "#DIV/0!" ++ post) = Numeric.RMissing.
Proof.
  intros pre post. unfold clean_reading, replaced_text.
  apply read_text_rejects_a.
  do 4 (apply str_replace_keeps; [reflexivity |]).
  apply error_token_becomes_NaN.
Qed.

End Readings.

Lemma clean_text_decorated_number_witness :
  clean_reading Sample.env "1$2,3%4"
  = Numeric.RInt (digits_value 0 "1$2,3%4") (digits_value 0 "1$2,3%4", 0)
  /\ digits_value 0 "1$2,3%4" = 1234.
Proof.
  split; [| reflexivity].
  apply (clean_text_decorated_number Sample.env "1$2,3%4");
    [reflexivity | reflexivity | apply Nat.leb_le; reflexivity].
Defined.

(** * The loader *)

Lemma positions_sorted i mask : StronglySorted lt (positions i mask).
Proof.
  revert i. induction mask as [| b mask IH]; intros i; cbn; [constructor |].
  destruct b; [| apply IH]. constructor; [apply IH |].
  eapply Forall_impl; [| apply (positions_ge (S i) mask)]. cbn. intros; lia.
Qed.

Lemma in_take {A} pos (xs : list A) x :
  In x (take pos xs) -> exists j, In j pos /\ nth_error xs j = Some x.
Proof.
  induction pos as [| i pos IH]; cbn [take]; [intros [] |].
  destruct (nth_error xs i) as [y |] eqn:Hy.
  - intros [<- | Hin].
    + exists i. split; [now left | exact Hy].
    + destruct (IH Hin) as (j & Hj & Hx). exists j. split; [now right | exact Hx].
  - intros Hin. destruct (IH Hin) as (j & Hj & Hx).
    exists j. split; [now right | exact Hx].
Qed.

Section LoaderMore.

Variable E : Env.
Variable IO : IOEnv.
Variable self : DFCleaner.

Lemma to_df_run file delimiter s :
  to_df E IO self file delimiter s
  = match read_file IO file delimiter with
    | Ok d0 =>
        (Ok (Some (S (List.length s)), []),
         (s ++ [rename_columns IO d0;
                df_mask (keep_mask E IO (rename_columns IO d0))
                        (rename_columns IO d0)])%list)
    | Raise e =>
        (Ok (None,
             ["Error loading file " ++ file ++ ": " ++ exn_text IO e]), s)
    end.
Proof.
  assert (Hload : forall r : result DataFrame,
    try_except
      (df <- (d <- lift r ;; alloc d) ;;
       d <- deref df ;;
       assign df (rename_columns IO d) ;;;
       d <- deref df ;;
       df <- alloc (df_mask (keep_mask E IO d) d) ;;
       ret (Some df, []))%df
      (fun e =>
         ret (None,
              ["Error loading file " ++ file ++ ": " ++ exn_text IO e])) s
    = match r with
      | Ok d0 =>
          (Ok (Some (S (List.length s)), []),
           (s ++ [rename_columns IO d0;
                  df_mask (keep_mask E IO (rename_columns IO d0))
                          (rename_columns IO d0)])%list)
      | Raise e =>
          (Ok (None,
               ["Error loading file " ++ file ++ ": " ++ exn_text IO e]), s)
      end).
  { intros [d0 | e]; [| reflexivity].
    unfold try_except, bind, lift, ret, alloc, deref, assign.
    rewrite nth_error_app2 by lia. rewrite Nat.sub_diag. cbn [nth_error].
    assert (Hset : list_set (s ++ [d0])%list (List.length s)
                     (rename_columns IO d0)
                   = (s ++ [rename_columns IO d0])%list).
    { clear. induction s as [| x s' IH]; cbn; [reflexivity |].
      now rewrite IH. }
    rewrite Hset. rewrite nth_error_app2 by lia.
    rewrite Nat.sub_diag. cbn [nth_error].
    rewrite length_app. cbn [List.length]. rewrite Nat.add_1_r.
    rewrite <- app_assoc. reflexivity. }
  unfold to_df, read_file.
  destruct (endswith file ".xlsx" || endswith file ".xls"); apply Hload.
Qed.

(** X25 ([to_df]).  The loader never raises: whatever the reader does, a
    value comes back; when the reader raises, that value is [None], one
    line naming the file and the error is printed, and no table is
    created. *)
Theorem to_df_swallows_reader_errors file delimiter s :
  (exists v s', to_df E IO self file delimiter s = (Ok v, s'))
  /\ (forall e, read_file IO file delimiter = Raise e ->
        to_df E IO self file delimiter s
        = (Ok (None,
               ["Error loading file " ++ file ++ ": " ++ exn_text IO e]),
           s)).
Proof.
  rewrite to_df_run.
  destruct (read_file IO file delimiter) as [d0 | e].
  - split; [eexists _, _; reflexivity | discriminate].
  - split; [eexists _, _; reflexivity |].
    intros e' He. injection He as <-. reflexivity.
Qed.

Lemma keep_mask_length d :
  List.length (keep_mask E IO d) = List.length (s_values (df_index d)).
Proof.
  unfold keep_mask, any_axis1. now rewrite !length_map, length_seq.
Qed.

Lemma keep_mask_nth d j :
  (j < List.length (s_values (df_index d)))%nat ->
  nth_error (keep_mask E IO d) j = Some (row_clean E IO d j).
Proof.
  intros Hj. unfold keep_mask, any_axis1.
  rewrite !nth_error_map, nth_error_seq.
  assert (Hlt : (j <? List.length (s_values (df_index d)))%nat = true)
    by now apply Nat.ltb_lt.
  rewrite Hlt. cbn [option_map Nat.add]. f_equal.
  unfold row_any, row_clean, flag_frame.
  induction (df_columns d) as [| p cols IH]; [reflexivity |].
  cbn [map existsb forallb]. rewrite negb_orb. f_equal; [| exact IH].
  destruct (nth_error (s_values (snd p)) j) as [c |] eqn:Hc.
  - rewrite (nth_error_nth (map (flagged E IO) (s_values (snd p))) j false
               (x := flagged E IO c)); [reflexivity |].
    now rewrite nth_error_map, Hc.
  - rewrite nth_overflow; [reflexivity |].
    rewrite length_map. now apply nth_error_None.
Qed.

Lemma kept_positions d j :
  In j (positions 0 (keep_mask E IO d)) <->
  (j < List.length (s_values (df_index d)))%nat /\ row_clean E IO d j = true.
Proof.
  rewrite positions_spec, Nat.sub_0_r. split.
  - intros [_ Hn].
    assert (Hj : (j < List.length (s_values (df_index d)))%nat).
    { rewrite <- keep_mask_length. apply nth_error_Some. congruence. }
    split; [exact Hj |].
    rewrite (keep_mask_nth d j Hj) in Hn. congruence.
  - intros [Hj Hc]. split; [lia |].
    rewrite (keep_mask_nth d j Hj). now f_equal.
Qed.

Lemma to_df_loaded file delimiter s d0 :
  read_file IO file delimiter = Ok d0 ->
  exists s',
    to_df E IO self file delimiter s
      = (Ok (Some (S (List.length s)), []), s')
    /\ nth_error s' (S (List.length s))
       = Some (row_select (positions 0 (keep_mask E IO (rename_columns IO d0)))
                          (rename_columns IO d0))
    /\ firstn (List.length s) s' = s.
Proof.
  intros Hr. rewrite to_df_run, Hr. eexists. split; [reflexivity |].
  split.
  - rewrite nth_error_app2 by lia.
    replace (S (List.length s) - List.length s)%nat with 1%nat by lia.
    cbn [nth_error]. now rewrite df_mask_row_select.
  - rewrite firstn_app, Nat.sub_diag, firstn_all. cbn [firstn].
    apply app_nil_r.
Qed.

(** X26 ([to_df]).  After a successful read (of a table whose column
    labels are text) the loader returns a new table made of whole rows of
    the file's table, in their order, under the cleaned column names:
    exactly the rows in which no cell, read as text, contains a byte
    order mark or is blank.  Nothing is printed and the objects already
    in the store are untouched. *)
Theorem to_df_keeps_exactly_clean_rows file delimiter s d0 :
  read_file IO file delimiter = Ok d0 ->
  exists r s' pos,
    to_df E IO self file delimiter s = (Ok (Some r, []), s')
    /\ nth_error s' r = Some (row_select pos (rename_columns IO d0))
    /\ column_names (row_select pos (rename_columns IO d0))
       = map (clean_header IO) (column_names d0)
    /\ (forall j, In j pos <->
          (j < List.length (s_values (df_index d0)))%nat
          /\ row_clean E IO d0 j = true)
    /\ StronglySorted lt pos
    /\ firstn (List.length s) s' = s.
Proof.
  intros Hr. destruct (to_df_loaded file delimiter s d0 Hr)
    as (s' & Hrun & Hnth & Hfst).
  exists (S (List.length s)), s',
    (positions 0 (keep_mask E IO (rename_columns IO d0))).
  split; [exact Hrun |]. split; [exact Hnth |]. split.
  - unfold column_names, row_select, rename_columns. cbn.
    rewrite !map_map. reflexivity.
  - split; [| split; [| exact Hfst]].
    + intros j. rewrite kept_positions.
      assert (Hc : row_clean E IO (rename_columns IO d0) j
                   = row_clean E IO d0 j).
      { unfold row_clean, rename_columns. cbn [df_columns].
        induction (df_columns d0) as [| p cols IH]; [reflexivity |].
        cbn [map forallb fst snd]. now rewrite IH. }
      rewrite Hc. reflexivity.
    + apply positions_sorted.
Qed.

(** X27 ([to_df]).  No cell of the loaded table, read as text, contains a
    byte order mark or is blank, whatever the shape of the file's
    table. *)
Theorem to_df_result_has_no_flagged_cell file delimiter s d0 r s' d' :
  read_file IO file delimiter = Ok d0 ->
  to_df E IO self file delimiter s = (Ok (Some r, []), s') ->
  nth_error s' r = Some d' ->
  forall name ser c,
    In (name, ser) (df_columns d') -> In c (s_values ser) ->
    flagged E IO c = false.
Proof.
  intros Hr Hrun Hd name ser c Hin Hc.
  destruct (to_df_loaded file delimiter s d0 Hr) as (s2 & Hrun2 & Hnth & _).
  rewrite Hrun in Hrun2. injection Hrun2 as -> ->.
  rewrite Hnth in Hd. injection Hd as <-.
  unfold row_select in Hin. cbn [df_columns] in Hin.
  apply in_map_iff in Hin. destruct Hin as (p & Hp & Hpin).
  injection Hp as _ <-. unfold series_take in Hc. cbn [s_values] in Hc.
  apply in_take in Hc. destruct Hc as (j & Hj & Hcj).
  apply kept_positions in Hj. destruct Hj as [_ Hclean].
  unfold row_clean in Hclean. rewrite forallb_forall in Hclean.
  specialize (Hclean p Hpin). rewrite Hcj in Hclean.
  now apply negb_true_iff in Hclean.
Qed.

End LoaderMore.

(** * Worked examples of the further properties *)

Lemma detect_time_col_hint_moves_earlier_witness :
  exists c' pre post d,
    nth_error [MoreSamples.close_date_table] O = Some d
    /\ detect_time_col Sample.env Sample.naive_cleaner O (Some "close")
                       [MoreSamples.close_date_table]
       = (Ok (Some c'), [MoreSamples.close_date_table])
    /\ column_names d = (pre ++ c' :: post)%list
    /\ (forall x, In x pre ->
                  ~ In (py_lower Sample.env x) time_cols_literal)
    /\ (c' = "date" \/ In "date" post).
Proof.
  apply (detect_time_col_hint_moves_earlier Sample.env Sample.naive_cleaner
           O (Some "close") [MoreSamples.close_date_table] "date").
  reflexivity.
Defined.

Lemma to_time_missing_column_raises_witness :
  to_time Sample.env Sample.naive_cleaner O (Some "date") false
          [Sample.prices_table]
  = (Raise KeyError, [Sample.prices_table; Sample.prices_table]).
Proof.
  apply (to_time_missing_column_raises Sample.env Sample.naive_cleaner O
           "date" false [Sample.prices_table] Sample.prices_table).
  - reflexivity.
  - reflexivity.
  - cbn. intros [H | [H | []]]; discriminate.
Defined.

Lemma to_time_frequency_settled_witness :
  "D" <> ""
  /\ ("D" = "D"
      \/ "D" = settled_freq Sample.env
                 (df_index MoreSamples.daily_indexed_table))
  /\ (forall e,
        infer_freq Sample.env (df_index MoreSamples.daily_indexed_table)
        = Raise e -> "D" = "D")
  /\ (infer_freq Sample.env (df_index MoreSamples.daily_indexed_table)
      = Ok None -> "D" = "D").
Proof.
  apply (to_time_frequency_settled Sample.env Sample.naive_cleaner O None
           false [MoreSamples.daily_table]
           [MoreSamples.daily_table; MoreSamples.daily_indexed_table]
           1%nat "D" MoreSamples.daily_indexed_table).
  - vm_compute. reflexivity.
  - reflexivity.
Defined.

Lemma to_time_columns_carried_over_witness :
  exists ser conv ix,
    select MoreSamples.daily_table "date" = [ser]
    /\ convert_column Sample.env false "date" ser = Ok conv
    /\ policy_index Sample.env Sample.naive_cleaner conv = Ok ix
    /\ 1%nat = List.length [MoreSamples.daily_table]
    /\ [MoreSamples.daily_table; MoreSamples.daily_indexed_table]
       = ([MoreSamples.daily_table]
          ++ [mkDF (filter (fun p => negb (String.eqb (fst p) "date"))
                           (df_columns MoreSamples.daily_table)) ix])%list
    /\ ~ In "date"
          (column_names
             (mkDF (filter (fun p => negb (String.eqb (fst p) "date"))
                           (df_columns MoreSamples.daily_table)) ix)).
Proof.
  apply (to_time_columns_carried_over Sample.env Sample.naive_cleaner O None
           false [MoreSamples.daily_table]
           [MoreSamples.daily_table; MoreSamples.daily_indexed_table]
           1%nat "D" MoreSamples.daily_table "date").
  - reflexivity.
  - reflexivity.
  - reflexivity.
  - vm_compute. reflexivity.
Defined.

Lemma to_time_returns_when_parse_and_zone_succeed_witness :
  to_time Sample.env Sample.naive_cleaner O None false
          [MoreSamples.daily_table]
  = (Ok (List.length [MoreSamples.daily_table],
         settled_freq Sample.env MoreSamples.daily_index),
     ([MoreSamples.daily_table]
      ++ [set_index MoreSamples.daily_table "date"
                    MoreSamples.daily_index])%list).
Proof.
  apply (to_time_returns_when_parse_and_zone_succeed Sample.env
           Sample.naive_cleaner O None false [MoreSamples.daily_table]
           MoreSamples.daily_table "date"
           (Sample.obj [Str "2024-06-09"; Str "2024-06-10";
                        Str "2024-06-11"])
           MoreSamples.daily_index MoreSamples.daily_index).
  - reflexivity.
  - reflexivity.
  - reflexivity.
  - reflexivity.
  - vm_compute. reflexivity.
  - reflexivity.
Defined.

Lemma clean_dates_needs_datetime_index_witness :
  clean_dates Sample.env Sample.clock_2024_06_12 Sample.naive_cleaner O "D"
              [Sample.prices_table]
  = (Raise AttributeError, [Sample.prices_table; Sample.prices_table]).
Proof.
  apply (clean_dates_needs_datetime_index Sample.env Sample.clock_2024_06_12
           Sample.naive_cleaner O "D" [Sample.prices_table]
           Sample.prices_table).
  - reflexivity.
  - reflexivity.
Defined.

Lemma clean_dates_returns_witness :
  exists bound d',
    trim_bound Sample.env Sample.clock_2024_06_12
               (index_tz (df_index Sample.june_utc_table)) "W" = Ok bound
    /\ clean_dates Sample.env Sample.clock_2024_06_12 Sample.utc_cleaner O
                   "W" [Sample.june_utc_table]
       = (Ok (S (S (List.length [Sample.june_utc_table]))),
          ([Sample.june_utc_table]
           ++ [Sample.june_utc_table;
               df_mask (index_lt (df_index Sample.june_utc_table) bound)
                       Sample.june_utc_table;
               d'])%list).
Proof.
  apply (clean_dates_returns Sample.env Sample.clock_2024_06_12
           Sample.utc_cleaner O "W" [Sample.june_utc_table]
           Sample.june_utc_table).
  - reflexivity.
  - reflexivity.
  - right. split; discriminate.
Defined.

Lemma clean_dates_keeps_rows_whole_witness :
  exists pos,
    clean_dates Sample.env Sample.clock_2024_06_12 Sample.naive_cleaner O "M"
                [Sample.june_naive_table]
    = (Ok (S (S (List.length [Sample.june_naive_table]))),
       ([Sample.june_naive_table]
        ++ [Sample.june_naive_table;
            df_mask (index_lt (df_index Sample.june_naive_table)
                              (Calendar.midnight 2024 6 1))
                    Sample.june_naive_table;
            row_select pos Sample.june_naive_table])%list)
    /\ NoDup pos
    /\ (forall j, In j pos <->
          exists c,
            nth_error (s_values (df_index Sample.june_naive_table)) j
            = Some c
            /\ cell_lt (Calendar.midnight 2024 6 1) c = true).
Proof.
  apply (clean_dates_keeps_rows_whole Sample.env Sample.clock_2024_06_12
           Sample.naive_cleaner O "M" [Sample.june_naive_table]
           Sample.june_naive_table (Calendar.midnight 2024 6 1)).
  - reflexivity.
  - reflexivity.
  - vm_compute. reflexivity.
  - repeat constructor.
Defined.

Lemma clean_dates_idempotent_witness :
  exists r1 s1 d',
    clean_dates Sample.env Sample.clock_2024_06_12 Sample.naive_cleaner O "M"
                [Sample.june_naive_table] = (Ok r1, s1)
    /\ nth_error s1 r1 = Some d'
    /\ clean_dates Sample.env Sample.clock_2024_06_12 Sample.naive_cleaner
                   r1 "M" s1
       = (Ok (S (S (List.length s1))), (s1 ++ [d'; d'; d'])%list).
Proof.
  apply (clean_dates_idempotent Sample.env Sample.clock_2024_06_12
           Sample.naive_cleaner O "M" [Sample.june_naive_table]
           Sample.june_naive_table (Calendar.midnight 2024 6 1)).
  - reflexivity.
  - reflexivity.
  - vm_compute. reflexivity.
  - repeat constructor.
Defined.

Lemma year_index_cannot_be_trimmed_witness :
  exists d',
    nth_error [MoreSamples.year_table; MoreSamples.year_indexed_table] 1%nat
    = Some d'
    /\ is_datetime64_any_dtype (df_index d') = false
    /\ forall time_freq,
         clean_dates Sample.env Sample.clock_2024_06_12 Sample.naive_cleaner
                     1%nat time_freq
                     [MoreSamples.year_table; MoreSamples.year_indexed_table]
         = (Raise AttributeError,
            ([MoreSamples.year_table; MoreSamples.year_indexed_table]
             ++ [d'])%list).
Proof.
  apply (year_index_cannot_be_trimmed Sample.env Sample.clock_2024_06_12
           Sample.naive_cleaner O None false [MoreSamples.year_table]
           [MoreSamples.year_table; MoreSamples.year_indexed_table]
           1%nat "D" MoreSamples.year_table "year").
  - reflexivity.
  - reflexivity.
  - reflexivity.
  - vm_compute. reflexivity.
Defined.

Lemma to_time_then_clean_dates_without_zone_witness :
  index_tz (df_index MoreSamples.daily_indexed_table) = None
  /\ forall time_freq,
       exists r2 s2,
         clean_dates Sample.env Sample.clock_2024_06_12 Sample.naive_cleaner
                     1%nat time_freq
                     [MoreSamples.daily_table;
                      MoreSamples.daily_indexed_table]
         = (Ok r2, s2).
Proof.
  apply (to_time_then_clean_dates_without_zone Sample.env
           Sample.clock_2024_06_12 Sample.naive_cleaner O None false
           [MoreSamples.daily_table]
           [MoreSamples.daily_table; MoreSamples.daily_indexed_table]
           1%nat "D" MoreSamples.daily_table
           MoreSamples.daily_indexed_table "date").
  - reflexivity.
  - reflexivity.
  - reflexivity.
  - reflexivity.
  - vm_compute. reflexivity.
  - reflexivity.
  - reflexivity.
Defined.

Lemma cleaning_values_without_text_columns_witness :
  cleaning_values Sample.env Sample.naive_cleaner O [Sample.timestamp_table]
  = (Ok (List.length [Sample.timestamp_table]),
     ([Sample.timestamp_table] ++ [Sample.timestamp_table])%list).
Proof.
  apply (cleaning_values_without_text_columns Sample.env
           Sample.naive_cleaner O
           [Sample.timestamp_table] Sample.timestamp_table).
  - reflexivity.
  - reflexivity.
Defined.



Lemma to_df_keeps_exactly_clean_rows_witness :
  exists r s' pos,
    to_df Sample.env SampleIO.io Sample.naive_cleaner "data.csv" "," []
    = (Ok (Some r, []), s')
    /\ nth_error s' r
       = Some (row_select pos
                 (rename_columns SampleIO.io SampleIO.raw_table))
    /\ column_names (row_select pos
                       (rename_columns SampleIO.io SampleIO.raw_table))
       = map (clean_header SampleIO.io) (column_names SampleIO.raw_table)
    /\ (forall j, In j pos <->
          (j < List.length (s_values (df_index SampleIO.raw_table)))%nat
          /\ row_clean Sample.env SampleIO.io SampleIO.raw_table j = true)
    /\ StronglySorted lt pos
    /\ firstn (List.length (@nil DataFrame)) s' = [].
Proof.
  apply (to_df_keeps_exactly_clean_rows Sample.env SampleIO.io
           Sample.naive_cleaner "data.csv" "," [] SampleIO.raw_table).
  reflexivity.
Defined.

Lemma to_df_result_has_no_flagged_cell_witness :
  flagged Sample.env SampleIO.io (Str "12%") = false.
Proof.
  apply (to_df_result_has_no_flagged_cell Sample.env SampleIO.io
           Sample.naive_cleaner "data.csv" "," [] SampleIO.raw_table 1%nat
           [rename_columns SampleIO.io SampleIO.raw_table;
            mkDF [("date", Sample.obj [Str "2024-06-09"]);
                  ("price", Sample.obj [Str "12%"])]
                 (mkSeries DInt64 [Int 0])]
           (mkDF [("date", Sample.obj [Str "2024-06-09"]);
                  ("price", Sample.obj [Str "12%"])]
                 (mkSeries DInt64 [Int 0])))
    with (name := "price") (ser := Sample.obj [Str "12%"]).
  - reflexivity.
  - vm_compute. reflexivity.
  - reflexivity.
  - right. left. reflexivity.
  - left. reflexivity.
Defined.
